(** * Startup resource allocation: the validation and scoring pipeline

    A shallow embedding of [app.py]: row validation, the weighted
    priority score, the category bands, the explanation tags, ranking and the
    summary, together with the parts of the Python runtime the pipeline calls
    ([bytes.decode], [csv.DictReader], [str.strip], [float], [round],
    [repr], [list.sort]).

    Python text is a list of Unicode code points, Python floats are the
    kernel's binary64 floats, dictionaries are finite maps. The runtime is
    CPython 3.11 (Unicode 14); an exception that leaves a function is the
    left summand of its result. *)

From Stdlib Require Import ZArith List String Ascii Floats Bool Lia Decimal DecimalPos.
From stdpp Require Import base option list gmap strings sorting.

Set Warnings "-inexact-float".

#[local] Open Scope Z_scope.

(** ** Python text *)

(** A [str]: a sequence of code points. *)
Definition str := list Z.

Module Utf8.

Definition bytes_of (s : string) : list Z :=
  (λ a, Z.of_N (N_of_ascii a)) <$> list_ascii_of_string s.

Definition is_cont (b : Z) : bool := (0x80 <=? b) && (b <=? 0xBF).

(** [bytes.decode("utf-8")] with [errors="strict"]: [None] stands for
    [UnicodeDecodeError] (a stray or missing continuation byte, an overlong
    form, a surrogate, a value above U+10FFFF). *)
Fixpoint decode (bs : list Z) : option str :=
  match bs with
  | [] => Some []
  | b0 :: r0 =>
    if b0 <? 0x80 then cons b0 <$> decode r0 else
    match r0 with
    | [] => None
    | b1 :: r1 =>
      if b0 <? 0xC0 then None else
      if b0 <? 0xE0 then
        let c := (b0 - 0xC0) * 64 + (b1 - 0x80) in
        if is_cont b1 && (0x80 <=? c) then cons c <$> decode r1 else None
      else
      match r1 with
      | [] => None
      | b2 :: r2 =>
        if b0 <? 0xF0 then
          let c := (b0 - 0xE0) * 4096 + (b1 - 0x80) * 64 + (b2 - 0x80) in
          if is_cont b1 && is_cont b2 && (0x800 <=? c)
             && negb ((0xD800 <=? c) && (c <=? 0xDFFF))
          then cons c <$> decode r2 else None
        else
        match r2 with
        | [] => None
        | b3 :: r3 =>
          let c := (b0 - 0xF0) * 262144 + (b1 - 0x80) * 4096
                   + (b2 - 0x80) * 64 + (b3 - 0x80) in
          if (b0 <? 0xF8) && is_cont b1 && is_cont b2 && is_cont b3
             && (0x10000 <=? c) && (c <=? 0x10FFFF)
          then cons c <$> decode r3 else None
        end
      end
    end
  end.

(** [bytes.decode("utf-8-sig")]: one leading byte-order mark is dropped. *)
Definition decode_sig (bs : list Z) : option str :=
  match bs with
  | 0xEF :: 0xBB :: 0xBF :: r => decode r
  | _ => decode bs
  end.

End Utf8.

(** A text literal: the code points of the UTF-8 bytes of [s]. *)
Definition u (s : string) : str := default [] (Utf8.decode (Utf8.bytes_of s)).

Definition str_eqb (a b : str) : bool := bool_decide (a = b).

(** [a < b] on [str]: lexicographic on code points. *)
Fixpoint str_ltb (a b : str) : bool :=
  match a, b with
  | _, [] => false
  | [], _ :: _ => true
  | x :: a', y :: b' => (x <? y) || ((x =? y) && str_ltb a' b')
  end.

(** [sep.join(l)] *)
Fixpoint join (sep : str) (l : list str) : str :=
  match l with
  | [] => []
  | [x] => x
  | x :: l' => x ++ sep ++ join sep l'
  end.

(** [str.isspace] on one code point (Unicode 14: bidirectional class WS, B
    or S, or category Zs). *)
Definition is_space (c : Z) : bool :=
  ((0x09 <=? c) && (c <=? 0x0D)) || ((0x1C <=? c) && (c <=? 0x20))
  || (c =? 0x85) || (c =? 0xA0) || (c =? 0x1680)
  || ((0x2000 <=? c) && (c <=? 0x200A))
  || (c =? 0x2028) || (c =? 0x2029) || (c =? 0x202F) || (c =? 0x205F)
  || (c =? 0x3000).

Fixpoint lstrip (s : str) : str :=
  match s with
  | c :: s' => if is_space c then lstrip s' else s
  | [] => []
  end.

Definition rstrip (s : str) : str := reverse (lstrip (reverse s)).

(** [s.strip()] *)
Definition strip (s : str) : str := rstrip (lstrip s).

(** [str(n)] for an [int]. *)
Fixpoint uint_digits (d : Decimal.uint) : str :=
  match d with
  | Nil => []
  | D0 d => 48 :: uint_digits d
  | D1 d => 49 :: uint_digits d
  | D2 d => 50 :: uint_digits d
  | D3 d => 51 :: uint_digits d
  | D4 d => 52 :: uint_digits d
  | D5 d => 53 :: uint_digits d
  | D6 d => 54 :: uint_digits d
  | D7 d => 55 :: uint_digits d
  | D8 d => 56 :: uint_digits d
  | D9 d => 57 :: uint_digits d
  end.

Definition int_repr (n : Z) : str :=
  match n with
  | 0 => [48]
  | Z.pos p => uint_digits (Pos.to_uint p)
  | Z.neg p => 45 :: uint_digits (Pos.to_uint p)
  end.

(** ** Python floats *)

Module PyFloat.

(** The binary64 value nearest to [(-1)^s * n / d] (for [0 <= n], [0 < d]),
    ties to even: a correctly rounded decimal-to-binary conversion. The
    quotient is taken with at least 64 bits and its remainder is passed on as
    the rounding location. *)
Definition SF_of_ratio (s : bool) (n d : Z) : spec_float :=
  if n <=? 0 then S754_zero s else
  let sh := Z.max 0 (64 + Z.log2 d - Z.log2 n) in
  let q := n * 2 ^ sh / d in
  let r := (n * 2 ^ sh) mod d in
  let l := if r =? 0 then loc_Exact else loc_Inexact (2 * r ?= d) in
  binary_round_aux prec emax s q (- sh) l.

Definition of_ratio (s : bool) (n d : Z) : float := SF2Prim (SF_of_ratio s n d).

(** [n / d] rounded to an integer, halves to the even neighbour. *)
Definition round_half_even (n d : Z) : Z :=
  let q := n / d in
  match 2 * (n mod d) ?= d with
  | Lt => q
  | Gt => q + 1
  | Eq => if Z.even q then q else q + 1
  end.

(** [round(x, ndigits)] for a float [x] and [0 <= ndigits]: the decimal
    with [ndigits] places nearest to the exact value of [x] (halves to even),
    read back as a float. Zeros, infinities and NaN round to themselves. *)
Definition round (x : float) (ndigits : nat) : float :=
  match Prim2SF x with
  | S754_finite s m e =>
      if 323 <? Z.of_nat ndigits then x else
      let p := 10 ^ Z.of_nat ndigits in
      let k := round_half_even (Z.pos m * 2 ^ Z.max e 0 * p) (2 ^ Z.max (- e) 0) in
      of_ratio s k p
  | _ => x
  end.

(** *** [float(s)] *)

(** The zeros of the decimal digit runs of Unicode 14 (category Nd). *)
Definition decimal_starts : list Z :=
  [0x30; 0x660; 0x6f0; 0x7c0; 0x966; 0x9e6; 0xa66; 0xae6; 0xb66; 0xbe6; 0xc66;
   0xce6; 0xd66; 0xde6; 0xe50; 0xed0; 0xf20; 0x1040; 0x1090; 0x17e0; 0x1810;
   0x1946; 0x19d0; 0x1a80; 0x1a90; 0x1b50; 0x1bb0; 0x1c40; 0x1c50; 0xa620;
   0xa8d0; 0xa900; 0xa9d0; 0xa9f0; 0xaa50; 0xabf0; 0xff10; 0x104a0; 0x10d30;
   0x11066; 0x110f0; 0x11136; 0x111d0; 0x112f0; 0x11450; 0x114d0; 0x11650;
   0x116c0; 0x11730; 0x118e0; 0x11950; 0x11c50; 0x11d50; 0x11da0; 0x16a60;
   0x16ac0; 0x16b50; 0x1d7ce; 0x1d7d8; 0x1d7e2; 0x1d7ec; 0x1d7f6; 0x1e140;
   0x1e2f0; 0x1e950; 0x1fbf0].

Definition to_decimal (c : Z) : option Z :=
  (λ z, c - z) <$> List.find (λ z, (z <=? c) && (c <? z + 10)) decimal_starts.

(** Non-ASCII spaces become [' '], non-ASCII decimal digits their ASCII
    digit; the text is cut after the first other non-ASCII character, which
    becomes ['?']. *)
Fixpoint to_ascii (s : str) : str :=
  match s with
  | [] => []
  | c :: s' =>
    if c <? 127 then c :: to_ascii s'
    else if is_space c then 32 :: to_ascii s'
    else match to_decimal c with
         | Some d => (48 + d) :: to_ascii s'
         | None => [63]
         end
  end.

Definition transform (s : str) : str :=
  if forallb (λ c, c <? 128) s then s else to_ascii s.

Definition is_ascii_space (c : Z) : bool := ((0x09 <=? c) && (c <=? 0x0D)) || (c =? 0x20).
Definition is_digit (c : Z) : bool := (48 <=? c) && (c <=? 57).

Fixpoint lstrip_ascii (s : str) : str :=
  match s with
  | c :: s' => if is_ascii_space c then lstrip_ascii s' else s
  | [] => []
  end.

(** Underscores may only stand between two digits; they are removed. *)
Fixpoint remove_underscores (prev : Z) (s : str) : option str :=
  match s with
  | [] => if prev =? 95 then None else Some []
  | c :: s' =>
    if c =? 0 then None
    else if c =? 95 then
      if is_digit prev then remove_underscores c s' else None
    else if (prev =? 95) && negb (is_digit c) then None
    else cons c <$> remove_underscores c s'
  end.

Fixpoint digits_prefix (s : str) : str * str :=
  match s with
  | c :: s' =>
    if is_digit c then let '(d, r) := digits_prefix s' in (c :: d, r) else ([], s)
  | [] => ([], [])
  end.

Definition digits_value (d : str) : Z := fold_left (λ a c, 10 * a + (c - 48)) d 0.

Definition sign_prefix (s : str) : bool * str :=
  match s with
  | 45 :: r => (true, r)
  | 43 :: r => (false, r)
  | _ => (false, s)
  end.

Definition lower (c : Z) : Z := if (65 <=? c) && (c <=? 90) then c + 32 else c.

(** [s] starts with [w], letter case ignored; the rest of [s]. *)
Fixpoint match_ci (w s : str) : option str :=
  match w, s with
  | [], _ => Some s
  | a :: w', c :: s' => if lower c =? a then match_ci w' s' else None
  | _ :: _, [] => None
  end.

(** A signed "inf", "infinity" or "nan" at the head of [s]. *)
Definition parse_inf_or_nan (s : str) : option (float * str) :=
  let '(neg, r) := sign_prefix s in
  match match_ci (u "inf") r with
  | Some r1 =>
      let r2 := default r1 (match_ci (u "inity") r1) in
      Some (if neg then neg_infinity else infinity, r2)
  | None =>
      match match_ci (u "nan") r with
      | Some r1 => Some (nan, r1)
      | None => None
      end
  end.

(** A decimal numeral at the head of [s]: sign, digits with an optional
    point (one digit at least), and an exponent when it has a digit. *)
Definition strtod (s : str) : option (float * str) :=
  let '(neg, s1) := sign_prefix s in
  let '(ip, s2) := digits_prefix s1 in
  let '(fp, s3) := match s2 with 46 :: r => digits_prefix r | _ => ([], s2) end in
  match ip ++ fp with
  | [] => None
  | ds =>
    let '(ex, s4) :=
      match s3 with
      | c :: r =>
        if (c =? 101) || (c =? 69) then
          let '(eneg, r1) := sign_prefix r in
          let '(ed, r2) := digits_prefix r1 in
          match ed with
          | [] => (0, s3)
          | _ => (if eneg then - digits_value ed else digits_value ed, r2)
          end
        else (0, s3)
      | [] => (0, s3)
      end in
    let e10 := ex - Z.of_nat (length fp) in
    Some (of_ratio neg (digits_value ds * 10 ^ Z.max e10 0) (10 ^ Z.max (- e10) 0), s4)
  end.

(** [float(s)] for a [str]; [None] stands for [ValueError]. Exact for
    texts with fewer than 10^9 digits. *)
Definition of_str (s : str) : option float :=
  let t := reverse (lstrip_ascii (reverse (lstrip_ascii (transform s)))) in
  t' ← (if bool_decide (95 ∈ t) then remove_underscores 0 t else Some t);
  match strtod t' with
  | Some (x, []) => Some x
  | Some _ => None
  | None =>
    match parse_inf_or_nan t' with
    | Some (x, []) => Some x
    | _ => None
    end
  end.

(** *** [repr(x)] *)

Definition pow10_le (k n d : Z) : bool :=
  if 0 <=? k then 10 ^ k * d <=? n else d <=? n * 10 ^ (- k).

(** The largest [k] with [10^k <= n / d], for [0 < n] and [0 < d]. *)
Definition ilog10 (n d : Z) : Z :=
  let g := (Z.log2 n - Z.log2 d) * 30103 / 100000 in
  if pow10_le (g + 1) n d then g + 1 else if pow10_le g n d then g else g - 1.

(** The decimal [c * 10^e] with [nd] significant digits that reads back
    as [a = n / d], if there is one: of the two neighbours of [a] the
    nearer one first (the even one when [a] is half way). *)
Definition repr_try (a : float) (n d lg nd : Z) : option (Z * Z) :=
  let sc := nd - 1 - lg in
  let n' := n * 10 ^ Z.max sc 0 in
  let d' := d * 10 ^ Z.max (- sc) 0 in
  let lo := n' / d' in
  let ok c := PrimFloat.eqb (of_ratio false (c * 10 ^ Z.max (- sc) 0) (10 ^ Z.max sc 0)) a in
  let up := match 2 * (n' mod d') ?= d' with
            | Gt => true | Lt => false | Eq => Z.odd lo
            end in
  let c1 := if up then lo + 1 else lo in
  let c2 := if up then lo else lo + 1 in
  if ok c1 then Some (c1, - sc) else if ok c2 then Some (c2, - sc) else None.

Fixpoint repr_search (fuel : nat) (a : float) (n d lg nd : Z) : Z * Z :=
  match fuel with
  | O => (0, 0)
  | S fuel' =>
    match repr_try a n d lg nd with
    | Some r => r
    | None => repr_search fuel' a n d lg (nd + 1)
    end
  end.

(** The shortest decimal that reads back as [m * 2^e]; seventeen
    significant digits always do. *)
Definition shortest (m : positive) (e : Z) : Z * Z :=
  let n := Z.pos m * 2 ^ Z.max e 0 in
  let d := 2 ^ Z.max (- e) 0 in
  repr_search 17 (of_ratio false n d) n d (ilog10 n d) 1.

Fixpoint rstrip_zeros_rev (r : str) : str :=
  match r with
  | 48 :: r' => rstrip_zeros_rev r'
  | _ => r
  end.

Definition zeros (n : Z) : str := repeat 48 (Z.to_nat n).

(** [repr(x)] (also [str(x)] and the default format of an f-string). *)
Definition repr (x : float) : str :=
  match Prim2SF x with
  | S754_nan => u "nan"
  | S754_infinity s => if s then u "-inf" else u "inf"
  | S754_zero s => if s then u "-0.0" else u "0.0"
  | S754_finite s m e =>
    let '(c, e10) := shortest m e in
    let all := int_repr c in
    let ds := reverse (rstrip_zeros_rev (reverse all)) in
    let decpt := Z.of_nat (length all) + e10 in
    let body :=
      if (decpt <=? -4) || (16 <? decpt) then
        let ex := decpt - 1 in
        let exd := int_repr (Z.abs ex) in
        take 1 ds ++ (match drop 1 ds with [] => [] | r => 46 :: r end)
        ++ [101; if ex <? 0 then 45 else 43]
        ++ (if Z.abs ex <? 10 then 48 :: exd else exd)
      else if decpt <=? 0 then u "0." ++ zeros (- decpt) ++ ds
      else if Z.of_nat (length ds) <=? decpt then
        ds ++ zeros (decpt - Z.of_nat (length ds)) ++ u ".0"
      else take (Z.to_nat decpt) ds ++ 46 :: drop (Z.to_nat decpt) ds in
    if s then 45 :: body else body
  end.

End PyFloat.

(** ** [csv.reader] and [csv.DictReader] (CPython 3.11, the default
    excel dialect: comma delimiter, double-quote as quote character, a
    doubled quote inside a quoted field stands for one quote, no escape
    character, not strict) *)

Module Csv.

Inductive state :=
  | START_RECORD | START_FIELD | IN_FIELD | IN_QUOTED_FIELD
  | QUOTE_IN_QUOTED_FIELD | EAT_CRNL.

Record reader := Reader { st : state; fields : list str; field : str }.

Inductive error := FieldLimit | NewlineInField.

Definition message (e : error) : str :=
  match e with
  | FieldLimit => u "field larger than field limit (131072)"
  | NewlineInField =>
      u "new-line character seen in unquoted field - do you need to open the file in universal-newline mode?"
  end.

Definition field_limit : Z := 131072.

Definition set_state (s : state) (r : reader) : reader :=
  Reader s (fields r) (field r).

Definition add_char (c : Z) (s : state) (r : reader) : error + reader :=
  if field_limit <=? Z.of_nat (length (field r)) then inl FieldLimit
  else inr (Reader s (fields r) (field r ++ [c])).

Definition save_field (s : state) (r : reader) : error + reader :=
  inr (Reader s (fields r ++ [field r]) []).

Definition is_nl (c : Z) : bool := (c =? 10) || (c =? 13).

(** One step of the parser; [None] is the end of a line. *)
Definition process_char (r : reader) (c : option Z) : error + reader :=
  match st r, c with
  | START_RECORD, None => inr r
  | (START_RECORD | START_FIELD), Some ch =>
      if is_nl ch then
        match st r with
        | START_RECORD => inr (set_state EAT_CRNL r)
        | _ => save_field EAT_CRNL r
        end
      else if ch =? 34 then inr (set_state IN_QUOTED_FIELD r)
      else if ch =? 44 then save_field START_FIELD r
      else add_char ch IN_FIELD r
  | START_FIELD, None => save_field START_RECORD r
  | IN_FIELD, None => save_field START_RECORD r
  | IN_FIELD, Some ch =>
      if is_nl ch then save_field EAT_CRNL r
      else if ch =? 44 then save_field START_FIELD r
      else add_char ch IN_FIELD r
  | IN_QUOTED_FIELD, None => inr r
  | IN_QUOTED_FIELD, Some ch =>
      if ch =? 34 then inr (set_state QUOTE_IN_QUOTED_FIELD r)
      else add_char ch IN_QUOTED_FIELD r
  | QUOTE_IN_QUOTED_FIELD, None => save_field START_RECORD r
  | QUOTE_IN_QUOTED_FIELD, Some ch =>
      if ch =? 34 then add_char ch IN_QUOTED_FIELD r
      else if ch =? 44 then save_field START_FIELD r
      else if is_nl ch then save_field EAT_CRNL r
      else add_char ch IN_FIELD r
  | EAT_CRNL, None => inr (set_state START_RECORD r)
  | EAT_CRNL, Some ch => if is_nl ch then inr r else inl NewlineInField
  end.

Fixpoint process_line (r : reader) (line : str) : error + reader :=
  match line with
  | [] => process_char r None
  | c :: line' =>
    match process_char r (Some c) with
    | inl e => inl e
    | inr r' => process_line r' line'
    end
  end.

Definition reset : reader := Reader START_RECORD [] [].

(** The records the reader yields from [lines], in order, until the input
    ends or a [csv.Error] is raised (the second component). A record goes on
    to the next line while the parser is inside a quoted field; at the end of
    the input an open field closes the last record. *)
Fixpoint records (lines : list str) (r : reader) : list (list str) * option error :=
  match lines with
  | [] =>
    match field r, st r with
    | [], (START_RECORD | START_FIELD | IN_FIELD | QUOTE_IN_QUOTED_FIELD | EAT_CRNL) =>
        ([], None)
    | _, _ => ([fields r ++ [field r]], None)
    end
  | l :: lines' =>
    match process_line r l with
    | inl e => ([], Some e)
    | inr r' =>
      match st r' with
      | START_RECORD =>
          let '(rs, e) := records lines' reset in (fields r' :: rs, e)
      | _ => records lines' r'
      end
    end
  end.

(** Iterating an [io.StringIO]: the lines of the text, each with its
    line feed (no newline translation). *)
Fixpoint lines_from (cur s : str) : list str :=
  match s with
  | [] => match cur with [] => [] | _ => [cur] end
  | c :: s' =>
    if c =? 10 then (cur ++ [c]) :: lines_from [] s' else lines_from (cur ++ [c]) s'
  end.

Definition read (text : str) : list (list str) * option error :=
  records (lines_from [] text) reset.

End Csv.

(** A row of a [DictReader]: field name to value, [None] where the record
    was shorter than the header ([restval]). The list of surplus values of a
    longer record sits under the key [None] (the [restkey]), which no lookup
    by a field name sees; it is left out. *)
Definition row := gmap str (option str).

Definition dict_row (fieldnames record : list str) : row :=
  let d := fold_left (λ d kv, <[kv.1 := Some kv.2]> d) (zip fieldnames record) ∅ in
  fold_left (λ d k, <[k := None]> d) (drop (length record) fieldnames) d.

(** [list(reader)] for a [DictReader] whose header is read: empty records
    are skipped. *)
Definition dict_rows (fieldnames : list str) (records : list (list str)) : list row :=
  dict_row fieldnames <$> filter (λ r, r ≠ []) records.

(** ** [sorted] and [list.sort] *)

Section Sort.
Context {A K : Type} (lt : K → K → bool) (key : A → K).

Fixpoint insert_sorted (x : A) (l : list A) : list A :=
  match l with
  | [] => [x]
  | y :: l' => if lt (key y) (key x) then y :: insert_sorted x l' else x :: y :: l'
  end.

(** A stable ascending sort that compares keys with [<] only. On keys that
    [<] orders totally every stable sort returns this list; CPython's order
    for other keys (a NaN among floats) depends on its merge strategy, and
    agrees with this one on lists of two. *)
Fixpoint py_sorted (l : list A) : list A :=
  match l with
  | [] => []
  | x :: l' => insert_sorted x (py_sorted l')
  end.

(** [reverse=True]: the list is reversed, sorted and reversed again. *)
Definition py_sorted_reverse (l : list A) : list A := reverse (py_sorted (reverse l)).

(** [a] does not come after [b]: the key of [b] is not below that of [a]. *)
Definition not_after (a b : A) : Prop := lt (key b) (key a) = false.
End Sort.

(** ** The application *)

Module App.

(** The exceptions the pipeline can let escape. *)
Inductive exn :=
  | AttributeError        (* a method called on [None] *)
  | KeyError (key : str)  (* a missing dictionary key *)
  | ValueError.           (* [float] of a text that is no number *)

Definition M (A : Type) : Type := exn + A.

Definition bind {A B : Type} (m : M A) (f : A → M B) : M B :=
  match m with
  | inl e => inl e
  | inr a => f a
  end.

Notation "'let*' x := m 'in' k" := (bind m (λ x, k))
  (at level 10, x name, m at level 100, k at level 200, only parsing).

#[global] Instance float_inhabited : Inhabited float := populate 0%float.

(** [v.strip()] where [v] may be [None]. *)
Definition method_strip (v : option str) : M str :=
  match v with
  | Some s => inr (strip s)
  | None => inl AttributeError
  end.

(** [d.get(k, dflt)] and [d[k]] on a row. *)
Definition dict_get (d : row) (k : str) (dflt : option str) : option str :=
  default dflt (d !! k).

Definition dict_item (d : row) (k : str) : M (option str) :=
  match d !! k with
  | Some v => inr v
  | None => inl (KeyError k)
  end.

Definition to_float (s : str) : M float :=
  match PyFloat.of_str s with
  | Some x => inr x
  | None => inl ValueError
  end.

(** Scoring weights *)
Definition WEIGHTS : gmap str float :=
  {[ u "impact" := 0.35%float; u "urgency" := 0.30%float;
     u "effort" := 0.20%float; u "cost" := 0.15%float ]}.

Definition REQUIRED_COLUMNS : gset str :=
  {[ u "Project Name"; u "Impact Score"; u "Urgency Score";
     u "Effort Score"; u "Cost Score" ]}.

Definition score_fields : list str :=
  [u "Impact Score"; u "Urgency Score"; u "Effort Score"; u "Cost Score"].

Definition msg_missing (row_index : Z) (field : str) : str :=
  u "Row " ++ int_repr row_index ++ u ": '" ++ field ++ u "' is missing or empty.".

Definition msg_range (row_index : Z) (field : str) (num : float) : str :=
  u "Row " ++ int_repr row_index ++ u ": '" ++ field
  ++ u "' must be between 1 and 5 (got " ++ PyFloat.repr num ++ u ").".

Definition msg_number (row_index : Z) (field val : str) : str :=
  u "Row " ++ int_repr row_index ++ u ": '" ++ field
  ++ u "' must be a number (got '" ++ val ++ u "').".

(** The loop over [score_fields] of [validate_row], from the list of
    errors collected so far. *)
Fixpoint validate_scores (r : row) (row_index : Z) (fields : list str)
    (errors : list str) : M (list str) :=
  match fields with
  | [] => inr errors
  | field :: fields' =>
    let* val := method_strip (dict_get r field (Some [])) in
    match val with
    | [] => validate_scores r row_index fields' (errors ++ [msg_missing row_index field])
    | _ =>
      match PyFloat.of_str val with
      | Some num =>
        if (num <? 1)%float || (5 <? num)%float
        then validate_scores r row_index fields' (errors ++ [msg_range row_index field num])
        else validate_scores r row_index fields' errors
      | None =>
        validate_scores r row_index fields' (errors ++ [msg_number row_index field val])
      end
    end
  end.

(** Validate a single CSV row and return a list of error messages (empty
    means OK). *)
Definition validate_row (r : row) (row_index : Z) : M (list str) :=
  let* errors := validate_scores r row_index score_fields [] in
  let* name := method_strip (dict_get r (u "Project Name") (Some [])) in
  match name with
  | [] => inr (errors ++ [msg_missing row_index (u "Project Name")])
  | _ => inr errors
  end.

(** Calculate the weighted priority score. Effort and Cost are inverted
    (6 - value) so higher values penalize priority. *)
Definition calculate_priority_score (impact urgency effort cost : float) : float :=
  let score :=
    (impact * (WEIGHTS !!! u "impact")
     + urgency * (WEIGHTS !!! u "urgency")
     + (6 - effort) * (WEIGHTS !!! u "effort")
     + (6 - cost) * (WEIGHTS !!! u "cost"))%float in
  PyFloat.round score 2.

(** Categorize priority based on score thresholds. *)
Definition get_priority_category (score : float) : str :=
  if (3.8 <=? score)%float then u "High"
  else if (2.8 <=? score)%float then u "Medium"
  else u "Low".

(** Generate a human-readable explanation tag for the ranking. *)
Definition get_explanation (impact urgency effort cost : float) : str :=
  let tags := [] in
  let tags := if (4 <=? impact)%float then tags ++ [u "High Impact"] else tags in
  let tags := if (4 <=? urgency)%float then tags ++ [u "Urgent"] else tags in
  let tags := if (effort <=? 2)%float then tags ++ [u "Low Effort"] else tags in
  let tags := if (cost <=? 2)%float then tags ++ [u "Cost Efficient"] else tags in
  let tags := if (4 <=? effort)%float then tags ++ [u "High Effort ⚠️"] else tags in
  let tags := if (4 <=? cost)%float then tags ++ [u "Expensive ⚠️"] else tags in
  match tags with
  | [] => u "Balanced"
  | _ => join (u ", ") tags
  end.

(** One entry of [results]; [rank] is absent until the ranking loop. *)
Record project := Project {
  project_name : str;
  impact : float;
  urgency : float;
  effort : float;
  cost : float;
  priority_score : float;
  priority_category : str;
  explanation : str;
  rank : option Z
}.

Definition set_rank (p : project) (k : Z) : project :=
  Project (project_name p) (impact p) (urgency p) (effort p) (cost p)
    (priority_score p) (priority_category p) (explanation p) (Some k).

Record summary := Summary { high : Z; medium : Z; low : Z }.

Record payload := Payload {
  success : bool;
  total_projects : Z;
  summary_of : summary;
  projects : list project
}.

(** What the route returns: a JSON body with status 200, or an error
    message with status 400. *)
Inductive response :=
  | Ok200 (body : payload)
  | Error400 (error : str).

(** The validation loop of [analyze]; rows are numbered from [idx]. *)
Fixpoint validate_rows (rows : list row) (idx : Z) (all_errors : list str)
    : M (list str) :=
  match rows with
  | [] => inr all_errors
  | r :: rows' =>
    let* row_errors := validate_row r idx in
    validate_rows rows' (idx + 1) (all_errors ++ row_errors)
  end.

Definition score_row (r : row) : M project :=
  let* v := dict_item r (u "Impact Score") in
  let* s := method_strip v in
  let* impact := to_float s in
  let* v := dict_item r (u "Urgency Score") in
  let* s := method_strip v in
  let* urgency := to_float s in
  let* v := dict_item r (u "Effort Score") in
  let* s := method_strip v in
  let* effort := to_float s in
  let* v := dict_item r (u "Cost Score") in
  let* s := method_strip v in
  let* cost := to_float s in
  let score := calculate_priority_score impact urgency effort cost in
  let category := get_priority_category score in
  let explanation := get_explanation impact urgency effort cost in
  let* v := dict_item r (u "Project Name") in
  let* name := method_strip v in
  inr (Project name impact urgency effort cost score category explanation None).

(** The scoring loop of [analyze]. *)
Fixpoint score_rows (rows : list row) (results : list project) : M (list project) :=
  match rows with
  | [] => inr results
  | r :: rows' =>
    let* p := score_row r in
    score_rows rows' (results ++ [p])
  end.

(** [enumerate(results, start=1)] with [project["rank"] = rank]. *)
Fixpoint add_rank (results : list project) (rank : Z) : list project :=
  match results with
  | [] => []
  | p :: results' => set_rank p rank :: add_rank results' (rank + 1)
  end.

Definition count_category (c : str) (results : list project) : Z :=
  Z.of_nat (length (filter (λ p, priority_category p = c) results)).

(** [analyze] from the validation of the rows on. *)
Definition analyze_rows (rows : list row) : M response :=
  let* all_errors := validate_rows rows 2 [] in
  match all_errors with
  | _ :: _ =>
    inr (Error400 (u "Validation errors found:" ++ [10] ++ join [10] all_errors))
  | [] =>
    let* results := score_rows rows [] in
    let results := py_sorted_reverse PrimFloat.ltb priority_score results in
    let results := add_rank results 1 in
    let high := count_category (u "High") results in
    let medium := count_category (u "Medium") results in
    let low := count_category (u "Low") results in
    inr (Ok200 (Payload true (Z.of_nat (length results)) (Summary high medium low) results))
  end.

Definition csv_error (e : Csv.error) : response :=
  Error400 (u "CSV parsing error: " ++ Csv.message e).

(** [analyze] on the parsed header and the records after it ([err]: the
    [csv.Error] that ends the records, if any). *)
Definition analyze_table (header : list str) (records : list (list str))
    (err : option Csv.error) : M response :=
  let fieldnames := strip <$> header in
  let missing := REQUIRED_COLUMNS ∖ list_to_set fieldnames in
  if bool_decide (missing ≠ ∅) then
    inr (Error400 (u "Missing required columns: "
                   ++ join (u ", ") (py_sorted str_ltb id (elements missing))
                   ++ u ". Required columns are: "
                   ++ join (u ", ") (py_sorted str_ltb id (elements REQUIRED_COLUMNS))
                   ++ u "."))
  else
    match err with
    | Some e => inr (csv_error e)
    | None =>
      match dict_rows fieldnames records with
      | [] => inr (Error400 (u "The CSV file contains headers but no project data rows."))
      | rows => analyze_rows rows
      end
    end.

(** Accept the bytes of a CSV upload, validate, score, rank, and return
    the results. [inl e] is an exception that leaves the function. *)
Definition analyze (data : list Z) : M response :=
  match Utf8.decode_sig data with
  | None => inr (Error400 (u "Unable to read the file. Ensure it is a valid UTF-8 CSV."))
  | Some text =>
    match Csv.read text with
    | ([], Some e) => inr (csv_error e)
    | ([], None) => inr (Error400 (u "The uploaded CSV file appears to be empty."))
    | (header :: records, err) => analyze_table header records err
    end
  end.

End App.


(** ** The specification's reading of the pipeline *)

Module Spec.
Import App.

(** The text of a field of a row mapping, an absent field reading as the
    empty text. *)
Definition field_text (r : row) (field : str) : str :=
  match r !! field with
  | Some (Some s) => s
  | _ => []
  end.

(** Every required field of the row holds a text (the record was not
    shorter than the header). *)
Definition texts_only (r : row) : bool :=
  forallb (λ f, match r !! f with Some None => false | _ => true end)
          (score_fields ++ [u "Project Name"]).

(** The check of one score field: trim; empty, not a number, out of range. *)
Definition check_score (r : row) (row_index : Z) (field : str) : list str :=
  let val := strip (field_text r field) in
  match val with
  | [] => [msg_missing row_index field]
  | _ =>
    match PyFloat.of_str val with
    | None => [msg_number row_index field val]
    | Some num =>
      if (num <? 1)%float || (5 <? num)%float then [msg_range row_index field num] else []
    end
  end.

Definition check_name (r : row) (row_index : Z) : list str :=
  match strip (field_text r (u "Project Name")) with
  | [] => [msg_missing row_index (u "Project Name")]
  | _ => []
  end.

(** The errors of a row: the four score fields in their fixed order, then
    the project name. *)
Definition row_errors (r : row) (row_index : Z) : list str :=
  check_score r row_index (u "Impact Score")
  ++ check_score r row_index (u "Urgency Score")
  ++ check_score r row_index (u "Effort Score")
  ++ check_score r row_index (u "Cost Score")
  ++ check_name r row_index.

(** The errors of a batch, row by row; the first data row is row 2. *)
Definition batch_errors (rows : list row) : list str :=
  concat (imap (λ i r, row_errors r (2 + Z.of_nat i)) rows).

Definition tag_if (b : bool) (tag : str) : list str := if b then [tag] else [].

(** The tags in their fixed order, the two cautions named as the
    specification names them. *)
Definition claimed_tags (impact urgency effort cost : float) : list str :=
  tag_if (4 <=? impact)%float (u "High Impact")
  ++ tag_if (4 <=? urgency)%float (u "Urgent")
  ++ tag_if (effort <=? 2)%float (u "Low Effort")
  ++ tag_if (cost <=? 2)%float (u "Cost Efficient")
  ++ tag_if (4 <=? effort)%float (u "High Effort")
  ++ tag_if (4 <=? cost)%float (u "Expensive").

(** The same, the two cautions carrying the warning sign U+26A0 U+FE0F. *)
Definition tags (impact urgency effort cost : float) : list str :=
  tag_if (4 <=? impact)%float (u "High Impact")
  ++ tag_if (4 <=? urgency)%float (u "Urgent")
  ++ tag_if (effort <=? 2)%float (u "Low Effort")
  ++ tag_if (cost <=? 2)%float (u "Cost Efficient")
  ++ tag_if (4 <=? effort)%float (u "High Effort" ++ [32; 0x26A0; 0xFE0F])
  ++ tag_if (4 <=? cost)%float (u "Expensive" ++ [32; 0x26A0; 0xFE0F]).

Definition explanation_of (tags : list str) : str :=
  match tags with
  | [] => u "Balanced"
  | _ => join (u ", ") tags
  end.

(** The required column names in alphabetical order. *)
Definition sorted_required : list str :=
  [u "Cost Score"; u "Effort Score"; u "Impact Score"; u "Project Name";
   u "Urgency Score"].

Definition missing_columns (header : list str) : list str :=
  filter (λ c, c ∉ strip <$> header) sorted_required.

(** Two rows hold the same values in the required columns. *)
Definition same_required (r r' : row) : Prop :=
  ∀ c, c ∈ sorted_required → r !! c = r' !! c.

(** The data rows of an upload that passes the parsing stage: the text
    decodes, the reader raises no error, no required column is missing and
    there is a data row. *)
Definition data_rows (data : list Z) : option (list row) :=
  match Utf8.decode_sig data with
  | None => None
  | Some text =>
    match Csv.read text with
    | (header :: records, None) =>
      if bool_decide (REQUIRED_COLUMNS ∖ list_to_set (strip <$> header) = (∅ : gset str))
      then match dict_rows (strip <$> header) records with
           | [] => None
           | rows => Some rows
           end
      else None
    | _ => None
    end
  end.

(** [x] is not a NaN. *)
Definition not_nan (x : float) : Prop := Prim2SF x ≠ S754_nan.

(** Positions [i < j] of the list hold scores [s_i >= s_j]. *)
Definition non_increasing (l : list project) : Prop :=
  ∀ i j p q, (i < j)%nat → l !! i = Some p → l !! j = Some q →
    (App.priority_score q <=? App.priority_score p)%float = true.

(** What [score_row] puts in the entry of a row. *)
Definition scored (r : row) (p : project) : Prop :=
  r !! u "Project Name" = Some (Some (field_text r (u "Project Name")))
  ∧ project_name p = strip (field_text r (u "Project Name"))
  ∧ PyFloat.of_str (strip (field_text r (u "Impact Score"))) = Some (impact p)
  ∧ PyFloat.of_str (strip (field_text r (u "Urgency Score"))) = Some (urgency p)
  ∧ PyFloat.of_str (strip (field_text r (u "Effort Score"))) = Some (effort p)
  ∧ PyFloat.of_str (strip (field_text r (u "Cost Score"))) = Some (cost p)
  ∧ App.priority_score p
    = calculate_priority_score (impact p) (urgency p) (effort p) (cost p)
  ∧ priority_category p = get_priority_category (App.priority_score p)
  ∧ explanation p = get_explanation (impact p) (urgency p) (effort p) (cost p)
  ∧ rank p = None.

End Spec.

(** ** Sample uploads and rows *)

Module Samples.
Import App.

Definition whole_scores : list Z := [1; 2; 3; 4; 5].

Definition of_whole (n : Z) : float := PyFloat.of_ratio false n 1.

Definition sample_header : list str :=
  [u "Project Name"; u "Impact Score"; u "Urgency Score"; u "Effort Score"; u "Cost Score"].

Definition sample_row : row :=
  dict_row sample_header [u " "; u "4"; u "high"; u "6"; u ""].

Definition valid_csv : list Z := Utf8.bytes_of
"Project Name,Impact Score,Urgency Score,Effort Score,Cost Score,Owner
Alpha,4,4,3,2,ann
Beta, 5 ,5,1,1,bob

Gamma,1,1,5,5
Delta,3,3,3,3,dan
Epsilon,4,4,3,2,eve
".

Definition valid_body : payload :=
  Eval vm_compute in
  match analyze valid_csv with
  | inr (Ok200 body) => body
  | _ => Payload false 0 (Summary 0 0 0) []
  end.

Definition invalid_csv : list Z := Utf8.bytes_of
"Impact Score,Urgency Score,Effort Score,Cost Score, Project Name
4,high,6,,
5,5,1,1,Beta
0.5,3,3,3,
".

Definition invalid_rows : list row :=
  Eval vm_compute in default [] (Spec.data_rows invalid_csv).

Definition no_cost_csv : list Z := Utf8.bytes_of
"Project Name, Impact Score ,Effort Score,Notes
Alpha,4,3,first
".

Definition no_cost_text : str :=
  Eval vm_compute in default [] (Utf8.decode_sig no_cost_csv).

Definition no_cost_header : list str :=
  Eval vm_compute in match Csv.read no_cost_text with (h :: _, _) => h | _ => [] end.

Definition no_cost_records : list (list str) :=
  Eval vm_compute in match Csv.read no_cost_text with (_ :: r, _) => r | _ => [] end.

Definition plain_csv : list Z := Utf8.bytes_of
"Project Name,Impact Score,Urgency Score,Effort Score,Cost Score
Alpha,4,4,3,2
Beta, 5 ,5,1,1
Gamma,1,1,5,5
Delta,3,3,3,3
Epsilon,4,4,3,2
".

Definition nan_csv : list Z := Utf8.bytes_of
"Project Name,Impact Score,Urgency Score,Effort Score,Cost Score
Alpha,nan,3,3,3
Beta,3,3,3,3
".

Definition short_row_csv : list Z := Utf8.bytes_of
"Project Name,Impact Score,Urgency Score,Effort Score,Cost Score
Alpha,4
".

Definition tie_csv : list Z := Utf8.bytes_of
"Project Name,Impact Score,Urgency Score,Effort Score,Cost Score
Alpha,3,3,3,3
Beta,5,5,1,1
Gamma,3,3,3,3
Delta,4,4,3,2
Epsilon,3,3,3,3
".

Definition tie_body : payload :=
  Eval vm_compute in
  match analyze tie_csv with
  | inr (Ok200 body) => body
  | _ => Payload false 0 (Summary 0 0 0) []
  end.

Definition nan_row : row :=
  dict_row sample_header [u "Alpha"; u "  NaN "; u "3"; u "nAn"; u "3"].

Definition short_row : row :=
  Eval vm_compute in
  match Spec.data_rows short_row_csv with
  | Some [r] => r
  | _ => ∅
  end.

End Samples.

(** ** [str.lower] and [str.rsplit] *)

Module PyStr.

(** The simple lowercase mappings of Unicode 14: the code points
    [lo, lo + step, ..., hi] map to themselves plus [delta]. *)
Definition lower_ranges : list (Z * Z * Z * Z) :=
  [(0x41, 0x5a, 1, 32); (0xc0, 0xd6, 1, 32); (0xd8, 0xde, 1, 32); (0x100, 0x12e, 2, 1);
   (0x132, 0x136, 2, 1); (0x139, 0x147, 2, 1); (0x14a, 0x176, 2, 1);
   (0x178, 0x178, 1, -121); (0x179, 0x17d, 2, 1); (0x181, 0x181, 1, 210);
   (0x182, 0x184, 2, 1); (0x186, 0x186, 1, 206); (0x187, 0x187, 1, 1);
   (0x189, 0x18a, 1, 205); (0x18b, 0x18b, 1, 1); (0x18e, 0x18e, 1, 79);
   (0x18f, 0x18f, 1, 202); (0x190, 0x190, 1, 203); (0x191, 0x191, 1, 1);
   (0x193, 0x193, 1, 205); (0x194, 0x194, 1, 207); (0x196, 0x196, 1, 211);
   (0x197, 0x197, 1, 209); (0x198, 0x198, 1, 1); (0x19c, 0x19c, 1, 211);
   (0x19d, 0x19d, 1, 213); (0x19f, 0x19f, 1, 214); (0x1a0, 0x1a4, 2, 1);
   (0x1a6, 0x1a6, 1, 218); (0x1a7, 0x1a7, 1, 1); (0x1a9, 0x1a9, 1, 218);
   (0x1ac, 0x1ac, 1, 1); (0x1ae, 0x1ae, 1, 218); (0x1af, 0x1af, 1, 1);
   (0x1b1, 0x1b2, 1, 217); (0x1b3, 0x1b5, 2, 1); (0x1b7, 0x1b7, 1, 219);
   (0x1b8, 0x1b8, 1, 1); (0x1bc, 0x1bc, 1, 1); (0x1c4, 0x1c4, 1, 2); (0x1c5, 0x1c5, 1, 1);
   (0x1c7, 0x1c7, 1, 2); (0x1c8, 0x1c8, 1, 1); (0x1ca, 0x1ca, 1, 2); (0x1cb, 0x1db, 2, 1);
   (0x1de, 0x1ee, 2, 1); (0x1f1, 0x1f1, 1, 2); (0x1f2, 0x1f4, 2, 1);
   (0x1f6, 0x1f6, 1, -97); (0x1f7, 0x1f7, 1, -56); (0x1f8, 0x21e, 2, 1);
   (0x220, 0x220, 1, -130); (0x222, 0x232, 2, 1); (0x23a, 0x23a, 1, 10795);
   (0x23b, 0x23b, 1, 1); (0x23d, 0x23d, 1, -163); (0x23e, 0x23e, 1, 10792);
   (0x241, 0x241, 1, 1); (0x243, 0x243, 1, -195); (0x244, 0x244, 1, 69);
   (0x245, 0x245, 1, 71); (0x246, 0x24e, 2, 1); (0x370, 0x372, 2, 1); (0x376, 0x376, 1, 1);
   (0x37f, 0x37f, 1, 116); (0x386, 0x386, 1, 38); (0x388, 0x38a, 1, 37);
   (0x38c, 0x38c, 1, 64); (0x38e, 0x38f, 1, 63); (0x391, 0x3a1, 1, 32);
   (0x3a3, 0x3ab, 1, 32); (0x3cf, 0x3cf, 1, 8); (0x3d8, 0x3ee, 2, 1);
   (0x3f4, 0x3f4, 1, -60); (0x3f7, 0x3f7, 1, 1); (0x3f9, 0x3f9, 1, -7);
   (0x3fa, 0x3fa, 1, 1); (0x3fd, 0x3ff, 1, -130); (0x400, 0x40f, 1, 80);
   (0x410, 0x42f, 1, 32); (0x460, 0x480, 2, 1); (0x48a, 0x4be, 2, 1);
   (0x4c0, 0x4c0, 1, 15); (0x4c1, 0x4cd, 2, 1); (0x4d0, 0x52e, 2, 1);
   (0x531, 0x556, 1, 48); (0x10a0, 0x10c5, 1, 7264); (0x10c7, 0x10c7, 1, 7264);
   (0x10cd, 0x10cd, 1, 7264); (0x13a0, 0x13ef, 1, 38864); (0x13f0, 0x13f5, 1, 8);
   (0x1c90, 0x1cba, 1, -3008); (0x1cbd, 0x1cbf, 1, -3008); (0x1e00, 0x1e94, 2, 1);
   (0x1e9e, 0x1e9e, 1, -7615); (0x1ea0, 0x1efe, 2, 1); (0x1f08, 0x1f0f, 1, -8);
   (0x1f18, 0x1f1d, 1, -8); (0x1f28, 0x1f2f, 1, -8); (0x1f38, 0x1f3f, 1, -8);
   (0x1f48, 0x1f4d, 1, -8); (0x1f59, 0x1f5f, 2, -8); (0x1f68, 0x1f6f, 1, -8);
   (0x1f88, 0x1f8f, 1, -8); (0x1f98, 0x1f9f, 1, -8); (0x1fa8, 0x1faf, 1, -8);
   (0x1fb8, 0x1fb9, 1, -8); (0x1fba, 0x1fbb, 1, -74); (0x1fbc, 0x1fbc, 1, -9);
   (0x1fc8, 0x1fcb, 1, -86); (0x1fcc, 0x1fcc, 1, -9); (0x1fd8, 0x1fd9, 1, -8);
   (0x1fda, 0x1fdb, 1, -100); (0x1fe8, 0x1fe9, 1, -8); (0x1fea, 0x1feb, 1, -112);
   (0x1fec, 0x1fec, 1, -7); (0x1ff8, 0x1ff9, 1, -128); (0x1ffa, 0x1ffb, 1, -126);
   (0x1ffc, 0x1ffc, 1, -9); (0x2126, 0x2126, 1, -7517); (0x212a, 0x212a, 1, -8383);
   (0x212b, 0x212b, 1, -8262); (0x2132, 0x2132, 1, 28); (0x2160, 0x216f, 1, 16);
   (0x2183, 0x2183, 1, 1); (0x24b6, 0x24cf, 1, 26); (0x2c00, 0x2c2f, 1, 48);
   (0x2c60, 0x2c60, 1, 1); (0x2c62, 0x2c62, 1, -10743); (0x2c63, 0x2c63, 1, -3814);
   (0x2c64, 0x2c64, 1, -10727); (0x2c67, 0x2c6b, 2, 1); (0x2c6d, 0x2c6d, 1, -10780);
   (0x2c6e, 0x2c6e, 1, -10749); (0x2c6f, 0x2c6f, 1, -10783); (0x2c70, 0x2c70, 1, -10782);
   (0x2c72, 0x2c72, 1, 1); (0x2c75, 0x2c75, 1, 1); (0x2c7e, 0x2c7f, 1, -10815);
   (0x2c80, 0x2ce2, 2, 1); (0x2ceb, 0x2ced, 2, 1); (0x2cf2, 0x2cf2, 1, 1);
   (0xa640, 0xa66c, 2, 1); (0xa680, 0xa69a, 2, 1); (0xa722, 0xa72e, 2, 1);
   (0xa732, 0xa76e, 2, 1); (0xa779, 0xa77b, 2, 1); (0xa77d, 0xa77d, 1, -35332);
   (0xa77e, 0xa786, 2, 1); (0xa78b, 0xa78b, 1, 1); (0xa78d, 0xa78d, 1, -42280);
   (0xa790, 0xa792, 2, 1); (0xa796, 0xa7a8, 2, 1); (0xa7aa, 0xa7aa, 1, -42308);
   (0xa7ab, 0xa7ab, 1, -42319); (0xa7ac, 0xa7ac, 1, -42315); (0xa7ad, 0xa7ad, 1, -42305);
   (0xa7ae, 0xa7ae, 1, -42308); (0xa7b0, 0xa7b0, 1, -42258); (0xa7b1, 0xa7b1, 1, -42282);
   (0xa7b2, 0xa7b2, 1, -42261); (0xa7b3, 0xa7b3, 1, 928); (0xa7b4, 0xa7c2, 2, 1);
   (0xa7c4, 0xa7c4, 1, -48); (0xa7c5, 0xa7c5, 1, -42307); (0xa7c6, 0xa7c6, 1, -35384);
   (0xa7c7, 0xa7c9, 2, 1); (0xa7d0, 0xa7d0, 1, 1); (0xa7d6, 0xa7d8, 2, 1);
   (0xa7f5, 0xa7f5, 1, 1); (0xff21, 0xff3a, 1, 32); (0x10400, 0x10427, 1, 40);
   (0x104b0, 0x104d3, 1, 40); (0x10570, 0x1057a, 1, 39); (0x1057c, 0x1058a, 1, 39);
   (0x1058c, 0x10592, 1, 39); (0x10594, 0x10595, 1, 39); (0x10c80, 0x10cb2, 1, 64);
   (0x118a0, 0x118bf, 1, 32); (0x16e40, 0x16e5f, 1, 32); (0x1e900, 0x1e921, 1, 34)].

(** The code points with the property Case_Ignorable. *)
Definition case_ignorable_ranges : list (Z * Z) :=
  [(0x27, 0x27); (0x2e, 0x2e); (0x3a, 0x3a); (0x5e, 0x5e); (0x60, 0x60); (0xa8, 0xa8);
   (0xad, 0xad); (0xaf, 0xaf); (0xb4, 0xb4); (0xb7, 0xb8); (0x2b0, 0x36f); (0x374, 0x375);
   (0x37a, 0x37a); (0x384, 0x385); (0x387, 0x387); (0x483, 0x489); (0x559, 0x559);
   (0x55f, 0x55f); (0x591, 0x5bd); (0x5bf, 0x5bf); (0x5c1, 0x5c2); (0x5c4, 0x5c5);
   (0x5c7, 0x5c7); (0x5f4, 0x5f4); (0x600, 0x605); (0x610, 0x61a); (0x61c, 0x61c);
   (0x640, 0x640); (0x64b, 0x65f); (0x670, 0x670); (0x6d6, 0x6dd); (0x6df, 0x6e8);
   (0x6ea, 0x6ed); (0x70f, 0x70f); (0x711, 0x711); (0x730, 0x74a); (0x7a6, 0x7b0);
   (0x7eb, 0x7f5); (0x7fa, 0x7fa); (0x7fd, 0x7fd); (0x816, 0x82d); (0x859, 0x85b);
   (0x888, 0x888); (0x890, 0x891); (0x898, 0x89f); (0x8c9, 0x902); (0x93a, 0x93a);
   (0x93c, 0x93c); (0x941, 0x948); (0x94d, 0x94d); (0x951, 0x957); (0x962, 0x963);
   (0x971, 0x971); (0x981, 0x981); (0x9bc, 0x9bc); (0x9c1, 0x9c4); (0x9cd, 0x9cd);
   (0x9e2, 0x9e3); (0x9fe, 0x9fe); (0xa01, 0xa02); (0xa3c, 0xa3c); (0xa41, 0xa42);
   (0xa47, 0xa48); (0xa4b, 0xa4d); (0xa51, 0xa51); (0xa70, 0xa71); (0xa75, 0xa75);
   (0xa81, 0xa82); (0xabc, 0xabc); (0xac1, 0xac5); (0xac7, 0xac8); (0xacd, 0xacd);
   (0xae2, 0xae3); (0xafa, 0xaff); (0xb01, 0xb01); (0xb3c, 0xb3c); (0xb3f, 0xb3f);
   (0xb41, 0xb44); (0xb4d, 0xb4d); (0xb55, 0xb56); (0xb62, 0xb63); (0xb82, 0xb82);
   (0xbc0, 0xbc0); (0xbcd, 0xbcd); (0xc00, 0xc00); (0xc04, 0xc04); (0xc3c, 0xc3c);
   (0xc3e, 0xc40); (0xc46, 0xc48); (0xc4a, 0xc4d); (0xc55, 0xc56); (0xc62, 0xc63);
   (0xc81, 0xc81); (0xcbc, 0xcbc); (0xcbf, 0xcbf); (0xcc6, 0xcc6); (0xccc, 0xccd);
   (0xce2, 0xce3); (0xd00, 0xd01); (0xd3b, 0xd3c); (0xd41, 0xd44); (0xd4d, 0xd4d);
   (0xd62, 0xd63); (0xd81, 0xd81); (0xdca, 0xdca); (0xdd2, 0xdd4); (0xdd6, 0xdd6);
   (0xe31, 0xe31); (0xe34, 0xe3a); (0xe46, 0xe4e); (0xeb1, 0xeb1); (0xeb4, 0xebc);
   (0xec6, 0xec6); (0xec8, 0xecd); (0xf18, 0xf19); (0xf35, 0xf35); (0xf37, 0xf37);
   (0xf39, 0xf39); (0xf71, 0xf7e); (0xf80, 0xf84); (0xf86, 0xf87); (0xf8d, 0xf97);
   (0xf99, 0xfbc); (0xfc6, 0xfc6); (0x102d, 0x1030); (0x1032, 0x1037); (0x1039, 0x103a);
   (0x103d, 0x103e); (0x1058, 0x1059); (0x105e, 0x1060); (0x1071, 0x1074);
   (0x1082, 0x1082); (0x1085, 0x1086); (0x108d, 0x108d); (0x109d, 0x109d);
   (0x10fc, 0x10fc); (0x135d, 0x135f); (0x1712, 0x1714); (0x1732, 0x1733);
   (0x1752, 0x1753); (0x1772, 0x1773); (0x17b4, 0x17b5); (0x17b7, 0x17bd);
   (0x17c6, 0x17c6); (0x17c9, 0x17d3); (0x17d7, 0x17d7); (0x17dd, 0x17dd);
   (0x180b, 0x180f); (0x1843, 0x1843); (0x1885, 0x1886); (0x18a9, 0x18a9);
   (0x1920, 0x1922); (0x1927, 0x1928); (0x1932, 0x1932); (0x1939, 0x193b);
   (0x1a17, 0x1a18); (0x1a1b, 0x1a1b); (0x1a56, 0x1a56); (0x1a58, 0x1a5e);
   (0x1a60, 0x1a60); (0x1a62, 0x1a62); (0x1a65, 0x1a6c); (0x1a73, 0x1a7c);
   (0x1a7f, 0x1a7f); (0x1aa7, 0x1aa7); (0x1ab0, 0x1ace); (0x1b00, 0x1b03);
   (0x1b34, 0x1b34); (0x1b36, 0x1b3a); (0x1b3c, 0x1b3c); (0x1b42, 0x1b42);
   (0x1b6b, 0x1b73); (0x1b80, 0x1b81); (0x1ba2, 0x1ba5); (0x1ba8, 0x1ba9);
   (0x1bab, 0x1bad); (0x1be6, 0x1be6); (0x1be8, 0x1be9); (0x1bed, 0x1bed);
   (0x1bef, 0x1bf1); (0x1c2c, 0x1c33); (0x1c36, 0x1c37); (0x1c78, 0x1c7d);
   (0x1cd0, 0x1cd2); (0x1cd4, 0x1ce0); (0x1ce2, 0x1ce8); (0x1ced, 0x1ced);
   (0x1cf4, 0x1cf4); (0x1cf8, 0x1cf9); (0x1d2c, 0x1d6a); (0x1d78, 0x1d78);
   (0x1d9b, 0x1dff); (0x1fbd, 0x1fbd); (0x1fbf, 0x1fc1); (0x1fcd, 0x1fcf);
   (0x1fdd, 0x1fdf); (0x1fed, 0x1fef); (0x1ffd, 0x1ffe); (0x200b, 0x200f);
   (0x2018, 0x2019); (0x2024, 0x2024); (0x2027, 0x2027); (0x202a, 0x202e);
   (0x2060, 0x2064); (0x2066, 0x206f); (0x2071, 0x2071); (0x207f, 0x207f);
   (0x2090, 0x209c); (0x20d0, 0x20f0); (0x2c7c, 0x2c7d); (0x2cef, 0x2cf1);
   (0x2d6f, 0x2d6f); (0x2d7f, 0x2d7f); (0x2de0, 0x2dff); (0x2e2f, 0x2e2f);
   (0x3005, 0x3005); (0x302a, 0x302d); (0x3031, 0x3035); (0x303b, 0x303b);
   (0x3099, 0x309e); (0x30fc, 0x30fe); (0xa015, 0xa015); (0xa4f8, 0xa4fd);
   (0xa60c, 0xa60c); (0xa66f, 0xa672); (0xa674, 0xa67d); (0xa67f, 0xa67f);
   (0xa69c, 0xa69f); (0xa6f0, 0xa6f1); (0xa700, 0xa721); (0xa770, 0xa770);
   (0xa788, 0xa78a); (0xa7f2, 0xa7f4); (0xa7f8, 0xa7f9); (0xa802, 0xa802);
   (0xa806, 0xa806); (0xa80b, 0xa80b); (0xa825, 0xa826); (0xa82c, 0xa82c);
   (0xa8c4, 0xa8c5); (0xa8e0, 0xa8f1); (0xa8ff, 0xa8ff); (0xa926, 0xa92d);
   (0xa947, 0xa951); (0xa980, 0xa982); (0xa9b3, 0xa9b3); (0xa9b6, 0xa9b9);
   (0xa9bc, 0xa9bd); (0xa9cf, 0xa9cf); (0xa9e5, 0xa9e6); (0xaa29, 0xaa2e);
   (0xaa31, 0xaa32); (0xaa35, 0xaa36); (0xaa43, 0xaa43); (0xaa4c, 0xaa4c);
   (0xaa70, 0xaa70); (0xaa7c, 0xaa7c); (0xaab0, 0xaab0); (0xaab2, 0xaab4);
   (0xaab7, 0xaab8); (0xaabe, 0xaabf); (0xaac1, 0xaac1); (0xaadd, 0xaadd);
   (0xaaec, 0xaaed); (0xaaf3, 0xaaf4); (0xaaf6, 0xaaf6); (0xab5b, 0xab5f);
   (0xab69, 0xab6b); (0xabe5, 0xabe5); (0xabe8, 0xabe8); (0xabed, 0xabed);
   (0xfb1e, 0xfb1e); (0xfbb2, 0xfbc2); (0xfe00, 0xfe0f); (0xfe13, 0xfe13);
   (0xfe20, 0xfe2f); (0xfe52, 0xfe52); (0xfe55, 0xfe55); (0xfeff, 0xfeff);
   (0xff07, 0xff07); (0xff0e, 0xff0e); (0xff1a, 0xff1a); (0xff3e, 0xff3e);
   (0xff40, 0xff40); (0xff70, 0xff70); (0xff9e, 0xff9f); (0xffe3, 0xffe3);
   (0xfff9, 0xfffb); (0x101fd, 0x101fd); (0x102e0, 0x102e0); (0x10376, 0x1037a);
   (0x10780, 0x10785); (0x10787, 0x107b0); (0x107b2, 0x107ba); (0x10a01, 0x10a03);
   (0x10a05, 0x10a06); (0x10a0c, 0x10a0f); (0x10a38, 0x10a3a); (0x10a3f, 0x10a3f);
   (0x10ae5, 0x10ae6); (0x10d24, 0x10d27); (0x10eab, 0x10eac); (0x10f46, 0x10f50);
   (0x10f82, 0x10f85); (0x11001, 0x11001); (0x11038, 0x11046); (0x11070, 0x11070);
   (0x11073, 0x11074); (0x1107f, 0x11081); (0x110b3, 0x110b6); (0x110b9, 0x110ba);
   (0x110bd, 0x110bd); (0x110c2, 0x110c2); (0x110cd, 0x110cd); (0x11100, 0x11102);
   (0x11127, 0x1112b); (0x1112d, 0x11134); (0x11173, 0x11173); (0x11180, 0x11181);
   (0x111b6, 0x111be); (0x111c9, 0x111cc); (0x111cf, 0x111cf); (0x1122f, 0x11231);
   (0x11234, 0x11234); (0x11236, 0x11237); (0x1123e, 0x1123e); (0x112df, 0x112df);
   (0x112e3, 0x112ea); (0x11300, 0x11301); (0x1133b, 0x1133c); (0x11340, 0x11340);
   (0x11366, 0x1136c); (0x11370, 0x11374); (0x11438, 0x1143f); (0x11442, 0x11444);
   (0x11446, 0x11446); (0x1145e, 0x1145e); (0x114b3, 0x114b8); (0x114ba, 0x114ba);
   (0x114bf, 0x114c0); (0x114c2, 0x114c3); (0x115b2, 0x115b5); (0x115bc, 0x115bd);
   (0x115bf, 0x115c0); (0x115dc, 0x115dd); (0x11633, 0x1163a); (0x1163d, 0x1163d);
   (0x1163f, 0x11640); (0x116ab, 0x116ab); (0x116ad, 0x116ad); (0x116b0, 0x116b5);
   (0x116b7, 0x116b7); (0x1171d, 0x1171f); (0x11722, 0x11725); (0x11727, 0x1172b);
   (0x1182f, 0x11837); (0x11839, 0x1183a); (0x1193b, 0x1193c); (0x1193e, 0x1193e);
   (0x11943, 0x11943); (0x119d4, 0x119d7); (0x119da, 0x119db); (0x119e0, 0x119e0);
   (0x11a01, 0x11a0a); (0x11a33, 0x11a38); (0x11a3b, 0x11a3e); (0x11a47, 0x11a47);
   (0x11a51, 0x11a56); (0x11a59, 0x11a5b); (0x11a8a, 0x11a96); (0x11a98, 0x11a99);
   (0x11c30, 0x11c36); (0x11c38, 0x11c3d); (0x11c3f, 0x11c3f); (0x11c92, 0x11ca7);
   (0x11caa, 0x11cb0); (0x11cb2, 0x11cb3); (0x11cb5, 0x11cb6); (0x11d31, 0x11d36);
   (0x11d3a, 0x11d3a); (0x11d3c, 0x11d3d); (0x11d3f, 0x11d45); (0x11d47, 0x11d47);
   (0x11d90, 0x11d91); (0x11d95, 0x11d95); (0x11d97, 0x11d97); (0x11ef3, 0x11ef4);
   (0x13430, 0x13438); (0x16af0, 0x16af4); (0x16b30, 0x16b36); (0x16b40, 0x16b43);
   (0x16f4f, 0x16f4f); (0x16f8f, 0x16f9f); (0x16fe0, 0x16fe1); (0x16fe3, 0x16fe4);
   (0x1aff0, 0x1aff3); (0x1aff5, 0x1affb); (0x1affd, 0x1affe); (0x1bc9d, 0x1bc9e);
   (0x1bca0, 0x1bca3); (0x1cf00, 0x1cf2d); (0x1cf30, 0x1cf46); (0x1d167, 0x1d169);
   (0x1d173, 0x1d182); (0x1d185, 0x1d18b); (0x1d1aa, 0x1d1ad); (0x1d242, 0x1d244);
   (0x1da00, 0x1da36); (0x1da3b, 0x1da6c); (0x1da75, 0x1da75); (0x1da84, 0x1da84);
   (0x1da9b, 0x1da9f); (0x1daa1, 0x1daaf); (0x1e000, 0x1e006); (0x1e008, 0x1e018);
   (0x1e01b, 0x1e021); (0x1e023, 0x1e024); (0x1e026, 0x1e02a); (0x1e130, 0x1e13d);
   (0x1e2ae, 0x1e2ae); (0x1e2ec, 0x1e2ef); (0x1e8d0, 0x1e8d6); (0x1e944, 0x1e94b);
   (0x1f3fb, 0x1f3ff); (0xe0001, 0xe0001); (0xe0020, 0xe007f); (0xe0100, 0xe01ef)].

(** The code points with the property Cased. *)
Definition cased_ranges : list (Z * Z) :=
  [(0x41, 0x5a); (0x61, 0x7a); (0xaa, 0xaa); (0xb5, 0xb5); (0xba, 0xba); (0xc0, 0xd6);
   (0xd8, 0xf6); (0xf8, 0x1ba); (0x1bc, 0x1bf); (0x1c4, 0x293); (0x295, 0x2b8);
   (0x2c0, 0x2c1); (0x2e0, 0x2e4); (0x345, 0x345); (0x370, 0x373); (0x376, 0x377);
   (0x37a, 0x37d); (0x37f, 0x37f); (0x386, 0x386); (0x388, 0x38a); (0x38c, 0x38c);
   (0x38e, 0x3a1); (0x3a3, 0x3f5); (0x3f7, 0x481); (0x48a, 0x52f); (0x531, 0x556);
   (0x560, 0x588); (0x10a0, 0x10c5); (0x10c7, 0x10c7); (0x10cd, 0x10cd); (0x10d0, 0x10fa);
   (0x10fd, 0x10ff); (0x13a0, 0x13f5); (0x13f8, 0x13fd); (0x1c80, 0x1c88);
   (0x1c90, 0x1cba); (0x1cbd, 0x1cbf); (0x1d00, 0x1dbf); (0x1e00, 0x1f15);
   (0x1f18, 0x1f1d); (0x1f20, 0x1f45); (0x1f48, 0x1f4d); (0x1f50, 0x1f57);
   (0x1f59, 0x1f59); (0x1f5b, 0x1f5b); (0x1f5d, 0x1f5d); (0x1f5f, 0x1f7d);
   (0x1f80, 0x1fb4); (0x1fb6, 0x1fbc); (0x1fbe, 0x1fbe); (0x1fc2, 0x1fc4);
   (0x1fc6, 0x1fcc); (0x1fd0, 0x1fd3); (0x1fd6, 0x1fdb); (0x1fe0, 0x1fec);
   (0x1ff2, 0x1ff4); (0x1ff6, 0x1ffc); (0x2071, 0x2071); (0x207f, 0x207f);
   (0x2090, 0x209c); (0x2102, 0x2102); (0x2107, 0x2107); (0x210a, 0x2113);
   (0x2115, 0x2115); (0x2119, 0x211d); (0x2124, 0x2124); (0x2126, 0x2126);
   (0x2128, 0x2128); (0x212a, 0x212d); (0x212f, 0x2134); (0x2139, 0x2139);
   (0x213c, 0x213f); (0x2145, 0x2149); (0x214e, 0x214e); (0x2160, 0x217f);
   (0x2183, 0x2184); (0x24b6, 0x24e9); (0x2c00, 0x2ce4); (0x2ceb, 0x2cee);
   (0x2cf2, 0x2cf3); (0x2d00, 0x2d25); (0x2d27, 0x2d27); (0x2d2d, 0x2d2d);
   (0xa640, 0xa66d); (0xa680, 0xa69d); (0xa722, 0xa787); (0xa78b, 0xa78e);
   (0xa790, 0xa7ca); (0xa7d0, 0xa7d1); (0xa7d3, 0xa7d3); (0xa7d5, 0xa7d9);
   (0xa7f5, 0xa7f6); (0xa7f8, 0xa7fa); (0xab30, 0xab5a); (0xab5c, 0xab68);
   (0xab70, 0xabbf); (0xfb00, 0xfb06); (0xfb13, 0xfb17); (0xff21, 0xff3a);
   (0xff41, 0xff5a); (0x10400, 0x1044f); (0x104b0, 0x104d3); (0x104d8, 0x104fb);
   (0x10570, 0x1057a); (0x1057c, 0x1058a); (0x1058c, 0x10592); (0x10594, 0x10595);
   (0x10597, 0x105a1); (0x105a3, 0x105b1); (0x105b3, 0x105b9); (0x105bb, 0x105bc);
   (0x10780, 0x10780); (0x10783, 0x10785); (0x10787, 0x107b0); (0x107b2, 0x107ba);
   (0x10c80, 0x10cb2); (0x10cc0, 0x10cf2); (0x118a0, 0x118df); (0x16e40, 0x16e7f);
   (0x1d400, 0x1d454); (0x1d456, 0x1d49c); (0x1d49e, 0x1d49f); (0x1d4a2, 0x1d4a2);
   (0x1d4a5, 0x1d4a6); (0x1d4a9, 0x1d4ac); (0x1d4ae, 0x1d4b9); (0x1d4bb, 0x1d4bb);
   (0x1d4bd, 0x1d4c3); (0x1d4c5, 0x1d505); (0x1d507, 0x1d50a); (0x1d50d, 0x1d514);
   (0x1d516, 0x1d51c); (0x1d51e, 0x1d539); (0x1d53b, 0x1d53e); (0x1d540, 0x1d544);
   (0x1d546, 0x1d546); (0x1d54a, 0x1d550); (0x1d552, 0x1d6a5); (0x1d6a8, 0x1d6c0);
   (0x1d6c2, 0x1d6da); (0x1d6dc, 0x1d6fa); (0x1d6fc, 0x1d714); (0x1d716, 0x1d734);
   (0x1d736, 0x1d74e); (0x1d750, 0x1d76e); (0x1d770, 0x1d788); (0x1d78a, 0x1d7a8);
   (0x1d7aa, 0x1d7c2); (0x1d7c4, 0x1d7cb); (0x1df00, 0x1df09); (0x1df0b, 0x1df1e);
   (0x1e900, 0x1e943); (0x1f130, 0x1f149); (0x1f150, 0x1f169); (0x1f170, 0x1f189)].

Definition in_ranges (c : Z) (rs : list (Z * Z)) : bool :=
  existsb (λ r, (r.1 <=? c) && (c <=? r.2)) rs.

Definition case_ignorable (c : Z) : bool := in_ranges c case_ignorable_ranges.
Definition cased (c : Z) : bool := in_ranges c cased_ranges.

Definition in_lower_range (c : Z) (r : Z * Z * Z * Z) : bool :=
  let '(lo, hi, step, _) := r in
  (lo <=? c) && (c <=? hi) && ((c - lo) mod step =? 0).

(** The full lowercase mapping of one code point; U+0130 maps to two. *)
Definition to_lower_full (c : Z) : str :=
  if c =? 0x130 then [0x69; 0x307] else
  match List.find (in_lower_range c) lower_ranges with
  | Some (_, _, _, delta) => [c + delta]
  | None => [c]
  end.

Fixpoint skip_ignorable (s : str) : str :=
  match s with
  | c :: s' => if case_ignorable c then skip_ignorable s' else s
  | [] => []
  end.

(** A capital sigma is final when a cased letter stands before it and none
    after it, case-ignorable characters skipped; [before] holds the text
    before it from the nearest character on. *)
Definition final_sigma (before after : str) : bool :=
  match skip_ignorable before with
  | c :: _ =>
    cased c && match skip_ignorable after with
               | d :: _ => negb (cased d)
               | [] => true
               end
  | [] => false
  end.

Fixpoint lower_from (before s : str) : str :=
  match s with
  | [] => []
  | c :: s' =>
    (if c =? 0x3A3 then [if final_sigma before s' then 0x3C2 else 0x3C3]
     else to_lower_full c) ++ lower_from (c :: before) s'
  end.

(** [s.lower()] *)
Definition str_lower (s : str) : str := lower_from [] s.

(** [s] cut at its last [sep]: the text before and the text after. *)
Fixpoint split_last (sep : Z) (s : str) : option (str * str) :=
  match s with
  | [] => None
  | c :: s' =>
    match split_last sep s' with
    | Some (a, b) => Some (c :: a, b)
    | None => if c =? sep then Some ([], s') else None
    end
  end.

(** [s.rsplit(sep, 1)] for a separator of one character. *)
Definition rsplit1 (sep : Z) (s : str) : list str :=
  match split_last sep s with
  | Some (a, b) => [a; b]
  | None => [s]
  end.

End PyStr.

(** ** The upload checks of the route *)

Module Upload.
Import App.

Definition ALLOWED_EXTENSIONS : gset str := {[ u "csv" ]}.

(** Check if the uploaded file has an allowed extension. [None] stands for
    the [IndexError] of the subscript [[1]]. *)
Definition allowed_file (filename : str) : option bool :=
  if bool_decide (46 ∈ filename) then
    ext ← PyStr.rsplit1 46 filename !! 1%nat;
    Some (bool_decide (PyStr.str_lower ext ∈ ALLOWED_EXTENSIONS))
  else Some false.

(** A file of [request.files]: its name and the bytes of its stream. *)
Record upload := Upload { filename : str; stream : list Z }.

(** What can leave the route: the [IndexError] of [allowed_file], or an
    exception of the pipeline. *)
Inductive raised :=
  | IndexError
  | Escaped (e : exn).

(** The route [analyze] on the files of a request the framework has parsed
    (field name to first file): the checks of presence, of the file name and
    of the extension, then the pipeline on the bytes read. What the framework
    itself raises while it reads the request (a body over
    [MAX_CONTENT_LENGTH], say) happens before these files exist and is not
    part of this function. *)
Definition analyze_request (files : gmap str upload) : raised + response :=
  match files !! u "file" with
  | None => inr (Error400 (u "No file part in the request."))
  | Some file =>
    match filename file with
    | [] => inr (Error400 (u "No file selected. Please upload a CSV file."))
    | _ =>
      match allowed_file (filename file) with
      | None => inl IndexError
      | Some false =>
          inr (Error400 (u "Invalid file format. Only .csv files are accepted."))
      | Some true =>
        match analyze (stream file) with
        | inl e => inl (Escaped e)
        | inr r => inr r
        end
      end
    end
  end.

End Upload.

(** ** Properties of the pipeline and of its parts *)

Module Props.
Import App.

(** The range [r] of the lowercase table has a code point that maps to [t]. *)
Definition reaches (t : Z) (r : Z * Z * Z * Z) : bool :=
  let '(lo, hi, _, delta) := r in (lo <=? t - delta) && (t - delta <=? hi).

(** [t] is one of the letters "c", "s", "v". *)
Definition is_csv_letter (t : Z) : Prop := t = 99 ∨ t = 115 ∨ t = 118.

(** The two steps by which [dict_row] fills a row. *)
Definition put (d : row) (kv : str * str) : row := <[kv.1 := Some kv.2]> d.
Definition put_none (d : row) (k : str) : row := <[k := None]> d.

(** [x] is between 1 and 5, or a NaN. *)
Definition in_band (x : float) : Prop :=
  Prim2SF x = S754_nan ∨ ((1 <=? x)%float = true ∧ (x <=? 5)%float = true).

(** A text without white space at either end. *)
Definition trimmed (s : str) : Prop :=
  (∀ c t, s = c :: t → is_space c = false)
  ∧ (∀ t c, s = t ++ [c] → is_space c = false).


Definition whole_score (i j e c : Z) : float :=
  calculate_priority_score (Samples.of_whole i) (Samples.of_whole j)
                           (Samples.of_whole e) (Samples.of_whole c).


(** On whole scores: one more point of impact or urgency raises the score,
    one more point of effort or cost lowers it. *)
Definition whole_steps (i j e c : Z) : bool :=
  let s := whole_score i j e c in
  ((5 <=? i) || PrimFloat.ltb s (whole_score (i + 1) j e c))
  && ((5 <=? j) || PrimFloat.ltb s (whole_score i (j + 1) e c))
  && ((5 <=? e) || PrimFloat.ltb (whole_score i j (e + 1) c) s)
  && ((5 <=? c) || PrimFloat.ltb (whole_score i j e (c + 1)) s).

(** [f] holds of every four whole scores from 1 to 5. *)
Definition for_whole (f : Z → Z → Z → Z → bool) : bool :=
  forallb (λ i, forallb (λ j, forallb (λ e, forallb (λ c, f i j e c)
    Samples.whole_scores) Samples.whole_scores) Samples.whole_scores)
    Samples.whole_scores.

(** Every carriage return of the text is followed by a line feed. *)
Definition crlf_only (text : str) : Prop :=
  ∀ i, text !! i = Some 13 → text !! S i = Some 10.

(** [crlf_only] as a check. *)
Fixpoint crlf_check (text : str) : bool :=
  match text with
  | [] => true
  | c :: t =>
    (if c =? 13 then match t with 10 :: _ => true | _ => false end else true)
    && crlf_check t
  end.

(** A line of the text: a line feed can only be its last character. *)
Definition line_ends (l : str) : Prop :=
  ∀ i, l !! i = Some 10 → S i = length l.

(** The character at position [n] of an error message (0 when there is
    none). *)
Definition message_char (n : nat) (r : M response) : Z :=
  match r with
  | inr (Error400 m) => default 0 (m !! n)
  | _ => 0
  end.

(** Two rows hold the same values up to white space at the ends. *)
Definition same_stripped (r r' : row) : Prop :=
  ∀ c, (fmap strip <$> r !! c) = (fmap strip <$> r' !! c).

(** The record with every field trimmed. *)
Definition trim_record (record : list str) : list str := strip <$> record.

(** The row with every value trimmed. *)
Definition trim_row (r : row) : row :=
  @fmap (gmap str) _ _ _ (λ v : option str, strip <$> v) r.

Definition trim_item (kv : str * str) : str * str := (kv.1, strip kv.2).

End Props.

(** ** More sample uploads *)

Module Cases.
Import App Upload.

(** A request whose file name has two dots and a capital extension. *)
Definition csv_request : gmap str upload :=
  {[ u "file" := Upload (u "plan.final.CSV") Samples.plain_csv ]}.

Definition csv_body : payload :=
  Eval vm_compute in
  match analyze_request csv_request with
  | inr (Ok200 body) => body
  | _ => Payload false 0 (Summary 0 0 0) []
  end.

(** An upload with an invalid row followed by a row shorter than the
    header. *)
Definition mixed_csv : list Z := Utf8.bytes_of
"Project Name,Impact Score,Urgency Score,Effort Score,Cost Score
Alpha,9,3,3,3
Beta,4
".

Definition mixed_rows : list row :=
  Eval vm_compute in default [] (Spec.data_rows mixed_csv).

Definition nan_body : payload :=
  Eval vm_compute in
  match analyze Samples.nan_csv with
  | inr (Ok200 body) => body
  | _ => Payload false 0 (Summary 0 0 0) []
  end.

(** The sample upload with the line ends of a Windows file. *)
Definition crlf_csv : list Z :=
  Eval vm_compute in
  flat_map (λ b, if b =? 10 then [13; 10] else [b]) Samples.plain_csv.

Definition crlf_text : str :=
  Eval vm_compute in default [] (Utf8.decode_sig crlf_csv).

End Cases.

(** * Facts about binary64 comparison and arithmetic *)

Module FloatFacts.
Import Spec.

Ltac cmp_cases :=
  repeat match goal with
  | H : context [(?a ?= ?b)%Z] |- _ => destruct (Z.compare_spec a b)
  | |- context [(?a ?= ?b)%Z] => destruct (Z.compare_spec a b)
  | H : context [PosDef.Pos.compare_cont Eq ?a ?b] |- _ =>
      change (PosDef.Pos.compare_cont Eq a b) with (Pos.compare a b) in *;
      destruct (Pos.compare_spec a b)
  | |- context [PosDef.Pos.compare_cont Eq ?a ?b] =>
      change (PosDef.Pos.compare_cont Eq a b) with (Pos.compare a b) in *;
      destruct (Pos.compare_spec a b)
  end.

Lemma SFcompare_antisym x y : SFcompare y x = CompOpp <$> SFcompare x y.
Proof.
  destruct x as [sx|sx| |sx mx ex], y as [sy|sy| |sy my ey]; simpl;
    try destruct sx; try destruct sy; simpl; try reflexivity;
    f_equal; cmp_cases; simpl; subst; try reflexivity; lia.
Qed.

Lemma SFcompare_refl x : x ≠ S754_nan → SFcompare x x = Some Eq.
Proof.
  destruct x as [sx|sx| |sx mx ex]; simpl; try destruct sx; try congruence; intros _;
    rewrite Z.compare_refl; f_equal;
    change (PosDef.Pos.compare_cont Eq mx mx) with (Pos.compare mx mx);
    now rewrite Pos.compare_refl.
Qed.

Lemma SFcompare_some x y : x ≠ S754_nan → y ≠ S754_nan → is_Some (SFcompare x y).
Proof. destruct x, y; simpl; try congruence; eauto. Qed.

Lemma SFcompare_none x y : SFcompare x y = None → x = S754_nan ∨ y = S754_nan.
Proof. destruct x, y; simpl; try discriminate; auto. Qed.

Lemma SFleb_trans x y z : SFleb x y = true → SFleb y z = true → SFleb x z = true.
Proof.
  unfold SFleb.
  destruct x as [sx|sx| |sx mx ex], y as [sy|sy| |sy my ey], z as [sz|sz| |sz mz ez];
    simpl; try destruct sx; try destruct sy; try destruct sz; simpl;
    try congruence; try reflexivity;
    intros H1 H2; cmp_cases; simpl in *; subst; try congruence; try reflexivity; try lia.
Qed.

(** [x <= y] is [true] only between two numbers. *)
Lemma leb_not_nan x y : (x <=? y)%float = true → not_nan x ∧ not_nan y.
Proof.
  rewrite FloatAxioms.leb_spec. unfold SFleb, not_nan. intros H.
  destruct (SFcompare (Prim2SF x) (Prim2SF y)) eqn:E; [|discriminate].
  split; intros N; rewrite N in E; [|destruct (Prim2SF x)]; discriminate.
Qed.

Lemma ltb_not_nan x y : (x <? y)%float = true → not_nan x ∧ not_nan y.
Proof.
  rewrite FloatAxioms.ltb_spec. unfold SFltb, not_nan. intros H.
  destruct (SFcompare (Prim2SF x) (Prim2SF y)) eqn:E; [|discriminate].
  split; intros N; rewrite N in E; [|destruct (Prim2SF x)]; discriminate.
Qed.

(** Between two numbers, [x < y] fails exactly when [y <= x]. *)
Lemma ltb_false_leb x y :
  not_nan x → not_nan y → (x <? y)%float = false → (y <=? x)%float = true.
Proof.
  rewrite FloatAxioms.ltb_spec, FloatAxioms.leb_spec. unfold SFltb, SFleb, not_nan. intros Nx Ny.
  rewrite (SFcompare_antisym (Prim2SF x) (Prim2SF y)).
  destruct (SFcompare_some _ _ Nx Ny) as [c ->]. now destruct c.
Qed.

Lemma leb_ltb_false x y : (y <=? x)%float = true → (x <? y)%float = false.
Proof.
  rewrite FloatAxioms.ltb_spec, FloatAxioms.leb_spec. unfold SFltb, SFleb.
  rewrite (SFcompare_antisym (Prim2SF x) (Prim2SF y)).
  destruct (SFcompare (Prim2SF x) (Prim2SF y)) as [[]|]; simpl; congruence.
Qed.

Lemma leb_false_ltb x y :
  not_nan x → not_nan y → (x <=? y)%float = false → (y <? x)%float = true.
Proof.
  rewrite FloatAxioms.ltb_spec, FloatAxioms.leb_spec. unfold SFltb, SFleb, not_nan. intros Nx Ny.
  rewrite (SFcompare_antisym (Prim2SF x) (Prim2SF y)).
  destruct (SFcompare_some _ _ Nx Ny) as [c ->]. now destruct c.
Qed.

Lemma ltb_leb_false x y : (y <? x)%float = true → (x <=? y)%float = false.
Proof.
  rewrite FloatAxioms.ltb_spec, FloatAxioms.leb_spec. unfold SFltb, SFleb.
  rewrite (SFcompare_antisym (Prim2SF x) (Prim2SF y)).
  destruct (SFcompare (Prim2SF x) (Prim2SF y)) as [[]|]; simpl; congruence.
Qed.

Lemma leb_trans x y z :
  (x <=? y)%float = true → (y <=? z)%float = true → (x <=? z)%float = true.
Proof. rewrite !FloatAxioms.leb_spec. apply SFleb_trans. Qed.

Lemma leb_refl x : not_nan x → (x <=? x)%float = true.
Proof.
  intros N. rewrite FloatAxioms.leb_spec. unfold SFleb. now rewrite (SFcompare_refl _ N).
Qed.

(** [x == y] holds exactly when neither is below the other, for numbers. *)
Lemma eqb_ltb x y :
  (x =? y)%float = true ↔
  not_nan x ∧ not_nan y ∧ (x <? y)%float = false ∧ (y <? x)%float = false.
Proof.
  rewrite FloatAxioms.eqb_spec, !FloatAxioms.ltb_spec. unfold SFeqb, SFltb, not_nan.
  rewrite (SFcompare_antisym (Prim2SF x) (Prim2SF y)).
  destruct (SFcompare (Prim2SF x) (Prim2SF y)) as [c|] eqn:E; simpl.
  - assert (Prim2SF x ≠ S754_nan ∧ Prim2SF y ≠ S754_nan) as [? ?].
    { split; intros N; rewrite N in E; [|destruct (Prim2SF x)]; discriminate. }
    destruct c; simpl; intuition congruence.
  - apply SFcompare_none in E. intuition congruence.
Qed.

(** Comparisons with a NaN are false. *)
Lemma leb_nan_r x y : Prim2SF y = S754_nan → (x <=? y)%float = false.
Proof. intros N. rewrite FloatAxioms.leb_spec, N. unfold SFleb. now destruct (Prim2SF x). Qed.

Lemma leb_nan_l x y : Prim2SF x = S754_nan → (x <=? y)%float = false.
Proof. intros N. now rewrite FloatAxioms.leb_spec, N. Qed.

Lemma ltb_nan_r x y : Prim2SF y = S754_nan → (x <? y)%float = false.
Proof. intros N. rewrite FloatAxioms.ltb_spec, N. unfold SFltb. now destruct (Prim2SF x). Qed.

Lemma ltb_nan_l x y : Prim2SF x = S754_nan → (x <? y)%float = false.
Proof. intros N. now rewrite FloatAxioms.ltb_spec, N. Qed.

(** A NaN operand makes the result of an operation a NaN. *)
Lemma mul_nan_l x y : Prim2SF x = S754_nan → Prim2SF (x * y) = S754_nan.
Proof. intros N. now rewrite FloatAxioms.mul_spec, N. Qed.

Lemma add_nan_l x y : Prim2SF x = S754_nan → Prim2SF (x + y) = S754_nan.
Proof. intros N. now rewrite FloatAxioms.add_spec, N. Qed.

Lemma add_nan_r x y : Prim2SF y = S754_nan → Prim2SF (x + y) = S754_nan.
Proof. intros N. rewrite FloatAxioms.add_spec, N. now destruct (Prim2SF x). Qed.

Lemma sub_nan_r x y : Prim2SF y = S754_nan → Prim2SF (x - y) = S754_nan.
Proof. intros N. rewrite FloatAxioms.sub_spec, N. now destruct (Prim2SF x). Qed.

Lemma round_nan x n : Prim2SF x = S754_nan → Prim2SF (PyFloat.round x n) = S754_nan.
Proof. intros N. unfold PyFloat.round. now rewrite N. Qed.

End FloatFacts.

(** * The scoring engine *)

Module Scoring.
Import App Spec FloatFacts.

Lemma weights :
  WEIGHTS !!! u "impact" = 0.35%float ∧ WEIGHTS !!! u "urgency" = 0.30%float
  ∧ WEIGHTS !!! u "effort" = 0.20%float ∧ WEIGHTS !!! u "cost" = 0.15%float.
Proof. vm_compute. auto. Qed.

Lemma score_formula (impact urgency effort cost : float) :
  calculate_priority_score impact urgency effort cost
  = PyFloat.round (impact * 0.35 + urgency * 0.30 + (6 - effort) * 0.20
                   + (6 - cost) * 0.15)%float 2.
Proof.
  unfold calculate_priority_score.
  destruct weights as (-> & -> & -> & ->). reflexivity.
Qed.

(** On whole scores 1..5 the float sum never leaves the hundredth it
    stands for: the result is the float nearest to
    [(35*impact + 30*urgency + 20*(6-effort) + 15*(6-cost)) / 100]. *)
Lemma calculate_priority_score_whole :
  forallb (λ i, forallb (λ j, forallb (λ e, forallb (λ c,
    PrimFloat.eqb
      (calculate_priority_score (Samples.of_whole i) (Samples.of_whole j)
                                (Samples.of_whole e) (Samples.of_whole c))
      (PyFloat.of_ratio false (35 * i + 30 * j + 20 * (6 - e) + 15 * (6 - c)) 100))
    Samples.whole_scores) Samples.whole_scores) Samples.whole_scores)
    Samples.whole_scores = true.
Proof. vm_compute. reflexivity. Qed.

Example score_best : calculate_priority_score 5 5 1 1 = 5%float.
Proof. vm_compute. reflexivity. Qed.

Example score_worst : calculate_priority_score 1 1 5 5 = 1%float.
Proof. vm_compute. reflexivity. Qed.

Example score_3_80 : calculate_priority_score 4 4 3 2 = 3.8%float.
Proof. vm_compute. reflexivity. Qed.

Example score_2_80 : calculate_priority_score 3 3 4 3 = 2.8%float.
Proof. vm_compute. reflexivity. Qed.

Lemma category_names :
  u "High" ≠ u "Medium" ∧ u "High" ≠ u "Low" ∧ u "Medium" ≠ u "Low".
Proof. vm_compute. repeat split; discriminate. Qed.

Lemma not_nan_3_8 : not_nan 3.8.
Proof. vm_compute. discriminate. Qed.

(** C2. [get_priority_category] returns "High" exactly when
    [score >= 3.8], "Medium" exactly when [2.8 <= score < 3.8] and "Low"
    exactly in the remaining cases; 3.80 is "High", 2.80 is "Medium" and 2.79
    is "Low", and 3.80 and 2.80 are scores of records (4,4,3,2 and 3,3,4,3). *)
Theorem get_priority_category_bands (score : float) :
  (get_priority_category score = u "High" ↔ (3.8 <=? score)%float = true)
  ∧ (get_priority_category score = u "Medium"
     ↔ (2.8 <=? score)%float = true ∧ (score <? 3.8)%float = true)
  ∧ (get_priority_category score = u "Low"
     ↔ (3.8 <=? score)%float = false
       ∧ ¬ ((2.8 <=? score)%float = true ∧ (score <? 3.8)%float = true))
  ∧ get_priority_category 3.80 = u "High"
  ∧ get_priority_category 2.80 = u "Medium"
  ∧ get_priority_category 2.79 = u "Low"
  ∧ calculate_priority_score 4 4 3 2 = 3.80%float
  ∧ calculate_priority_score 3 3 4 3 = 2.80%float.
Proof.
  destruct category_names as (HM & HL & ML).
  split; [|split; [|split; [|vm_compute; auto 10]]];
    unfold get_priority_category;
    destruct (3.8 <=? score)%float eqn:E1.
  - tauto.
  - destruct (2.8 <=? score)%float; split; congruence.
  - split; [congruence|]. intros [_ L]. apply ltb_leb_false in L. congruence.
  - destruct (2.8 <=? score)%float eqn:E2.
    + split; [|reflexivity]. intros _. split; [reflexivity|].
      apply leb_false_ltb; [apply not_nan_3_8 | apply (leb_not_nan _ _ E2) | assumption].
    + split; [congruence|]. intros [? _]. congruence.
  - split; [congruence|]. intros [? _]. congruence.
  - destruct (2.8 <=? score)%float eqn:E2.
    + split; [congruence|]. intros [_ N]. exfalso. apply N. split; [reflexivity|].
      apply leb_false_ltb; [apply not_nan_3_8 | apply (leb_not_nan _ _ E2) | assumption].
    + split; [|reflexivity]. intros _. split; [reflexivity|]. intros [? _]. congruence.
Qed.

(** The tags as [get_explanation] appends them are the tags of
    [Spec.tags], in that order, for all floats. *)
Lemma get_explanation_tags (impact urgency effort cost : float) :
  get_explanation impact urgency effort cost
  = explanation_of (tags impact urgency effort cost).
Proof.
  unfold get_explanation, tags, tag_if.
  destruct (4 <=? impact)%float, (4 <=? urgency)%float, (effort <=? 2)%float,
    (cost <=? 2)%float, (4 <=? effort)%float, (4 <=? cost)%float;
    vm_compute; reflexivity.
Qed.

(** C6, as stated, fails: for impact 1, urgency 1, effort 5, cost 5 the
    explanation is not made of the tags "High Effort" and "Expensive"; both
    carry a warning sign. *)
Lemma get_explanation_caution_sign :
  claimed_tags 1 1 5 5 = [u "High Effort"; u "Expensive"]
  ∧ get_explanation 1 1 5 5 = u "High Effort ⚠️, Expensive ⚠️"
  ∧ get_explanation 1 1 5 5 ≠ explanation_of (claimed_tags 1 1 5 5).
Proof. vm_compute. repeat split; discriminate. Qed.

Example explanation_best :
  get_explanation 5 5 1 1 = u "High Impact, Urgent, Low Effort, Cost Efficient".
Proof. vm_compute. reflexivity. Qed.

Example explanation_balanced : get_explanation 3 3 3 3 = u "Balanced".
Proof. vm_compute. reflexivity. Qed.

(** A NaN among the four values makes the score a NaN, which is "Low". *)
Lemma calculate_priority_score_nan (impact urgency effort cost : float) :
  Prim2SF impact = S754_nan ∨ Prim2SF urgency = S754_nan
  ∨ Prim2SF effort = S754_nan ∨ Prim2SF cost = S754_nan →
  Prim2SF (calculate_priority_score impact urgency effort cost) = S754_nan.
Proof.
  intros H. rewrite score_formula. apply round_nan.
  destruct H as [H|[H|[H|H]]].
  - do 2 apply add_nan_l. apply add_nan_l. now apply mul_nan_l.
  - do 2 apply add_nan_l. apply add_nan_r. now apply mul_nan_l.
  - apply add_nan_l. apply add_nan_r. apply mul_nan_l. now apply sub_nan_r.
  - apply add_nan_r. apply mul_nan_l. now apply sub_nan_r.
Qed.

Lemma get_priority_category_nan (score : float) :
  Prim2SF score = S754_nan → get_priority_category score = u "Low".
Proof.
  intros N. unfold get_priority_category. now rewrite !(leb_nan_r _ _ N).
Qed.

End Scoring.

(** * The row validator *)

Module Validation.
Import App Spec FloatFacts Scoring.

Lemma strip_nil : strip [] = [].
Proof. reflexivity. Qed.

(** One turn of the loop over the score fields appends the errors of
    that field's check. *)
Lemma validate_scores_step (r : row) (row_index : Z) (field : str)
    (fields : list str) (errors : list str) :
  r !! field ≠ Some None →
  validate_scores r row_index (field :: fields) errors
  = validate_scores r row_index fields (errors ++ check_score r row_index field).
Proof.
  intros H. cbn [validate_scores]. unfold dict_get, check_score, field_text.
  destruct (r !! field) as [[s|]|]; [| congruence |]; cbn [default from_option id method_strip bind].
  - destruct (strip s) as [|c val]; [reflexivity|].
    destruct (PyFloat.of_str (c :: val)) as [num|]; [|reflexivity].
    destruct ((num <? 1)%float || (5 <? num)%float); [reflexivity|].
    now rewrite app_nil_r.
  - rewrite strip_nil. reflexivity.
Qed.

Lemma texts_only_lookup (r : row) :
  texts_only r = true →
  r !! u "Impact Score" ≠ Some None ∧ r !! u "Urgency Score" ≠ Some None
  ∧ r !! u "Effort Score" ≠ Some None ∧ r !! u "Cost Score" ≠ Some None
  ∧ r !! u "Project Name" ≠ Some None.
Proof.
  unfold texts_only, score_fields. cbn [app forallb]. rewrite !andb_true_iff.
  intros (H1 & H2 & H3 & H4 & H5 & _).
  repeat split; intros E; rewrite E in *; discriminate.
Qed.

(** [validate_row] returns the errors of the five checks in their order. *)
Lemma validate_row_errors (r : row) (row_index : Z) :
  texts_only r = true → validate_row r row_index = inr (row_errors r row_index).
Proof.
  intros H. apply texts_only_lookup in H as (H1 & H2 & H3 & H4 & H5).
  unfold validate_row, score_fields, row_errors.
  rewrite !validate_scores_step by assumption. cbn [validate_scores bind app].
  unfold dict_get, check_name, field_text.
  destruct (r !! u "Project Name") as [[s|]|]; [| congruence |]; cbn [default from_option id method_strip bind].
  - destruct (strip s); [|rewrite app_nil_r]; now rewrite <- !app_assoc.
  - rewrite strip_nil. now rewrite <- !app_assoc.
Qed.

Lemma validate_scores_none (r : row) (row_index : Z) (field : str)
    (fields : list str) (errors : list str) :
  r !! field = Some None →
  validate_scores r row_index (field :: fields) errors = inl AttributeError.
Proof. intros H. cbn [validate_scores]. unfold dict_get. now rewrite H. Qed.

Lemma text_check (o : option (option str)) :
  o ≠ Some None → match o with Some None => false | _ => true end = true.
Proof. destruct o as [[|]|]; congruence. Qed.

(** A row with a required field left without a text makes [validate_row]
    raise. *)
Lemma validate_row_raises (r : row) (row_index : Z) :
  texts_only r = false → validate_row r row_index = inl AttributeError.
Proof.
  unfold texts_only, score_fields. cbn [app forallb]. intros H.
  unfold validate_row, score_fields.
  destruct (decide (r !! u "Impact Score" = Some None)) as [E|N1];
    [now rewrite (validate_scores_none _ _ _ _ _ E)|].
  rewrite (validate_scores_step _ _ _ _ _ N1).
  destruct (decide (r !! u "Urgency Score" = Some None)) as [E|N2];
    [now rewrite (validate_scores_none _ _ _ _ _ E)|].
  rewrite (validate_scores_step _ _ _ _ _ N2).
  destruct (decide (r !! u "Effort Score" = Some None)) as [E|N3];
    [now rewrite (validate_scores_none _ _ _ _ _ E)|].
  rewrite (validate_scores_step _ _ _ _ _ N3).
  destruct (decide (r !! u "Cost Score" = Some None)) as [E|N4];
    [now rewrite (validate_scores_none _ _ _ _ _ E)|].
  rewrite (validate_scores_step _ _ _ _ _ N4).
  cbn [validate_scores bind]. unfold dict_get.
  destruct (decide (r !! u "Project Name" = Some None)) as [E|N5];
    [now rewrite E|].
  rewrite (text_check _ N1), (text_check _ N2), (text_check _ N3),
    (text_check _ N4), (text_check _ N5) in H. discriminate.
Qed.

(** For a row mapping of field names to texts and its row number,
    [validate_row] returns, in this order, the errors of Impact Score,
    Urgency Score, Effort Score, Cost Score and Project Name: a score field
    that is empty once trimmed gives "missing or empty", one that is no
    number gives "must be a number (got '<the trimmed text>')", one that
    parses below 1 or above 5 gives "must be between 1 and 5 (got <value>)";
    the name gives "missing or empty" when it is empty once trimmed. The empty
    list means the row is valid. *)
Theorem validate_row_checks (r : row) (row_index : Z) :
  texts_only r = true →
  validate_row r row_index
  = inr (check_score r row_index (u "Impact Score")
         ++ check_score r row_index (u "Urgency Score")
         ++ check_score r row_index (u "Effort Score")
         ++ check_score r row_index (u "Cost Score")
         ++ check_name r row_index)
  ∧ (∀ field, strip (field_text r field) = [] →
       check_score r row_index field
       = [u "Row " ++ int_repr row_index ++ u ": '" ++ field
          ++ u "' is missing or empty."])
  ∧ (∀ field, strip (field_text r field) ≠ [] →
       PyFloat.of_str (strip (field_text r field)) = None →
       check_score r row_index field
       = [u "Row " ++ int_repr row_index ++ u ": '" ++ field
          ++ u "' must be a number (got '" ++ strip (field_text r field) ++ u "')."])
  ∧ (∀ field num, strip (field_text r field) ≠ [] →
       PyFloat.of_str (strip (field_text r field)) = Some num →
       check_score r row_index field
       = if (num <? 1)%float || (5 <? num)%float
         then [u "Row " ++ int_repr row_index ++ u ": '" ++ field
               ++ u "' must be between 1 and 5 (got " ++ PyFloat.repr num ++ u ")."]
         else [])
  ∧ check_name r row_index
    = match strip (field_text r (u "Project Name")) with
      | [] => [u "Row " ++ int_repr row_index ++ u ": 'Project Name' is missing or empty."]
      | _ => []
      end.
Proof.
  intros H. split; [apply (validate_row_errors r row_index H)|].
  unfold check_score. repeat split.
  - intros field ->. reflexivity.
  - intros field N ->. destruct (strip (field_text r field)); [congruence|reflexivity].
  - intros field num N ->. destruct (strip (field_text r field)); [congruence|reflexivity].
Qed.

Lemma validate_row_checks_witness :
  texts_only Samples.sample_row = true
  ∧ validate_row Samples.sample_row 2
    = inr [u "Row 2: 'Urgency Score' must be a number (got 'high').";
           u "Row 2: 'Effort Score' must be between 1 and 5 (got 6.0).";
           u "Row 2: 'Cost Score' is missing or empty.";
           u "Row 2: 'Project Name' is missing or empty."].
Proof.
  split; [vm_compute; reflexivity|].
  destruct (validate_row_checks Samples.sample_row 2) as [E _]; [vm_compute; reflexivity|].
  rewrite E. vm_compute. reflexivity.
Defined.

End Validation.

(** * The pipeline *)

Module Pipeline.
Import App Spec FloatFacts Scoring Validation.

(** The validation loop collects the errors of the rows in row order. *)
Lemma validate_rows_errors (rows : list row) (idx : Z) (all_errors : list str) :
  forallb texts_only rows = true →
  validate_rows rows idx all_errors
  = inr (all_errors ++ concat (imap (λ i r, row_errors r (idx + Z.of_nat i)) rows)).
Proof.
  revert idx all_errors. induction rows as [|r rows IH]; intros idx all_errors H.
  - cbn. now rewrite app_nil_r.
  - cbn [forallb] in H. apply andb_true_iff in H as [Hr Hrows].
    cbn [validate_rows]. rewrite (validate_row_errors r idx Hr). cbn [bind].
    rewrite (IH (idx + 1) _ Hrows). rewrite imap_cons. cbn [concat].
    rewrite <- app_assoc. do 2 f_equal. f_equal.
    + f_equal. lia.
    + f_equal. apply imap_ext. intros i x _. cbn. f_equal. lia.
Qed.

Lemma validate_rows_raises (rows : list row) (idx : Z) (all_errors : list str) :
  forallb texts_only rows = false →
  validate_rows rows idx all_errors = inl AttributeError.
Proof.
  revert idx all_errors. induction rows as [|r rows IH]; intros idx all_errors H.
  - discriminate.
  - cbn [forallb] in H. cbn [validate_rows].
    destruct (texts_only r) eqn:Hr.
    + rewrite (validate_row_errors r idx Hr). cbn [bind]. apply IH. exact H.
    + now rewrite (validate_row_raises r idx Hr).
Qed.

Lemma batch_errors_nil (rows : list row) :
  batch_errors rows = [] → ∀ i r, rows !! i = Some r → row_errors r (2 + Z.of_nat i) = [].
Proof.
  unfold batch_errors. intros H i r Hi.
  assert (In (row_errors r (2 + Z.of_nat i))
             (imap (λ i r, row_errors r (2 + Z.of_nat i)) rows)) as Hin.
  { apply list_elem_of_In, list_elem_of_lookup. exists i.
    rewrite list_lookup_imap, Hi. reflexivity. }
  revert Hin. generalize (imap (λ i r, row_errors r (2 + Z.of_nat i)) rows) H.
  intros l Hl. induction l as [|x l IH]; [intros []|].
  cbn in Hl. apply app_eq_nil in Hl as [-> Hl]. intros [<-|Hin]; auto.
Qed.

(** A score field whose check finds nothing holds a text that parses. *)
Lemma check_score_nil (r : row) (row_index : Z) (field : str) :
  check_score r row_index field = [] →
  ∃ s num, r !! field = Some (Some s) ∧ PyFloat.of_str (strip s) = Some num
           ∧ (num <? 1)%float = false ∧ (5 <? num)%float = false.
Proof.
  unfold check_score, field_text.
  destruct (r !! field) as [[s|]|]; try (rewrite strip_nil; discriminate).
  destruct (strip s) as [|c val] eqn:E; [discriminate|].
  destruct (PyFloat.of_str (c :: val)) as [num|] eqn:F; [|discriminate].
  destruct ((num <? 1)%float || (5 <? num)%float) eqn:B; [discriminate|].
  apply orb_false_iff in B as [B1 B2]. intros _. exists s, num. rewrite E. auto.
Qed.

Lemma check_name_nil (r : row) (row_index : Z) :
  check_name r row_index = [] → ∃ s, r !! u "Project Name" = Some (Some s).
Proof.
  unfold check_name, field_text.
  destruct (r !! u "Project Name") as [[s|]|]; try (rewrite strip_nil; discriminate).
  eauto.
Qed.

Lemma score_row_inv (r : row) (p : project) : score_row r = inr p → scored r p.
Proof.
  unfold score_row, scored, dict_item, to_float, field_text.
  destruct (r !! u "Impact Score") as [[s1|]|]; cbn [bind method_strip]; try discriminate.
  destruct (PyFloat.of_str (strip s1)) as [x1|]; cbn [bind]; try discriminate.
  destruct (r !! u "Urgency Score") as [[s2|]|]; cbn [bind method_strip]; try discriminate.
  destruct (PyFloat.of_str (strip s2)) as [x2|]; cbn [bind]; try discriminate.
  destruct (r !! u "Effort Score") as [[s3|]|]; cbn [bind method_strip]; try discriminate.
  destruct (PyFloat.of_str (strip s3)) as [x3|]; cbn [bind]; try discriminate.
  destruct (r !! u "Cost Score") as [[s4|]|]; cbn [bind method_strip]; try discriminate.
  destruct (PyFloat.of_str (strip s4)) as [x4|]; cbn [bind]; try discriminate.
  destruct (r !! u "Project Name") as [[s5|]|]; cbn [bind method_strip]; try discriminate.
  intros [= <-]. cbn. repeat split; reflexivity.
Qed.

(** A row without errors is scored: the scoring loop raises nothing. *)
Lemma score_row_valid (r : row) (row_index : Z) :
  row_errors r row_index = [] → ∃ p, score_row r = inr p.
Proof.
  unfold row_errors. intros H.
  apply app_eq_nil in H as [H1 H]. apply app_eq_nil in H as [H2 H].
  apply app_eq_nil in H as [H3 H]. apply app_eq_nil in H as [H4 H5].
  apply check_score_nil in H1 as (s1 & x1 & E1 & F1 & _).
  apply check_score_nil in H2 as (s2 & x2 & E2 & F2 & _).
  apply check_score_nil in H3 as (s3 & x3 & E3 & F3 & _).
  apply check_score_nil in H4 as (s4 & x4 & E4 & F4 & _).
  apply check_name_nil in H5 as (s5 & E5).
  unfold score_row, dict_item, to_float.
  rewrite E1, E2, E3, E4, E5. cbn [bind method_strip].
  rewrite F1, F2, F3, F4. cbn [bind]. eauto.
Qed.

Lemma score_rows_inv (rows : list row) (results res : list project) :
  score_rows rows results = inr res →
  ∃ ps, res = results ++ ps ∧ Forall2 scored rows ps.
Proof.
  revert results. induction rows as [|r rows IH]; intros results; cbn [score_rows].
  - intros [= <-]. exists []. rewrite app_nil_r. auto.
  - destruct (score_row r) as [e|p] eqn:E; cbn [bind]; [discriminate|].
    intros H. apply IH in H as (ps & -> & F). exists (p :: ps).
    rewrite <- app_assoc. split; [reflexivity|].
    constructor; [now apply score_row_inv | assumption].
Qed.

Lemma score_rows_valid (rows : list row) (idx : Z) (results : list project) :
  (∀ i r, rows !! i = Some r → row_errors r (idx + Z.of_nat i) = []) →
  ∃ res, score_rows rows results = inr res.
Proof.
  revert idx results. induction rows as [|r rows IH]; intros idx results H;
    cbn [score_rows]; [eauto|].
  destruct (score_row_valid r (idx + Z.of_nat 0)) as [p ->]; [now apply H|].
  cbn [bind]. apply (IH (idx + 1)). intros i x Hi.
  replace (idx + 1 + Z.of_nat i) with (idx + Z.of_nat (S i)) by lia. now apply H.
Qed.

(** An upload that passes the parsing stage is analysed from its rows. *)
Lemma analyze_data_rows (data : list Z) (rows : list row) :
  data_rows data = Some rows → analyze data = analyze_rows rows.
Proof.
  unfold data_rows, analyze, analyze_table.
  destruct (Utf8.decode_sig data) as [text|]; [|discriminate].
  destruct (Csv.read text) as [[|header records] [e|]]; try discriminate.
  destruct (decide (REQUIRED_COLUMNS ∖ list_to_set (strip <$> header) = (∅ : gset str)))
    as [E|N].
  - rewrite (bool_decide_eq_true_2 _ E).
    rewrite bool_decide_eq_false_2 by (intros N; now apply N).
    destruct (dict_rows (strip <$> header) records); [discriminate|].
    now intros [= <-].
  - now rewrite (bool_decide_eq_false_2 _ N).
Qed.

(** A response with status 200 comes from an upload that passes the
    parsing stage. *)
Lemma analyze_ok_rows (data : list Z) (body : payload) :
  analyze data = inr (Ok200 body) → ∃ rows, data_rows data = Some rows.
Proof.
  unfold data_rows, analyze, analyze_table, csv_error.
  destruct (Utf8.decode_sig data) as [text|]; [|discriminate].
  destruct (Csv.read text) as [[|header records] [e|]]; try discriminate.
  - destruct (decide (REQUIRED_COLUMNS ∖ list_to_set (strip <$> header) = (∅ : gset str)))
      as [E|N].
    + rewrite bool_decide_eq_false_2 by (intros N; now apply N). discriminate.
    + rewrite bool_decide_eq_true_2 by assumption. discriminate.
  - destruct (decide (REQUIRED_COLUMNS ∖ list_to_set (strip <$> header) = (∅ : gset str)))
      as [E|N].
    + rewrite (bool_decide_eq_true_2 _ E).
      rewrite bool_decide_eq_false_2 by (intros N; now apply N).
      destruct (dict_rows (strip <$> header) records); [discriminate|]. eauto.
    + rewrite bool_decide_eq_true_2 by assumption. discriminate.
Qed.

End Pipeline.

(** * Sorting *)

Module Sorting.

Section Sort.
Context {A K : Type} (lt : K → K → bool) (key : A → K).

Lemma insert_sorted_perm (x : A) (l : list A) : insert_sorted lt key x l ≡ₚ x :: l.
Proof.
  induction l as [|y l IH]; cbn; [reflexivity|].
  destruct (lt (key y) (key x)); [|reflexivity].
  rewrite IH. apply Permutation_swap.
Qed.

Lemma py_sorted_perm (l : list A) : py_sorted lt key l ≡ₚ l.
Proof.
  induction l as [|x l IH]; cbn; [reflexivity|].
  rewrite insert_sorted_perm. now rewrite IH.
Qed.

Lemma py_sorted_reverse_perm (l : list A) : py_sorted_reverse lt key l ≡ₚ l.
Proof.
  unfold py_sorted_reverse. rewrite reverse_Permutation, py_sorted_perm. apply reverse_Permutation.
Qed.

(** The keys in use: [ok] holds of them, and on them [lt] is the strict
    part of a total preorder. *)
Context (ok : K → Prop).
Context (lt_trans_neg : ∀ a b c, ok a → ok b → ok c →
           lt b a = false → lt c b = false → lt c a = false).
Context (lt_asym : ∀ a b, lt a b = true → lt b a = false).



Lemma insert_sorted_sorted (x : A) (l : list A) :
  ok (key x) → Forall (λ a, ok (key a)) l →
  StronglySorted (not_after lt key) l → StronglySorted (not_after lt key) (insert_sorted lt key x l).
Proof.
  intros Hx Hl Hs. induction Hs as [|y l Hs IH Hy]; cbn.
  - repeat constructor.
  - apply Forall_cons in Hl as [Hoy Hl].
    destruct (lt (key y) (key x)) eqn:E.
    + constructor; [now apply IH|].
      rewrite insert_sorted_perm. constructor; [|assumption].
      unfold not_after. now apply lt_asym.
    + constructor; [now constructor|]. constructor; [exact E|].
      rewrite Forall_forall in Hy, Hl |- *. intros z Hz. unfold not_after.
      exact (lt_trans_neg (key x) (key y) (key z) Hx Hoy (Hl z Hz) E (Hy z Hz)).
Qed.

Lemma py_sorted_sorted (l : list A) :
  Forall (λ a, ok (key a)) l → StronglySorted (not_after lt key) (py_sorted lt key l).
Proof.
  induction l as [|x l IH]; cbn; intros H; [constructor|].
  apply Forall_cons in H as [Hx Hl].
  apply insert_sorted_sorted; auto. now rewrite py_sorted_perm.
Qed.

(** Stability: the entries of one class of keys keep their order. A
    class is a predicate on keys that [lt] does not cut: an entry below (or
    above) an entry of the class is outside it. *)
Lemma insert_sorted_stable (P : K → bool) (x : A) (l : list A) :
  (∀ a b, P a = true → P b = true → lt a b = false) →
  filter (λ a, P (key a) = true) (insert_sorted lt key x l)
  = filter (λ a, P (key a) = true) (x :: l).
Proof.
  intros HP. induction l as [|y l IH]; cbn [insert_sorted]; [reflexivity|].
  destruct (lt (key y) (key x)) eqn:E; [|reflexivity].
  rewrite filter_cons, IH, !filter_cons.
  destruct (decide (P (key y) = true)) as [Py|]; [|reflexivity].
  destruct (decide (P (key x) = true)) as [Px|]; [|reflexivity].
  rewrite (HP _ _ Py Px) in E. discriminate.
Qed.

Lemma py_sorted_stable (P : K → bool) (l : list A) :
  (∀ a b, P a = true → P b = true → lt a b = false) →
  filter (λ a, P (key a) = true) (py_sorted lt key l)
  = filter (λ a, P (key a) = true) l.
Proof.
  intros HP. induction l as [|x l IH]; cbn [py_sorted]; [reflexivity|].
  rewrite insert_sorted_stable by assumption. now rewrite !filter_cons, IH.
Qed.

Lemma py_sorted_reverse_stable (P : K → bool) (l : list A) :
  (∀ a b, P a = true → P b = true → lt a b = false) →
  filter (λ a, P (key a) = true) (py_sorted_reverse lt key l)
  = filter (λ a, P (key a) = true) l.
Proof.
  intros HP. unfold py_sorted_reverse.
  rewrite filter_reverse, py_sorted_stable by assumption.
  now rewrite <- filter_reverse, reverse_involutive.
Qed.
End Sort.

End Sorting.

Module Results.
Import App Spec FloatFacts Scoring Validation Pipeline Sorting.

Lemma length_add_rank (l : list project) (k : Z) : length (add_rank l k) = length l.
Proof. revert k. induction l; intros k; cbn; auto. Qed.

Lemma lookup_add_rank (l : list project) (k : Z) (i : nat) :
  add_rank l k !! i = (λ p, set_rank p (k + Z.of_nat i)) <$> l !! i.
Proof.
  revert k i. induction l as [|p l IH]; intros k [|i]; cbn [add_rank]; try reflexivity.
  - cbn. now rewrite Z.add_0_r.
  - change ((set_rank p k :: add_rank l (k + 1)) !! S i) with (add_rank l (k + 1) !! i).
    change ((p :: l) !! S i) with (l !! i). rewrite (IH (k + 1) i).
    replace (k + 1 + Z.of_nat i) with (k + Z.of_nat (S i)) by lia. reflexivity.
Qed.

Lemma filter_category_add_rank (c : str) (l : list project) (k : Z) :
  length (filter (λ p, priority_category p = c) (add_rank l k))
  = length (filter (λ p, priority_category p = c) l).
Proof.
  revert k. induction l as [|p l IH]; intros k; cbn [add_rank]; [reflexivity|].
  rewrite !filter_cons. cbn [set_rank priority_category].
  destruct (decide (priority_category p = c)); cbn [length]; now rewrite IH.
Qed.

Lemma category_cases (score : float) :
  get_priority_category score = u "High" ∨ get_priority_category score = u "Medium"
  ∨ get_priority_category score = u "Low".
Proof.
  unfold get_priority_category.
  destruct (3.8 <=? score)%float, (2.8 <=? score)%float; auto.
Qed.

(** The three labels split any list of scored entries. *)
Lemma count_three (l : list project) :
  Forall (λ p, priority_category p = get_priority_category (App.priority_score p)) l →
  count_category (u "High") l + count_category (u "Medium") l
  + count_category (u "Low") l = Z.of_nat (length l).
Proof.
  destruct category_names as (HM & HL & ML). unfold count_category.
  induction 1 as [|p l Hp _ IH]; [reflexivity|].
  rewrite !filter_cons. cbn [length].
  destruct (category_cases (App.priority_score p)) as [E|[E|E]];
    rewrite <- Hp in E; rewrite E;
    repeat match goal with
    | |- context [decide (?a = ?b)] => destruct (decide (a = b)); try congruence
    end; cbn [length]; lia.
Qed.

(** The structure of a response with status 200. *)
Lemma analyze_rows_ok (rows : list row) (body : payload) :
  analyze_rows rows = inr (Ok200 body) →
  ∃ ps results, validate_rows rows 2 [] = inr []
    ∧ score_rows rows [] = inr ps
    ∧ Forall2 scored rows ps
    ∧ results = add_rank (py_sorted_reverse PrimFloat.ltb App.priority_score ps) 1
    ∧ body = Payload true (Z.of_nat (length results))
               (Summary (count_category (u "High") results)
                        (count_category (u "Medium") results)
                        (count_category (u "Low") results))
               results.
Proof.
  unfold analyze_rows.
  destruct (validate_rows rows 2 []) as [e|[|err errs]]; cbn [bind]; try discriminate.
  destruct (score_rows rows []) as [e|ps] eqn:E; cbn [bind]; [discriminate|].
  intros [= <-]. exists ps. eexists.
  destruct (score_rows_inv _ _ _ E) as (ps' & -> & F). cbn [app] in *.
  repeat split; auto.
Qed.

(** C1. The scoring engine returns
    [round(impact*0.35 + urgency*0.30 + (6-effort)*0.20 + (6-cost)*0.15, 2)]:
    the weights are the four constants, effort and cost enter as [6 - x],
    and the sum is rounded to two decimals. It holds for all floats, so for
    those in [1,5], and the entry of every scored row carries this score of
    its own four values. *)
Theorem calculate_priority_score_formula (impact urgency effort cost : float) :
  calculate_priority_score impact urgency effort cost
  = PyFloat.round (impact * 0.35 + urgency * 0.30 + (6 - effort) * 0.20
                   + (6 - cost) * 0.15)%float 2
  ∧ ∀ r p, score_row r = inr p →
      App.priority_score p
      = PyFloat.round (App.impact p * 0.35 + App.urgency p * 0.30
                       + (6 - App.effort p) * 0.20 + (6 - App.cost p) * 0.15)%float 2.
Proof.
  split; [apply score_formula|]. intros r p H.
  apply score_row_inv in H as (_ & _ & _ & _ & _ & _ & -> & _). apply score_formula.
Qed.

(** C6, amended. The explanation is built by testing and appending tags
    in the fixed order impact>=4 "High Impact", urgency>=4 "Urgent",
    effort<=2 "Low Effort", cost<=2 "Cost Efficient", effort>=4
    "High Effort ⚠️", cost>=4 "Expensive ⚠️", joined by a comma and a space;
    with no tag it is "Balanced"; impact 1, urgency 1, effort 5, cost 5 gives
    "High Effort ⚠️" then "Expensive ⚠️" and no "Balanced". The entry of
    every scored row carries this explanation of its own four values. *)
Theorem get_explanation_spec (impact urgency effort cost : float) :
  get_explanation impact urgency effort cost
  = explanation_of (tags impact urgency effort cost)
  ∧ explanation_of [] = u "Balanced"
  ∧ tags 1 1 5 5 = [u "High Effort ⚠️"; u "Expensive ⚠️"]
  ∧ get_explanation 1 1 5 5 = join (u ", ") [u "High Effort ⚠️"; u "Expensive ⚠️"]
  ∧ ∀ r p, score_row r = inr p →
      explanation p
      = explanation_of (tags (App.impact p) (App.urgency p) (App.effort p) (App.cost p)).
Proof.
  split; [apply get_explanation_tags|]. split; [reflexivity|].
  split; [vm_compute; reflexivity|]. split; [vm_compute; reflexivity|].
  intros r p H.
  apply score_row_inv in H as (_ & _ & _ & _ & _ & _ & _ & _ & -> & _).
  apply get_explanation_tags.
Qed.

(** C9. In every successful run the number of projects, [total_projects]
    and the number of data rows of the input are equal, the three counts of
    the summary add up to [total_projects], and each count is the number of
    projects of that category. *)
Theorem analyze_totals (data : list Z) (body : payload) :
  analyze data = inr (Ok200 body) →
  ∃ rows, data_rows data = Some rows
    ∧ Z.of_nat (length (projects body)) = total_projects body
    ∧ total_projects body = Z.of_nat (length rows)
    ∧ high (summary_of body) + medium (summary_of body) + low (summary_of body)
      = total_projects body
    ∧ high (summary_of body)
      = Z.of_nat (length (filter (λ p, priority_category p = u "High") (projects body)))
    ∧ medium (summary_of body)
      = Z.of_nat (length (filter (λ p, priority_category p = u "Medium") (projects body)))
    ∧ low (summary_of body)
      = Z.of_nat (length (filter (λ p, priority_category p = u "Low") (projects body))).
Proof.
  intros H. destruct (analyze_ok_rows _ _ H) as [rows Hrows]. exists rows.
  split; [assumption|]. rewrite (analyze_data_rows _ _ Hrows) in H.
  apply analyze_rows_ok in H as (ps & results & _ & _ & F & R & ->).
  cbn [projects total_projects summary_of high medium low].
  assert (length results = length ps) as L.
  { rewrite R, length_add_rank. apply Permutation_length, py_sorted_reverse_perm. }
  repeat split; try reflexivity.
  - rewrite L. f_equal. symmetry. apply (Forall2_length _ _ _ F).
  - rewrite R. unfold count_category. rewrite !filter_category_add_rank.
    rewrite length_add_rank.
    apply (count_three (py_sorted_reverse PrimFloat.ltb App.priority_score ps)).
    rewrite py_sorted_reverse_perm.
    apply (Forall2_Forall_r _ _ _ _ F). apply Forall_true. intros r p S. apply S.
Qed.

Lemma analyze_totals_witness :
  analyze Samples.valid_csv = inr (Ok200 Samples.valid_body)
  ∧ ∃ rows, data_rows Samples.valid_csv = Some rows
    ∧ Z.of_nat (length (projects Samples.valid_body)) = 5
    ∧ 5 = Z.of_nat (length rows)
    ∧ 3 + 1 + 1 = 5
    ∧ 3 = Z.of_nat (length (filter (λ p, priority_category p = u "High")
                              (projects Samples.valid_body)))
    ∧ 1 = Z.of_nat (length (filter (λ p, priority_category p = u "Medium")
                              (projects Samples.valid_body)))
    ∧ 1 = Z.of_nat (length (filter (λ p, priority_category p = u "Low")
                              (projects Samples.valid_body))).
Proof.
  split; [vm_compute; reflexivity|].
  apply (analyze_totals Samples.valid_csv Samples.valid_body). vm_compute. reflexivity.
Defined.

(** With errors, the response is the combined message; nothing is scored. *)
Lemma analyze_rows_rejected (rows : list row) :
  forallb texts_only rows = true → batch_errors rows ≠ [] →
  analyze_rows rows
  = inr (Error400 (u "Validation errors found:" ++ [10]
                   ++ join [10] (batch_errors rows))).
Proof.
  intros T N. unfold analyze_rows.
  rewrite (validate_rows_errors rows 2 [] T). cbn [app bind].
  fold (batch_errors rows). destruct (batch_errors rows); [congruence|reflexivity].
Qed.

(** Without errors, the rows are scored and the response is a success. *)
Lemma analyze_rows_accepted (rows : list row) :
  forallb texts_only rows = true → batch_errors rows = [] →
  ∃ body, analyze_rows rows = inr (Ok200 body).
Proof.
  intros T E. unfold analyze_rows.
  rewrite (validate_rows_errors rows 2 [] T). cbn [app bind].
  fold (batch_errors rows). rewrite E.
  destruct (score_rows_valid rows 2 [] (batch_errors_nil rows E)) as [res ->].
  cbn [bind]. eauto.
Qed.

(** Validation is all or nothing on an upload whose rows give every
    required field a text: every row is validated and the errors of
    all rows are collected, row by row and, within a row, field by field in
    the fixed order (each field's check depends on that field alone). When
    there is any error the response is the one message "Validation errors
    found:" followed by every error on a line of its own, and nothing is
    scored; when there is none the response is a success. *)
Theorem validation_all_or_nothing (data : list Z) (rows : list row) :
  data_rows data = Some rows →
  forallb texts_only rows = true →
  validate_rows rows 2 [] = inr (batch_errors rows)
  ∧ (batch_errors rows ≠ [] →
     analyze data
     = inr (Error400 (u "Validation errors found:" ++ [10]
                      ++ join [10] (batch_errors rows))))
  ∧ (batch_errors rows = [] → ∃ body, analyze data = inr (Ok200 body)).
Proof.
  intros Hrows Htexts. rewrite (analyze_data_rows _ _ Hrows).
  split; [|split].
  - pose proof (validate_rows_errors rows 2 [] Htexts) as V. exact V.
  - now apply analyze_rows_rejected.
  - now apply analyze_rows_accepted.
Qed.

Lemma validation_all_or_nothing_witness :
  data_rows Samples.invalid_csv = Some Samples.invalid_rows
  ∧ forallb texts_only Samples.invalid_rows = true
  ∧ analyze Samples.invalid_csv
    = inr (Error400 (join [10]
        [u "Validation errors found:";
         u "Row 2: 'Urgency Score' must be a number (got 'high').";
         u "Row 2: 'Effort Score' must be between 1 and 5 (got 6.0).";
         u "Row 2: 'Cost Score' is missing or empty.";
         u "Row 2: 'Project Name' is missing or empty.";
         u "Row 4: 'Impact Score' must be between 1 and 5 (got 0.5).";
         u "Row 4: 'Project Name' is missing or empty."])).
Proof.
  assert (data_rows Samples.invalid_csv = Some Samples.invalid_rows) as R
    by (vm_compute; reflexivity).
  assert (forallb texts_only Samples.invalid_rows = true) as T
    by (vm_compute; reflexivity).
  split; [exact R|]. split; [exact T|].
  destruct (validation_all_or_nothing Samples.invalid_csv Samples.invalid_rows R T)
    as (_ & E & _).
  rewrite E; [vm_compute; reflexivity | vm_compute; discriminate].
Defined.

End Results.

(** * The header check *)

Module Header.
Import App Spec FloatFacts Scoring Validation Pipeline Sorting Results.

Lemma str_ltb_asym (a b : str) : str_ltb a b = true → str_ltb b a = false.
Proof.
  revert b. induction a as [|x a IH]; intros [|y b]; cbn; try congruence.
  destruct (Z.ltb_spec x y), (Z.ltb_spec y x), (Z.eqb_spec x y), (Z.eqb_spec y x);
    cbn; try lia; try congruence. apply IH.
Qed.

Lemma str_ltb_tricho (a b : str) : str_ltb a b = false → str_ltb b a = false → a = b.
Proof.
  revert b. induction a as [|x a IH]; intros [|y b]; cbn; try congruence.
  destruct (Z.ltb_spec x y), (Z.ltb_spec y x), (Z.eqb_spec x y), (Z.eqb_spec y x);
    cbn; try lia; try congruence. intros. f_equal; auto.
Qed.

Lemma str_ltb_trans_neg (a b c : str) :
  str_ltb b a = false → str_ltb c b = false → str_ltb c a = false.
Proof.
  revert b c. induction a as [|x a IH]; intros [|y b] [|z c]; cbn; try congruence.
  destruct (Z.ltb_spec y x), (Z.ltb_spec z y), (Z.ltb_spec z x),
    (Z.eqb_spec y x), (Z.eqb_spec z y), (Z.eqb_spec z x);
    cbn; try lia; try congruence. apply IH.
Qed.

Lemma StronglySorted_filter {A} (R : relation A) (P : A → Prop)
    `{∀ x, Decision (P x)} (l : list A) :
  StronglySorted R l → StronglySorted R (filter P l).
Proof.
  induction 1 as [|x l Hs IH Hx]; [constructor|].
  rewrite filter_cons. destruct (decide (P x)); [|assumption].
  constructor; [assumption|]. rewrite Forall_forall in Hx |- *.
  intros y Hy. apply list_elem_of_filter in Hy as [_ Hy]. auto.
Qed.

Lemma sorted_required_sorted : StronglySorted (not_after str_ltb id) sorted_required.
Proof.
  unfold sorted_required.
  repeat (constructor; [|repeat constructor; vm_compute; reflexivity]). constructor.
Qed.

Lemma elem_of_required (c : str) : c ∈ REQUIRED_COLUMNS ↔ c ∈ sorted_required.
Proof.
  unfold REQUIRED_COLUMNS, sorted_required.
  rewrite !elem_of_union, !elem_of_singleton, !elem_of_cons, elem_of_nil. tauto.
Qed.

Lemma NoDup_sorted_required : NoDup sorted_required.
Proof. apply (bool_decide_unpack (NoDup sorted_required)). vm_compute. reflexivity. Qed.

(** Sorting the elements of a set of required column names gives the
    alphabetical list of the required names, filtered. *)
Lemma sorted_subset (X : gset str) (P : str → Prop) `{∀ c, Decision (P c)} :
  (∀ c, c ∈ X ↔ P c ∧ c ∈ sorted_required) →
  py_sorted str_ltb id (elements X) = filter P sorted_required.
Proof.
  intros HX. apply (StronglySorted_unique_strong (not_after str_ltb id)).
  - intros a b _ _ Hab Hba. unfold not_after, id in *. now apply str_ltb_tricho.
  - apply (py_sorted_sorted str_ltb id (λ _, True)).
    + intros a b c _ _ _. apply str_ltb_trans_neg.
    + apply str_ltb_asym.
    + apply Forall_true. auto.
  - apply StronglySorted_filter, sorted_required_sorted.
  - rewrite py_sorted_perm. apply NoDup_Permutation.
    + apply NoDup_elements.
    + apply NoDup_filter, NoDup_sorted_required.
    + intros c. rewrite elem_of_elements, list_elem_of_filter. apply HX.
Qed.

Lemma sorted_missing (header : list str) :
  py_sorted str_ltb id (elements (REQUIRED_COLUMNS ∖ list_to_set (strip <$> header)))
  = missing_columns header.
Proof.
  apply sorted_subset. intros c.
  rewrite elem_of_difference, elem_of_list_to_set, elem_of_required. tauto.
Qed.

Lemma sorted_all :
  py_sorted str_ltb id (elements REQUIRED_COLUMNS) = sorted_required.
Proof.
  rewrite (sorted_subset REQUIRED_COLUMNS (λ _, True)).
  - reflexivity.
  - intros c. rewrite elem_of_required. tauto.
Qed.

Lemma py_sorted_nil {A K} (lt : K → K → bool) (key : A → K) (l : list A) :
  py_sorted lt key l = [] ↔ l = [].
Proof.
  split; [|now intros ->]. intros E.
  apply Permutation_nil_r. rewrite <- E. symmetry. apply py_sorted_perm.
Qed.

Lemma missing_nonempty (header : list str) :
  REQUIRED_COLUMNS ∖ list_to_set (strip <$> header) ≠ (∅ : gset str)
  ↔ missing_columns header ≠ [].
Proof.
  rewrite <- sorted_missing, py_sorted_nil.
  split; intros H E; apply H.
  - now apply elements_empty_inv, leibniz_equiv in E.
  - rewrite E. apply elements_empty.
Qed.

Lemma same_required_lookups (r r' : row) :
  same_required r r' →
  r !! u "Impact Score" = r' !! u "Impact Score"
  ∧ r !! u "Urgency Score" = r' !! u "Urgency Score"
  ∧ r !! u "Effort Score" = r' !! u "Effort Score"
  ∧ r !! u "Cost Score" = r' !! u "Cost Score"
  ∧ r !! u "Project Name" = r' !! u "Project Name".
Proof.
  intros H. repeat split; apply H; unfold sorted_required;
    rewrite !elem_of_cons; auto 10.
Qed.

Lemma validate_row_same (r r' : row) (row_index : Z) :
  same_required r r' → validate_row r row_index = validate_row r' row_index.
Proof.
  intros H. apply same_required_lookups in H as (E1 & E2 & E3 & E4 & E5).
  unfold validate_row, score_fields. cbn [validate_scores]. unfold dict_get.
  now rewrite E1, E2, E3, E4, E5.
Qed.

Lemma score_row_same (r r' : row) :
  same_required r r' → score_row r = score_row r'.
Proof.
  intros H. apply same_required_lookups in H as (E1 & E2 & E3 & E4 & E5).
  unfold score_row, dict_item. now rewrite E1, E2, E3, E4, E5.
Qed.

Lemma validate_rows_same (rows rows' : list row) (idx : Z) (errors : list str) :
  Forall2 same_required rows rows' →
  validate_rows rows idx errors = validate_rows rows' idx errors.
Proof.
  intros F. revert idx errors.
  induction F as [|r r' rows rows' Hr _ IH]; intros idx errors; [reflexivity|].
  cbn [validate_rows]. rewrite (validate_row_same r r' idx Hr).
  destruct (validate_row r' idx); cbn [bind]; [reflexivity|apply IH].
Qed.

Lemma score_rows_same (rows rows' : list row) (results : list project) :
  Forall2 same_required rows rows' → score_rows rows results = score_rows rows' results.
Proof.
  intros F. revert results.
  induction F as [|r r' rows rows' Hr _ IH]; intros results; [reflexivity|].
  cbn [score_rows]. rewrite (score_row_same r r' Hr).
  destruct (score_row r'); cbn [bind]; [reflexivity|apply IH].
Qed.

(** The response depends on the rows through the required columns only. *)
Lemma analyze_rows_same (rows rows' : list row) :
  Forall2 same_required rows rows' → analyze_rows rows = analyze_rows rows'.
Proof.
  intros F. unfold analyze_rows.
  rewrite (validate_rows_same rows rows' 2 [] F).
  destruct (validate_rows rows' 2 []) as [e|[|]]; cbn [bind]; try reflexivity.
  now rewrite (score_rows_same rows rows' [] F).
Qed.

Lemma analyze_table_same (header header' : list str)
    (records records' : list (list str)) (err : option Csv.error) :
  (∀ c, c ∈ sorted_required → c ∈ strip <$> header ↔ c ∈ strip <$> header') →
  Forall2 same_required (dict_rows (strip <$> header) records)
                        (dict_rows (strip <$> header') records') →
  analyze_table header records err = analyze_table header' records' err.
Proof.
  intros Hh F. unfold analyze_table.
  assert (REQUIRED_COLUMNS ∖ list_to_set (strip <$> header)
          = (REQUIRED_COLUMNS ∖ list_to_set (strip <$> header') : gset str)) as ->.
  { apply leibniz_equiv. intros c.
    rewrite !elem_of_difference, !elem_of_list_to_set, elem_of_required.
    specialize (Hh c). tauto. }
  destruct (bool_decide _); [reflexivity|].
  destruct err; [reflexivity|].
  destruct F as [|r r' rows rows' Hr F]; [reflexivity|].
  apply analyze_rows_same. now constructor.
Qed.

(** C7. When a required header is absent once the header names are
    trimmed, [analyze] fails with a message that lists exactly the missing
    names in alphabetical order (followed by the list of all required names),
    whatever the data rows hold: nothing is scored. A column outside the
    required set changes nothing: two tables with the same required headers
    and the same values in the required columns get the same response. *)
Theorem missing_columns_rejected (data : list Z) (text : str) (header : list str)
    (records : list (list str)) (err : option Csv.error) :
  Utf8.decode_sig data = Some text →
  Csv.read text = (header :: records, err) →
  missing_columns header ≠ [] →
  analyze data
  = inr (Error400 (u "Missing required columns: "
                   ++ join (u ", ") (missing_columns header)
                   ++ u ". Required columns are: "
                   ++ join (u ", ") sorted_required ++ u "."))
  ∧ (∀ header1 header2 records1 records2 err',
       (∀ c, c ∈ sorted_required →
          c ∈ strip <$> header1 ↔ c ∈ strip <$> header2) →
       Forall2 same_required (dict_rows (strip <$> header1) records1)
                             (dict_rows (strip <$> header2) records2) →
       analyze_table header1 records1 err' = analyze_table header2 records2 err').
Proof.
  intros D R M. split; [|intros; now apply analyze_table_same].
  unfold analyze. rewrite D, R. unfold analyze_table.
  apply missing_nonempty in M.
  rewrite (bool_decide_eq_true_2 _ M). now rewrite sorted_missing, sorted_all.
Qed.

Lemma missing_columns_rejected_witness :
  Utf8.decode_sig Samples.no_cost_csv = Some Samples.no_cost_text
  ∧ Csv.read Samples.no_cost_text
    = (Samples.no_cost_header :: Samples.no_cost_records, None)
  ∧ missing_columns Samples.no_cost_header = [u "Cost Score"; u "Urgency Score"]
  ∧ analyze Samples.no_cost_csv
    = inr (Error400 (u "Missing required columns: Cost Score, Urgency Score. Required columns are: Cost Score, Effort Score, Impact Score, Project Name, Urgency Score.")).
Proof.
  assert (Utf8.decode_sig Samples.no_cost_csv = Some Samples.no_cost_text) as D
    by (vm_compute; reflexivity).
  assert (Csv.read Samples.no_cost_text
          = (Samples.no_cost_header :: Samples.no_cost_records, None)) as R
    by (vm_compute; reflexivity).
  assert (missing_columns Samples.no_cost_header = [u "Cost Score"; u "Urgency Score"])
    as M by (vm_compute; reflexivity).
  split; [exact D|]. split; [exact R|]. split; [exact M|].
  assert (missing_columns Samples.no_cost_header ≠ []) as N
    by (rewrite M; discriminate).
  destruct (missing_columns_rejected _ _ _ _ _ D R N) as [E _].
  rewrite E, M. vm_compute. reflexivity.
Defined.

(** The sample upload with and without its extra column. *)
Example extra_column_ignored :
  analyze Samples.valid_csv = analyze Samples.plain_csv.
Proof. vm_compute. reflexivity. Qed.

End Header.

(** * Ranking *)

Module Ranking.
Import App Spec FloatFacts Scoring Validation Pipeline Sorting Results.

Lemma ltb_asym (a b : float) : (a <? b)%float = true → (b <? a)%float = false.
Proof.
  rewrite !FloatAxioms.ltb_spec. unfold SFltb.
  rewrite (SFcompare_antisym (Prim2SF a) (Prim2SF b)).
  destruct (SFcompare (Prim2SF a) (Prim2SF b)) as [[]|]; cbn; congruence.
Qed.

Lemma ltb_trans_neg (a b c : float) :
  not_nan a → not_nan b → not_nan c →
  (b <? a)%float = false → (c <? b)%float = false → (c <? a)%float = false.
Proof.
  intros Na Nb Nc H1 H2. apply leb_ltb_false.
  apply (leb_trans a b c); now apply ltb_false_leb.
Qed.

(** Scores equal to [s] are not cut by [<]. *)
Lemma eqb_class (s a b : float) :
  (a =? s)%float = true → (b =? s)%float = true → (a <? b)%float = false.
Proof.
  intros Ha Hb. apply eqb_ltb in Ha as (Na & Ns & Ha1 & Ha2).
  apply eqb_ltb in Hb as (Nb & _ & Hb1 & Hb2).
  apply (ltb_trans_neg b s a); assumption.
Qed.

Lemma StronglySorted_lookup {A} (R : relation A) (l : list A) (i j : nat) (a b : A) :
  StronglySorted R l → (i < j)%nat → l !! i = Some a → l !! j = Some b → R a b.
Proof.
  intros Hs. revert i j. induction Hs as [|x l Hs IH Hx]; intros i j Hij Hi Hj.
  - discriminate.
  - destruct j as [|j]; [lia|]. destruct i as [|i].
    + injection Hi as <-. rewrite Forall_forall in Hx. apply Hx.
      apply list_elem_of_lookup. eauto.
    + apply (IH i j); [lia|assumption..].
Qed.

(** The ranked list of a run without NaN scores. *)
Lemma ranked_non_increasing (ps : list project) :
  Forall (λ p, not_nan (App.priority_score p)) ps →
  non_increasing (add_rank (py_sorted_reverse PrimFloat.ltb App.priority_score ps) 1).
Proof.
  intros N i j p q Hij Hi Hj.
  rewrite lookup_add_rank in Hi, Hj.
  destruct (py_sorted_reverse _ _ ps !! i) as [p'|] eqn:Ei; [|discriminate].
  destruct (py_sorted_reverse _ _ ps !! j) as [q'|] eqn:Ej; [|discriminate].
  injection Hi as <-. injection Hj as <-. cbn [set_rank App.priority_score].
  unfold py_sorted_reverse in Ei, Ej.
  set (l := py_sorted PrimFloat.ltb App.priority_score (reverse ps)) in *.
  assert (Forall (λ p, not_nan (App.priority_score p)) l) as Nl.
  { unfold l. rewrite py_sorted_perm, reverse_Permutation. exact N. }
  assert (StronglySorted (not_after PrimFloat.ltb App.priority_score) l) as Sl.
  { apply (py_sorted_sorted PrimFloat.ltb App.priority_score not_nan).
    - apply ltb_trans_neg.
    - apply ltb_asym.
    - rewrite reverse_Permutation. exact N. }
  pose proof (lookup_lt_Some _ _ _ Ei) as Li. pose proof (lookup_lt_Some _ _ _ Ej) as Lj.
  rewrite length_reverse in Li, Lj.
  rewrite reverse_lookup in Ei, Ej by assumption.
  assert (length l - S j < length l - S i)%nat as Hlt by lia.
  pose proof (StronglySorted_lookup _ l _ _ _ _ Sl Hlt Ej Ei) as H.
  unfold not_after in H. rewrite Forall_forall in Nl.
  apply ltb_false_leb; [| |exact H]; apply Nl, list_elem_of_lookup; eauto.
Qed.

(** X20. The ranking of a run in which no score is a NaN: the projects are the
    scored rows in an order that is non-increasing by score and keeps rows of
    equal score in their input order, and the rank is the position, from 1. *)
Theorem analyze_ranking (data : list Z) (body : payload) :
  analyze data = inr (Ok200 body) →
  Forall (λ p, not_nan (App.priority_score p)) (projects body) →
  ∃ rows ps sorted,
    data_rows data = Some rows
    ∧ Forall2 scored rows ps
    ∧ projects body = add_rank sorted 1
    ∧ sorted ≡ₚ ps
    ∧ (∀ s, filter (λ p, (App.priority_score p =? s)%float = true) sorted
            = filter (λ p, (App.priority_score p =? s)%float = true) ps)
    ∧ non_increasing (projects body)
    ∧ (∀ i p, projects body !! i = Some p → rank p = Some (Z.of_nat i + 1))
    ∧ (∀ k, 1 <= k <= Z.of_nat (length rows) →
         ∃ p, projects body !! Z.to_nat (k - 1) = Some p ∧ rank p = Some k).
Proof.
  intros H N. destruct (analyze_ok_rows _ _ H) as [rows Hrows].
  rewrite (analyze_data_rows _ _ Hrows) in H.
  apply analyze_rows_ok in H as (ps & results & _ & _ & F & R & B).
  subst body. cbn [projects] in *. subst results.
  exists rows, ps, (py_sorted_reverse PrimFloat.ltb App.priority_score ps).
  assert (∀ i p, add_rank (py_sorted_reverse PrimFloat.ltb App.priority_score ps) 1 !! i
                 = Some p → rank p = Some (Z.of_nat i + 1)) as Hrank.
  { intros i p Hi. rewrite lookup_add_rank in Hi.
    destruct (_ !! i); [|discriminate]. injection Hi as <-. cbn. f_equal. lia. }
  repeat split; auto.
  - apply py_sorted_reverse_perm.
  - intros s.
    apply (py_sorted_reverse_stable PrimFloat.ltb App.priority_score
             (λ k, (k =? s)%float)).
    intros a b. apply eqb_class.
  - apply ranked_non_increasing.
    assert (Forall (λ p, not_nan (App.priority_score p))
              (py_sorted_reverse PrimFloat.ltb App.priority_score ps)) as N'.
    { rewrite Forall_forall in N |- *. intros p Hp.
      apply list_elem_of_lookup in Hp as [i Hi].
      specialize (N (set_rank p (1 + Z.of_nat i))). apply N.
      apply list_elem_of_lookup. exists i. rewrite lookup_add_rank, Hi. reflexivity. }
    now rewrite py_sorted_reverse_perm in N'.
  - intros k Hk.
    assert (Z.to_nat (k - 1) < length (add_rank
              (py_sorted_reverse PrimFloat.ltb App.priority_score ps) 1))%nat as L.
    { rewrite length_add_rank, (Permutation_length (py_sorted_reverse_perm _ _ ps)).
      rewrite <- (Forall2_length _ _ _ F). lia. }
    apply lookup_lt_is_Some_2 in L as [p Hp]. exists p. split; [exact Hp|].
    rewrite (Hrank _ _ Hp). f_equal. lia.
Qed.

Lemma analyze_ranking_witness :
  analyze Samples.tie_csv = inr (Ok200 Samples.tie_body)
  ∧ project_name <$> projects Samples.tie_body
    = [u "Beta"; u "Delta"; u "Alpha"; u "Gamma"; u "Epsilon"]
  ∧ rank <$> projects Samples.tie_body = [Some 1; Some 2; Some 3; Some 4; Some 5]
  ∧ non_increasing (projects Samples.tie_body).
Proof.
  assert (analyze Samples.tie_csv = inr (Ok200 Samples.tie_body)) as E
    by (vm_compute; reflexivity).
  split; [exact E|]. split; [vm_compute; reflexivity|]. split; [vm_compute; reflexivity|].
  assert (Forall (λ p, not_nan (App.priority_score p)) (projects Samples.tie_body))
    as N by (repeat constructor; vm_compute; discriminate).
  destruct (analyze_ranking Samples.tie_csv Samples.tie_body E N)
    as (rows & ps & sorted & _ & _ & _ & _ & _ & H & _).
  exact H.
Defined.

(** C3 fails on the upload [nan_csv]: "nan" passes validation, the run
    succeeds, and the NaN score stands first, before the score 3.0, so the
    projects are not in non-increasing order of score. *)
Theorem analyze_nan_not_sorted :
  ∃ body, analyze Samples.nan_csv = inr (Ok200 body)
    ∧ project_name <$> projects body = [u "Alpha"; u "Beta"]
    ∧ (Prim2SF ∘ App.priority_score) <$> projects body = [S754_nan; Prim2SF 3]
    ∧ rank <$> projects body = [Some 1; Some 2]
    ∧ ¬ non_increasing (projects body).
Proof.
  eexists. split; [vm_compute; reflexivity|].
  split; [vm_compute; reflexivity|]. split; [vm_compute; reflexivity|].
  split; [vm_compute; reflexivity|].
  intros H. specialize (H 0%nat 1%nat _ _ ltac:(lia) eq_refl eq_refl).
  vm_compute in H. discriminate.
Qed.

End Ranking.

(** * Escaping exceptions and NaN *)

Module Totality.
Import App Spec FloatFacts Scoring Validation Pipeline Sorting Results.

(** An upload that does not pass the parsing stage gets an error response. *)
Lemma analyze_no_rows (data : list Z) :
  data_rows data = None → ∃ msg, analyze data = inr (Error400 msg).
Proof.
  unfold data_rows, analyze, analyze_table, csv_error.
  destruct (Utf8.decode_sig data) as [text|]; [|eauto].
  destruct (Csv.read text) as [[|header records] [e|]]; eauto.
  - destruct (bool_decide (REQUIRED_COLUMNS ∖ list_to_set (strip <$> header) ≠ ∅)); eauto.
  - destruct (decide (REQUIRED_COLUMNS ∖ list_to_set (strip <$> header) = (∅ : gset str)))
      as [E|N].
    + rewrite (bool_decide_eq_true_2 _ E).
      rewrite bool_decide_eq_false_2 by (intros N; now apply N).
      destruct (dict_rows (strip <$> header) records); [eauto|discriminate].
    + rewrite (bool_decide_eq_true_2 _ N). eauto.
Qed.

(** [analyze] returns a response on every upload but those with a data
    row shorter than the header in a required column, on which it raises
    [AttributeError]. *)
Lemma analyze_raises_iff (data : list Z) :
  (∃ rows, data_rows data = Some rows ∧ forallb texts_only rows = false
           ∧ analyze data = inl AttributeError)
  ∨ (∃ response, analyze data = inr response
       ∧ ∀ rows, data_rows data = Some rows → forallb texts_only rows = true).
Proof.
  destruct (data_rows data) as [rows|] eqn:D.
  - destruct (forallb texts_only rows) eqn:T.
    + right. rewrite (analyze_data_rows _ _ D).
      destruct (batch_errors rows) eqn:B.
      * destruct (analyze_rows_accepted rows T B) as [body ->]. eexists.
        split; [reflexivity|]. now intros ? [= <-].
      * rewrite (analyze_rows_rejected rows T) by (rewrite B; discriminate).
        eexists. split; [reflexivity|]. now intros ? [= <-].
    + left. exists rows. repeat split; try assumption.
      rewrite (analyze_data_rows _ _ D). unfold analyze_rows.
      now rewrite (validate_rows_raises rows 2 [] T).
  - right. destruct (analyze_no_rows data D) as [msg ->]. eexists.
    split; [reflexivity|]. discriminate.
Qed.

(** Decoding errors and [csv.Error] are caught and reported. *)
Lemma analyze_malformed (data : list Z) :
  (Utf8.decode_sig data = None →
   analyze data
   = inr (Error400 (u "Unable to read the file. Ensure it is a valid UTF-8 CSV.")))
  ∧ (∀ text e, Utf8.decode_sig data = Some text → Csv.read text = ([], Some e) →
       analyze data = inr (Error400 (u "CSV parsing error: " ++ Csv.message e)))
  ∧ (∀ text header records e,
       Utf8.decode_sig data = Some text →
       Csv.read text = (header :: records, Some e) →
       missing_columns header = [] →
       analyze data = inr (Error400 (u "CSV parsing error: " ++ Csv.message e))).
Proof.
  unfold analyze. split; [intros ->; reflexivity|]. split.
  - intros text e -> ->. reflexivity.
  - intros text header records e -> -> M. unfold analyze_table.
    rewrite bool_decide_eq_false_2; [reflexivity|].
    intros N. now apply Header.missing_nonempty in N.
Qed.

Example analyze_invalid_utf8 :
  analyze [0x50; 0xFF; 0x0A]
  = inr (Error400 (u "Unable to read the file. Ensure it is a valid UTF-8 CSV.")).
Proof. vm_compute. reflexivity. Qed.

Example analyze_empty_file :
  analyze [] = inr (Error400 (u "The uploaded CSV file appears to be empty.")).
Proof. vm_compute. reflexivity. Qed.

Example analyze_header_only :
  analyze (Utf8.bytes_of "Project Name,Impact Score,Urgency Score,Effort Score,Cost Score")
  = inr (Error400 (u "The CSV file contains headers but no project data rows.")).
Proof. vm_compute. reflexivity. Qed.

(** C8 fails on the upload [short_row_csv], whose data row has two fields
    under a header of five: [analyze] raises [AttributeError] when
    [validate_row] calls [strip] on the [None] of the first missing field, and
    returns no response. *)
Theorem analyze_short_row_raises :
  analyze Samples.short_row_csv = inl AttributeError
  ∧ data_rows Samples.short_row_csv = Some [Samples.short_row]
  ∧ Samples.short_row !! u "Urgency Score" = Some None
  ∧ validate_row Samples.short_row 2 = inl AttributeError.
Proof.
  split; [vm_compute; reflexivity|].
  split; [vm_compute; reflexivity|]. split; vm_compute; reflexivity.
Qed.

Lemma lstrip_spaces (pad s : str) :
  Forall (λ c, is_space c = true) pad → lstrip (pad ++ s) = lstrip s.
Proof. induction 1 as [|c pad Hc _ IH]; cbn; [|rewrite Hc]; auto. Qed.

Lemma lower_n (a : Z) : PyFloat.lower a = 110 → a = 110 ∨ a = 78.
Proof.
  unfold PyFloat.lower.
  destruct (Z.leb_spec 65 a), (Z.leb_spec a 90); cbn; intros; lia.
Qed.

Lemma lower_a (a : Z) : PyFloat.lower a = 97 → a = 97 ∨ a = 65.
Proof.
  unfold PyFloat.lower.
  destruct (Z.leb_spec 65 a), (Z.leb_spec a 90); cbn; intros; lia.
Qed.

(** "nan" in any letter case, with white space around it, trims to a text
    that [float] reads as a NaN. *)
Lemma nan_text (pad1 w pad2 : str) :
  Forall (λ c, is_space c = true) pad1 → Forall (λ c, is_space c = true) pad2 →
  PyFloat.lower <$> w = u "nan" →
  strip (pad1 ++ w ++ pad2) = w ∧ w ≠ [] ∧ PyFloat.of_str w = Some nan.
Proof.
  intros H1 H2 Hw. change (u "nan") with [110; 97; 110] in Hw.
  destruct w as [|a [|b [|c [|]]]]; try discriminate.
  injection Hw as Ha Hb Hc.
  apply lower_n in Ha. apply lower_a in Hb. apply lower_n in Hc.
  assert (strip (pad1 ++ [a; b; c] ++ pad2) = [a; b; c]) as ->.
  { unfold strip, rstrip. rewrite (lstrip_spaces pad1 _ H1).
    assert (is_space a = false) as Sa by (destruct Ha as [-> | ->]; reflexivity).
    assert (is_space c = false) as Sc by (destruct Hc as [-> | ->]; reflexivity).
    cbn [app lstrip]. rewrite Sa.
    change (a :: b :: c :: pad2) with ([a; b; c] ++ pad2).
    rewrite reverse_app, (lstrip_spaces (reverse pad2)).
    - cbn. rewrite Sc. reflexivity.
    - apply Forall_forall. intros x Hx. rewrite elem_of_reverse in Hx.
      rewrite Forall_forall in H2. auto. }
  split; [reflexivity|]. split; [discriminate|].
  destruct Ha as [-> | ->], Hb as [-> | ->], Hc as [-> | ->]; vm_compute; reflexivity.
Qed.

(** C10. A score field that reads "nan", in any letter case and with
    white space around it, is passed by [validate_row] without an error:
    [float] reads it as a NaN, which is neither below 1 nor above 5. The
    score computed from a NaN is a NaN, and its category is "Low". *)
Theorem nan_passes_validation (r : row) (row_index : Z) (field : str)
    (fields errors : list str) (pad1 w pad2 : str) :
  r !! field = Some (Some (pad1 ++ w ++ pad2) : option str) →
  Forall (λ c, is_space c = true) pad1 →
  Forall (λ c, is_space c = true) pad2 →
  PyFloat.lower <$> w = u "nan" →
  PyFloat.of_str (strip (pad1 ++ w ++ pad2)) = Some nan
  ∧ ((nan <? 1)%float || (5 <? nan)%float) = false
  ∧ validate_scores r row_index (field :: fields) errors
    = validate_scores r row_index fields errors
  ∧ check_score r row_index field = []
  ∧ (∀ impact urgency effort cost,
       Prim2SF impact = S754_nan ∨ Prim2SF urgency = S754_nan
       ∨ Prim2SF effort = S754_nan ∨ Prim2SF cost = S754_nan →
       Prim2SF (calculate_priority_score impact urgency effort cost) = S754_nan
       ∧ get_priority_category (calculate_priority_score impact urgency effort cost)
         = u "Low").
Proof.
  intros Hr H1 H2 Hw. destruct (nan_text pad1 w pad2 H1 H2 Hw) as (S & N & F).
  split; [now rewrite S|]. split; [reflexivity|]. split; [|split].
  - cbn [validate_scores]. unfold dict_get. rewrite Hr.
    cbn [default from_option id method_strip bind]. rewrite S.
    destruct w; [congruence|]. now rewrite F.
  - unfold check_score, field_text. rewrite Hr, S.
    destruct w; [congruence|]. now rewrite F.
  - intros impact urgency effort cost H.
    pose proof (calculate_priority_score_nan _ _ _ _ H) as E.
    split; [exact E|]. now apply get_priority_category_nan.
Qed.

Lemma nan_passes_validation_witness :
  Samples.nan_row !! u "Impact Score"
  = Some (Some (u "  " ++ u "NaN" ++ u " ") : option str)
  ∧ validate_scores Samples.nan_row 2 [u "Impact Score"] [] = inr []
  ∧ validate_row Samples.nan_row 2 = inr [].
Proof.
  assert (Samples.nan_row !! u "Impact Score"
          = Some (Some (u "  " ++ u "NaN" ++ u " ") : option str))
    as Hr by (vm_compute; reflexivity).
  assert (Forall (λ c, is_space c = true) (u "  ")) as H1
    by (repeat constructor).
  assert (Forall (λ c, is_space c = true) (u " ")) as H2
    by (repeat constructor).
  assert (PyFloat.lower <$> u "NaN" = u "nan") as Hw by (vm_compute; reflexivity).
  split; [exact Hr|].
  destruct (nan_passes_validation Samples.nan_row 2 (u "Impact Score") [] []
              (u "  ") (u "NaN") (u " ") Hr H1 H2 Hw) as (_ & _ & E & _).
  split; [rewrite E; reflexivity|]. vm_compute. reflexivity.
Defined.

End Totality.

(** * The upload checks *)

Module UploadFacts.
Import App Spec Props Upload.

Lemma split_last_none (sep : Z) (s : str) :
  PyStr.split_last sep s = None ↔ sep ∉ s.
Proof.
  induction s as [|c s IH]; cbn.
  - split; [intros _; apply not_elem_of_nil | reflexivity].
  - rewrite not_elem_of_cons. destruct (PyStr.split_last sep s) as [[a b]|].
    + split; [discriminate|]. intros [_ N]. now apply IH in N.
    + destruct (Z.eqb_spec c sep); split; try discriminate; try tauto.
      * intros [N _]. congruence.
      * intros _. split; [congruence | now apply IH].
Qed.

Lemma split_last_some (sep : Z) (s a b : str) :
  PyStr.split_last sep s = Some (a, b) ↔ s = a ++ sep :: b ∧ sep ∉ b.
Proof.
  revert a. induction s as [|c s IH]; intros a; cbn.
  - split; [discriminate|]. intros [E _]. now destruct a.
  - destruct (PyStr.split_last sep s) as [[a' b']|] eqn:E.
    + split.
      * intros [= <- <-]. destruct (proj1 (IH a') eq_refl) as [-> N]. auto.
      * intros [E' N]. destruct a as [|x a]; cbn in E'; injection E' as -> ->.
        -- assert (Some (a', b') = None) as E2
             by (rewrite <- E; now apply split_last_none).
           discriminate.
        -- assert (Some (a', b') = Some (a, b)) as E2 by (apply IH; auto).
           now injection E2 as -> ->.
    + apply split_last_none in E. destruct (Z.eqb_spec c sep) as [->|Nc].
      * split.
        -- intros [= <- <-]. auto.
        -- intros [E' N]. destruct a as [|x a]; cbn in E'.
           ++ now injection E' as ->.
           ++ injection E' as -> ->. exfalso. apply E.
              apply elem_of_app. right. left.
      * split; [discriminate|]. intros [E' N]. destruct a as [|x a]; cbn in E'.
        -- congruence.
        -- injection E' as -> ->. exfalso. apply E. apply elem_of_app. right. left.
Qed.

(** No range of the lowercase table reaches "c", "s" or "v" but the one
    of the capital letters A to Z. *)
Lemma lower_ranges_csv :
  forallb (λ r, forallb (λ t, negb (reaches t r)
                              || bool_decide (r = (0x41, 0x5a, 1, 32)))
                        [99; 115; 118])
          PyStr.lower_ranges = true.
Proof. vm_compute. reflexivity. Qed.

Lemma to_lower_full_csv (c t : Z) :
  is_csv_letter t → t ∈ PyStr.to_lower_full c →
  PyStr.to_lower_full c = [t] ∧ PyFloat.lower c = t.
Proof.
  intros Ht. unfold PyStr.to_lower_full.
  destruct (Z.eqb_spec c 0x130) as [->|_].
  { rewrite !elem_of_cons, elem_of_nil. unfold is_csv_letter in Ht. lia. }
  destruct (List.find (PyStr.in_lower_range c) PyStr.lower_ranges)
    as [[[[lo hi] st] d]|] eqn:F.
  - rewrite list_elem_of_singleton. intros ->.
    apply List.find_some in F as [Hin Hr].
    pose proof lower_ranges_csv as T. rewrite List.forallb_forall in T.
    specialize (T _ Hin). cbn [forallb reaches] in T.
    cbn [PyStr.in_lower_range] in Hr.
    apply andb_true_iff in Hr as [Hr _]. apply andb_true_iff in Hr as [H1 H2].
    apply Z.leb_le in H1, H2.
    assert ((lo <=? c + d - d) && (c + d - d <=? hi) = true) as R.
    { replace (c + d - d) with c by lia. apply andb_true_iff. split; now apply Z.leb_le. }
    assert (bool_decide ((lo, hi, st, d) = (0x41, 0x5a, 1, 32)) = true) as B.
    { destruct Ht as [E|[E|E]]; rewrite E in R;
        repeat (apply andb_true_iff in T as [? T]);
        repeat match goal with
        | H : negb ?x || _ = true |- _ =>
            first [rewrite R in H; exact H | clear H]
        end. }
    apply bool_decide_eq_true in B. injection B as -> -> -> ->.
    split; [reflexivity|]. unfold PyFloat.lower.
    destruct (Z.leb_spec 65 c), (Z.leb_spec c 90); cbn; lia.
  - rewrite list_elem_of_singleton. intros ->. split; [reflexivity|].
    unfold PyFloat.lower, is_csv_letter in *.
    destruct (Z.leb_spec 65 c), (Z.leb_spec c 90); cbn; lia.
Qed.

Lemma to_lower_full_cons (c : Z) : ∃ x l, PyStr.to_lower_full c = x :: l.
Proof.
  unfold PyStr.to_lower_full. destruct (c =? 0x130); [eauto|].
  destruct (List.find _ _) as [[[[? ?] ?] ?]|]; eauto.
Qed.

Lemma lower_csv_letter (c t : Z) :
  is_csv_letter t → PyFloat.lower c = t → c = t ∨ c = t - 32.
Proof.
  unfold PyFloat.lower, is_csv_letter.
  destruct (Z.leb_spec 65 c), (Z.leb_spec c 90); cbn; lia.
Qed.

(** On a text made of "c", "s" and "v" only, [str.lower] gives it exactly
    from its variants in the letter case of ASCII. *)
Lemma lower_from_csv (s before t : str) :
  Forall is_csv_letter t →
  PyStr.lower_from before s = t ↔ PyFloat.lower <$> s = t.
Proof.
  revert before t. induction s as [|c s IH]; intros before t Ht; [reflexivity|].
  cbn [PyStr.lower_from fmap list_fmap]. split.
  - intros E. destruct t as [|h t].
    { destruct (Z.eqb_spec c 0x3A3); [discriminate|].
      destruct (to_lower_full_cons c) as (x & l & Ex). rewrite Ex in E. discriminate. }
    apply Forall_cons in Ht as [Hh Ht].
    destruct (Z.eqb_spec c 0x3A3) as [->|_].
    { exfalso. cbn in E. injection E as E _. unfold is_csv_letter in Hh.
      destruct (PyStr.final_sigma before s); lia. }
    destruct (to_lower_full_cons c) as (x & l & Ex).
    assert (h = x) as <- by (rewrite Ex in E; now injection E).
    destruct (to_lower_full_csv c h Hh) as [E1 E2]; [rewrite Ex; left|].
    rewrite E1 in E. cbn in E. injection E as E. apply (IH _ _ Ht) in E.
    rewrite E2. f_equal. exact E.
  - intros E. destruct t as [|h t]; [discriminate|]. injection E as E1 E2.
    apply Forall_cons in Ht as [Hh Ht].
    apply (IH (c :: before) _ Ht) in E2. rewrite E2.
    destruct (lower_csv_letter c h Hh E1) as [-> | ->];
      destruct Hh as [-> | [-> | ->]]; reflexivity.
Qed.

Lemma lower_csv (ext : str) :
  PyStr.str_lower ext = u "csv" ↔ PyFloat.lower <$> ext = u "csv".
Proof.
  apply lower_from_csv. change (u "csv") with [99; 115; 118].
  apply Forall_cons. split; [unfold is_csv_letter; lia|].
  apply Forall_cons. split; [unfold is_csv_letter; lia|].
  apply Forall_cons. split; [unfold is_csv_letter; lia|]. apply Forall_nil_2.
Qed.

Lemma allowed_file_total (name : str) : allowed_file name ≠ None.
Proof.
  unfold allowed_file, PyStr.rsplit1. destruct (bool_decide (46 ∈ name)) eqn:D;
    [|discriminate].
  apply bool_decide_eq_true in D.
  destruct (PyStr.split_last 46 name) as [[a b]|] eqn:E; [discriminate|].
  apply split_last_none in E. contradiction.
Qed.

Lemma allowed_file_true (name : str) :
  allowed_file name = Some true
  ↔ ∃ stem ext, name = stem ++ 46 :: ext ∧ (46 ∉ ext)
                ∧ (PyFloat.lower <$> ext) = u "csv".
Proof.
  unfold allowed_file, PyStr.rsplit1.
  destruct (decide (46 ∈ name)) as [D|D].
  - rewrite (bool_decide_eq_true_2 _ D).
    destruct (PyStr.split_last 46 name) as [[a b]|] eqn:E.
    + apply split_last_some in E as [-> N]. cbn.
      unfold ALLOWED_EXTENSIONS. split.
      * intros [= H]. apply bool_decide_eq_true, elem_of_singleton in H.
        exists a, b. repeat split; auto. now apply lower_csv.
      * intros (stem & ext & E & N' & L). f_equal. apply bool_decide_eq_true.
        apply elem_of_singleton.
        assert (PyStr.split_last 46 (a ++ 46 :: b) = Some (stem, ext)) as S
          by (apply split_last_some; auto).
        assert (PyStr.split_last 46 (a ++ 46 :: b) = Some (a, b)) as S'
          by (apply split_last_some; auto).
        rewrite S in S'. injection S' as -> ->. now apply lower_csv.
    + apply split_last_none in E. contradiction.
  - rewrite (bool_decide_eq_false_2 _ D). split; [discriminate|].
    intros (stem & ext & -> & _). exfalso. apply D, elem_of_app. right. left.
Qed.

(** X1. [allowed_file] never raises the [IndexError] of its subscript, and
    it holds exactly of the names with a dot whose text after the last dot is
    "csv" in any letter case: no other character is lowered to one of these
    letters. *)
Theorem allowed_file_spec (name : str) :
  allowed_file name ≠ None
  ∧ (allowed_file name = Some true
     ↔ ∃ stem ext, name = stem ++ 46 :: ext ∧ (46 ∉ ext)
                   ∧ (PyFloat.lower <$> ext) = u "csv").
Proof.
  split; [apply allowed_file_total|apply allowed_file_true].
Qed.

End UploadFacts.

Module RouteFacts.
Import App Spec Props Upload UploadFacts Pipeline Results Validation.

(** X2. The route answers 200 only for a part named "file" whose file name
    ends in ".csv" (any letter case), with the response of the pipeline on its
    bytes; the [IndexError] of [allowed_file] never leaves it. *)
Theorem analyze_request_ok (files : gmap str upload) (body : payload) :
  analyze_request files = inr (Ok200 body) →
  ∃ file stem ext,
    files !! u "file" = Some file
    ∧ filename file = stem ++ 46 :: ext ∧ (46 ∉ ext)
    ∧ (PyFloat.lower <$> ext) = u "csv"
    ∧ analyze (stream file) = inr (Ok200 body).
Proof.
  unfold analyze_request.
  destruct (files !! u "file") as [file|]; [|discriminate].
  destruct (filename file) as [|c name] eqn:N; [discriminate|].
  destruct (allowed_file (c :: name)) as [[|]|] eqn:A; try discriminate.
  apply allowed_file_true in A as (stem & ext & E & D & L).
  destruct (analyze (stream file)) as [e|r] eqn:R; [discriminate|].
  intros [= ->]. exists file, stem, ext. rewrite N. auto.
Qed.

Lemma analyze_request_ok_witness :
  analyze_request Cases.csv_request = inr (Ok200 Cases.csv_body)
  ∧ ∃ file stem ext,
      Cases.csv_request !! u "file" = Some file
      ∧ filename file = stem ++ 46 :: ext ∧ (46 ∉ ext)
      ∧ (PyFloat.lower <$> ext) = u "csv"
      ∧ analyze (stream file) = inr (Ok200 Cases.csv_body).
Proof.
  assert (analyze_request Cases.csv_request = inr (Ok200 Cases.csv_body)) as E
    by (vm_compute; reflexivity).
  split; [exact E|]. exact (analyze_request_ok _ _ E).
Defined.

End RouteFacts.

(** * Rows as the reader builds them *)

Module RowFacts.
Import App Spec Props Pipeline Results Validation.

Lemma fold_put_notin (l : list (str * str)) (d : row) (k : str) :
  k ∉ l.*1 → fold_left put l d !! k = d !! k.
Proof.
  revert d. induction l as [|[k' v'] l IH]; intros d N; [reflexivity|].
  cbn in N |- *. apply not_elem_of_cons in N as [N1 N2].
  rewrite (IH _ N2). unfold put. cbn [fst snd]. apply lookup_insert_ne. congruence.
Qed.

Lemma fold_put_none_notin (l : list str) (d : row) (k : str) :
  k ∉ l → fold_left put_none l d !! k = d !! k.
Proof.
  revert d. induction l as [|k' l IH]; intros d N; [reflexivity|].
  cbn. apply not_elem_of_cons in N as [N1 N2].
  rewrite (IH _ N2). unfold put_none. apply lookup_insert_ne. congruence.
Qed.

Lemma fold_put_none_in (l : list str) (d : row) (k : str) :
  k ∈ l → fold_left put_none l d !! k = Some None.
Proof.
  revert d. induction l as [|k' l IH]; intros d H; [now apply elem_of_nil in H|].
  cbn. destruct (decide (k ∈ l)) as [I|N]; [now apply IH|].
  rewrite (fold_put_none_notin _ _ _ N). apply elem_of_cons in H as [->|H]; [|tauto].
  unfold put_none. apply lookup_insert_eq.
Qed.

Lemma dict_row_unfold (fieldnames record : list str) :
  dict_row fieldnames record
  = fold_left put_none (drop (length record) fieldnames)
      (fold_left put (zip fieldnames record) ∅).
Proof. reflexivity. Qed.

Lemma fst_zip_sub (h r : list str) (k : str) : k ∈ (zip h r).*1 → k ∈ h.
Proof.
  revert r. induction h as [|x h IH]; intros [|y r]; cbn; try (intros H; now apply elem_of_nil in H).
  rewrite !elem_of_cons. intros [->|H]; eauto.
Qed.

(** X4. How a row reads a column: a name the header lacks is absent from
    the row; under a name the header holds, the row holds the field of the
    last column of that name, or [None] when the record ends before that
    column. *)
Theorem dict_row_lookup (h1 h2 r1 r2 : list str) (k v : str) (record : list str) :
  k ∉ h2 →
  (length r1 = length h1 →
   dict_row (h1 ++ k :: h2) (r1 ++ v :: r2) !! k = Some (Some v))
  ∧ ((length record <= length h1)%nat →
     dict_row (h1 ++ k :: h2) record !! k = Some None)
  ∧ (k ∉ h1 → dict_row (h1 ++ h2) record !! k = None).
Proof.
  intros N. split; [|split].
  - intros L. rewrite dict_row_unfold.
    rewrite fold_put_none_notin.
    + rewrite zip_with_app by (symmetry; exact L). cbn [zip_with].
      rewrite fold_left_app. cbn [fold_left].
      rewrite fold_put_notin.
      * unfold put. cbn [fst snd]. apply lookup_insert_eq.
      * intros H. apply N. now apply fst_zip_sub in H.
    + intros H. apply list_elem_of_lookup in H as [i H].
      rewrite lookup_drop in H. rewrite length_app in H. cbn in H.
      rewrite lookup_app_r in H by lia.
      replace (length r1 + S (length r2) + i - length h1)%nat
        with (S (length r2 + i)) in H by lia.
      cbn in H. apply N. apply list_elem_of_lookup. eauto.
  - intros L. rewrite dict_row_unfold. apply fold_put_none_in.
    apply list_elem_of_lookup. exists (length h1 - length record)%nat.
    rewrite lookup_drop, lookup_app_r by lia.
    replace (length record + (length h1 - length record) - length h1)%nat with 0%nat by lia.
    reflexivity.
  - intros N1. rewrite dict_row_unfold.
    assert (k ∉ h1 ++ h2) as N2 by (rewrite elem_of_app; tauto).
    rewrite fold_put_none_notin.
    + rewrite fold_put_notin; [apply lookup_empty|].
      intros H. apply N2. now apply fst_zip_sub in H.
    + intros H. apply N2. apply list_elem_of_lookup in H as [i H].
      rewrite lookup_drop in H. apply list_elem_of_lookup. eauto.
Qed.

Lemma dict_row_lookup_witness :
  dict_row [u "Cost Score"; u "Name"; u "Cost Score"; u "Notes"]
           [u "1"; u "Alpha"; u "5"] !! u "Cost Score" = Some (Some (u "5")).
Proof.
  apply (dict_row_lookup [u "Cost Score"; u "Name"] [u "Notes"]
           [u "1"; u "Alpha"] [] (u "Cost Score") (u "5") []).
  - vm_compute. intros H. apply list_elem_of_In in H. cbn in H. intuition discriminate.
  - reflexivity.
Defined.

(** A record as long as the header gives every name a text. *)
Lemma dict_row_texts (fieldnames record : list str) (k : str) :
  (length fieldnames <= length record)%nat →
  dict_row fieldnames record !! k ≠ Some None.
Proof.
  intros L. rewrite dict_row_unfold, drop_ge by exact L. cbn [fold_left].
  generalize (zip fieldnames record). intros l.
  assert (∀ d : row, d !! k ≠ Some None → fold_left put l d !! k ≠ Some None) as H.
  { induction l as [|[k' v'] l IH]; intros d Hd; [exact Hd|]. cbn. apply IH.
    unfold put, row in *. cbn [fst snd]. destruct (decide (k' = k)) as [->|Nk].
    - rewrite lookup_insert_eq. discriminate.
    - now rewrite lookup_insert_ne. }
  apply H. intros E. pose proof (lookup_empty (M:=gmap str) (A:=option str) k) as E'.
  unfold row in *. congruence.
Qed.

Lemma dict_row_texts_only (fieldnames record : list str) :
  (length fieldnames <= length record)%nat →
  texts_only (dict_row fieldnames record) = true.
Proof.
  intros L. unfold texts_only. apply forallb_forall. intros f _.
  pose proof (dict_row_texts fieldnames record f L) as H.
  destruct (dict_row fieldnames record !! f) as [[|]|]; congruence.
Qed.

End RowFacts.

(** * What the pipeline returns and when it raises *)

Module Returns.
Import App Spec Props Pipeline Results Validation RowFacts Sorting FloatFacts.

Lemma data_rows_inv (data : list Z) (rows : list row) :
  data_rows data = Some rows →
  ∃ text header records,
    Utf8.decode_sig data = Some text
    ∧ Csv.read text = (header :: records, None)
    ∧ rows = dict_rows (strip <$> header) records ∧ rows ≠ [].
Proof.
  unfold data_rows. destruct (Utf8.decode_sig data) as [text|]; [|discriminate].
  destruct (Csv.read text) as [[|header records] [e|]] eqn:R; try discriminate.
  destruct (bool_decide _); [|discriminate].
  destruct (dict_rows (strip <$> header) records) eqn:E; [discriminate|].
  intros [= <-]. exists text, header, records.
  split; [reflexivity|]. split; [exact R|]. split; [now rewrite E|discriminate].
Qed.

Lemma forallb_false_elem {A} (f : A → bool) (l : list A) :
  forallb f l = false → ∃ x, x ∈ l ∧ f x = false.
Proof.
  induction l as [|x l IH]; cbn; [discriminate|].
  destruct (f x) eqn:E; cbn.
  - intros H. destruct (IH H) as (y & Hy & Fy). exists y. split; [now right|assumption].
  - intros _. exists x. split; [left|assumption].
Qed.

(** X5. [analyze] raises nothing but [AttributeError], and only on an upload
    with a data record that has fewer fields than the header. *)
Theorem analyze_raises_short_record (data : list Z) (e : exn) :
  analyze data = inl e →
  e = AttributeError
  ∧ ∃ text header records err record,
      Utf8.decode_sig data = Some text
      ∧ Csv.read text = (header :: records, err)
      ∧ record ∈ records ∧ record ≠ []
      ∧ (length record < length header)%nat.
Proof.
  intros H.
  destruct (Totality.analyze_raises_iff data)
    as [(rows & D & T & E)|(resp & E & _)]; rewrite H in E; [|discriminate].
  injection E as ->. split; [reflexivity|].
  apply data_rows_inv in D as (text & header & records & D & R & -> & _).
  exists text, header, records, None.
  apply forallb_false_elem in T as (r & Hr & Fr).
  unfold dict_rows in Hr. apply list_elem_of_fmap in Hr as (record & -> & Hrec).
  apply list_elem_of_filter in Hrec as [Hne Hrec].
  exists record. repeat split; auto.
  destruct (le_lt_dec (length (strip <$> header)) (length record)) as [L|L].
  - rewrite (dict_row_texts_only _ _ L) in Fr. discriminate.
  - now rewrite length_fmap in L.
Qed.

Lemma analyze_raises_short_record_witness :
  analyze Samples.short_row_csv = inl AttributeError
  ∧ ∃ text header records err record,
      Utf8.decode_sig Samples.short_row_csv = Some text
      ∧ Csv.read text = (header :: records, err)
      ∧ record ∈ records ∧ record ≠ []
      ∧ (length record < length header)%nat.
Proof.
  assert (analyze Samples.short_row_csv = inl AttributeError) as E
    by (vm_compute; reflexivity).
  split; [exact E|]. exact (proj2 (analyze_raises_short_record _ _ E)).
Defined.

(** X6. [analyze] returns a response exactly on the uploads whose data rows
    all give every required field a text. *)
Theorem analyze_returns_iff (data : list Z) :
  (∃ response, analyze data = inr response)
  ↔ (∀ rows, data_rows data = Some rows → forallb texts_only rows = true).
Proof.
  destruct (Totality.analyze_raises_iff data)
    as [(rows & D & T & E)|(resp & E & A)].
  - split.
    + intros [resp R]. rewrite R in E. discriminate.
    + intros A. specialize (A rows D). congruence.
  - split; [intros _; exact A | intros _; eauto].
Qed.

End Returns.

(** * Every successful response *)

Module Success.
Import App Spec Props Pipeline Results Validation RowFacts Sorting FloatFacts Returns.

Lemma validate_rows_ok (rows : list row) :
  validate_rows rows 2 [] = inr [] →
  ∀ i r, rows !! i = Some r → row_errors r (2 + Z.of_nat i) = [].
Proof.
  intros V. destruct (forallb texts_only rows) eqn:T.
  - rewrite (validate_rows_errors rows 2 [] T) in V. cbn [app] in V.
    injection V as V. now apply batch_errors_nil.
  - rewrite (validate_rows_raises rows 2 [] T) in V. discriminate.
Qed.

Lemma not_nan_1 : not_nan 1.
Proof. vm_compute. discriminate. Qed.

Lemma not_nan_5 : not_nan 5.
Proof. vm_compute. discriminate. Qed.

Lemma check_score_band (r : row) (row_index : Z) (field : str) (x : float) :
  check_score r row_index field = [] →
  PyFloat.of_str (strip (field_text r field)) = Some x → in_band x.
Proof.
  intros C F. apply check_score_nil in C as (s & num & E & F' & L1 & L2).
  unfold field_text in F. rewrite E in F. rewrite F' in F. injection F as ->.
  unfold in_band. destruct (Prim2SF x) eqn:P; auto; right;
    (assert (not_nan x) as N by (unfold not_nan; rewrite P; discriminate));
    split; apply ltb_false_leb; auto using not_nan_1, not_nan_5.
Qed.

Lemma row_band (r : row) (row_index : Z) (p : project) :
  row_errors r row_index = [] → scored r p →
  in_band (impact p) ∧ in_band (urgency p) ∧ in_band (effort p) ∧ in_band (cost p).
Proof.
  unfold row_errors. intros H (_ & _ & F1 & F2 & F3 & F4 & _).
  apply app_eq_nil in H as [H1 H]. apply app_eq_nil in H as [H2 H].
  apply app_eq_nil in H as [H3 H]. apply app_eq_nil in H as [H4 _].
  split; [exact (check_score_band _ _ _ _ H1 F1)|].
  split; [exact (check_score_band _ _ _ _ H2 F2)|].
  split; [exact (check_score_band _ _ _ _ H3 F3)|].
  exact (check_score_band _ _ _ _ H4 F4).
Qed.

Lemma Forall_add_rank (P : project → Prop) (l : list project) (k : Z) :
  (∀ p j, P p → P (set_rank p j)) → Forall P l → Forall P (add_rank l k).
Proof.
  intros HP H. revert k. induction H as [|p l Hp _ IH]; intros k; cbn; constructor; auto.
Qed.

Lemma Forall2_Forall_scored (P : project → Prop) (rows : list row) (ps : list project) :
  Forall2 scored rows ps →
  (∀ i r p, rows !! i = Some r → scored r p → P p) → Forall P ps.
Proof.
  intros F. induction F as [|r p rows ps Hs _ IH]; intros H; constructor.
  - apply (H 0%nat r p); [reflexivity|assumption].
  - apply IH. intros i r' p' Hi. apply (H (S i)). exact Hi.
Qed.

(** X8. In every successful response each of the four values of each
    project is between 1 and 5, or is a NaN. *)
Theorem validated_values_in_band (data : list Z) (body : payload) :
  analyze data = inr (Ok200 body) →
  Forall (λ p, in_band (impact p) ∧ in_band (urgency p)
               ∧ in_band (effort p) ∧ in_band (cost p)) (projects body).
Proof.
  intros H. destruct (analyze_ok_rows _ _ H) as [rows Hrows].
  rewrite (analyze_data_rows _ _ Hrows) in H.
  apply analyze_rows_ok in H as (ps & results & V & _ & F & R & ->).
  cbn [projects]. subst results. apply Forall_add_rank; [auto|].
  rewrite py_sorted_reverse_perm.
  apply (Forall2_Forall_scored _ rows ps F). intros i r p Hi S.
  apply (row_band r (2 + Z.of_nat i) p); [|exact S].
  exact (validate_rows_ok rows V i r Hi).
Qed.

Lemma validated_values_in_band_witness :
  analyze Samples.nan_csv = inr (Ok200 Cases.nan_body)
  ∧ Forall (λ p, in_band (impact p) ∧ in_band (urgency p)
                 ∧ in_band (effort p) ∧ in_band (cost p))
      (projects Cases.nan_body).
Proof.
  assert (analyze Samples.nan_csv = inr (Ok200 Cases.nan_body)) as E
    by (vm_compute; reflexivity).
  split; [exact E|]. exact (validated_values_in_band _ _ E).
Defined.

End Success.

(** * The entries of a successful response *)

Module Entries.
Import App Spec Props Pipeline Results Validation RowFacts Sorting FloatFacts Returns Success.

(** X9. Every successful response, a NaN score or not: there is a data row,
    the projects are the entries of the data rows in some order, one for
    one, each with the score, category and explanation of its own values,
    and the ranks count the positions from 1. *)
Theorem analyze_entries (data : list Z) (body : payload) :
  analyze data = inr (Ok200 body) →
  ∃ rows ps sorted,
    data_rows data = Some rows ∧ rows ≠ []
    ∧ Forall2 scored rows ps
    ∧ sorted ≡ₚ ps
    ∧ projects body = add_rank sorted 1
    ∧ success body = true
    ∧ (∀ i p, projects body !! i = Some p →
         rank p = Some (Z.of_nat i + 1)
         ∧ App.priority_score p
           = calculate_priority_score (impact p) (urgency p) (effort p) (cost p)
         ∧ priority_category p = get_priority_category (App.priority_score p)
         ∧ explanation p = get_explanation (impact p) (urgency p) (effort p) (cost p)).
Proof.
  intros H. destruct (analyze_ok_rows _ _ H) as [rows Hrows].
  rewrite (analyze_data_rows _ _ Hrows) in H.
  apply analyze_rows_ok in H as (ps & results & _ & _ & F & R & ->).
  cbn [projects success]. subst results.
  exists rows, ps, (py_sorted_reverse PrimFloat.ltb App.priority_score ps).
  split; [exact Hrows|]. split.
  { apply data_rows_inv in Hrows as (_ & _ & _ & _ & _ & _ & N). exact N. }
  split; [exact F|]. split; [apply py_sorted_reverse_perm|].
  split; [reflexivity|]. split; [reflexivity|].
  intros i p Hi. rewrite lookup_add_rank in Hi.
  destruct (py_sorted_reverse _ _ ps !! i) as [q|] eqn:Q; [|discriminate].
  injection Hi as <-. cbn.
  assert (q ∈ ps) as Hq.
  { rewrite <- (py_sorted_reverse_perm PrimFloat.ltb App.priority_score ps).
    apply list_elem_of_lookup. eauto. }
  assert (Forall (λ p, App.priority_score p
                       = calculate_priority_score (impact p) (urgency p) (effort p) (cost p)
                     ∧ priority_category p = get_priority_category (App.priority_score p)
                     ∧ explanation p
                       = get_explanation (impact p) (urgency p) (effort p) (cost p)) ps) as A.
  { apply (Forall2_Forall_scored _ rows ps F).
    intros _ r p _ (_ & _ & _ & _ & _ & _ & S1 & S2 & S3 & _). auto. }
  rewrite Forall_forall in A. destruct (A q Hq) as (A1 & A2 & A3).
  split; [f_equal; lia|]. auto.
Qed.

Lemma analyze_entries_witness :
  analyze Samples.nan_csv = inr (Ok200 Cases.nan_body)
  ∧ ∃ rows ps sorted,
      data_rows Samples.nan_csv = Some rows ∧ rows ≠ []
      ∧ Forall2 scored rows ps
      ∧ sorted ≡ₚ ps
      ∧ projects Cases.nan_body = add_rank sorted 1
      ∧ success Cases.nan_body = true
      ∧ (∀ i p, projects Cases.nan_body !! i = Some p →
           rank p = Some (Z.of_nat i + 1)
           ∧ App.priority_score p
             = calculate_priority_score (impact p) (urgency p) (effort p) (cost p)
           ∧ priority_category p = get_priority_category (App.priority_score p)
           ∧ explanation p
             = get_explanation (impact p) (urgency p) (effort p) (cost p)).
Proof.
  assert (analyze Samples.nan_csv = inr (Ok200 Cases.nan_body)) as E
    by (vm_compute; reflexivity).
  split; [exact E|]. exact (analyze_entries _ _ E).
Defined.

Lemma lstrip_head (s : str) (c : Z) (t : str) : lstrip s = c :: t → is_space c = false.
Proof.
  induction s as [|x s IH]; cbn; [discriminate|].
  destruct (is_space x) eqn:E; [exact IH|]. now intros [= <- <-].
Qed.

Lemma lstrip_suffix (s : str) : ∃ pre, s = pre ++ lstrip s.
Proof.
  induction s as [|x s [pre IH]]; [now exists []|]. cbn.
  destruct (is_space x); [|now exists []].
  exists (x :: pre). cbn. now f_equal.
Qed.

(** [strip] leaves no white space at either end. *)
Lemma strip_trimmed (s : str) : trimmed (strip s).
Proof.
  unfold trimmed, strip, rstrip.
  set (a := lstrip s). set (b := lstrip (reverse a)).
  destruct (lstrip_suffix (reverse a)) as [pre P]. fold b in P.
  assert (a = reverse b ++ reverse pre) as A.
  { rewrite <- reverse_app, <- P. now rewrite reverse_involutive. }
  split.
  - intros c t E. destruct (reverse b) as [|y l] eqn:B; [discriminate|].
    injection E as -> ->. cbn in A. now apply (lstrip_head s c (t ++ reverse pre)).
  - intros t c E. apply (f_equal reverse) in E.
    rewrite reverse_involutive, reverse_app in E. cbn in E.
    now apply (lstrip_head (reverse a) c (reverse t)).
Qed.

(** X10. In every successful response the name of each project is not empty
    and has no white space at either end. *)
Theorem project_names_trimmed (data : list Z) (body : payload) :
  analyze data = inr (Ok200 body) →
  Forall (λ p, project_name p ≠ [] ∧ trimmed (project_name p)) (projects body).
Proof.
  intros H. destruct (analyze_ok_rows _ _ H) as [rows Hrows].
  rewrite (analyze_data_rows _ _ Hrows) in H.
  apply analyze_rows_ok in H as (ps & results & V & _ & F & R & ->).
  cbn [projects]. subst results. apply Forall_add_rank; [auto|].
  rewrite py_sorted_reverse_perm.
  apply (Forall2_Forall_scored _ rows ps F). intros i r p Hi (_ & N & _).
  rewrite N. split; [|apply strip_trimmed].
  pose proof (validate_rows_ok rows V i r Hi) as E. unfold row_errors in E.
  apply app_eq_nil in E as [_ E]. apply app_eq_nil in E as [_ E].
  apply app_eq_nil in E as [_ E]. apply app_eq_nil in E as [_ E].
  unfold check_name in E.
  destruct (strip (field_text r (u "Project Name"))); [discriminate|discriminate].
Qed.

Lemma project_names_trimmed_witness :
  analyze Samples.valid_csv = inr (Ok200 Samples.valid_body)
  ∧ Forall (λ p, project_name p ≠ [] ∧ trimmed (project_name p))
      (projects Samples.valid_body).
Proof.
  assert (analyze Samples.valid_csv = inr (Ok200 Samples.valid_body)) as E
    by (vm_compute; reflexivity).
  split; [exact E|]. exact (project_names_trimmed _ _ E).
Defined.

End Entries.

(** * The scoring functions *)

Module Grades.
Import App Spec Props FloatFacts Scoring.

Lemma whole_elem (n : Z) : 1 <= n <= 5 → In n Samples.whole_scores.
Proof. intros H. unfold Samples.whole_scores. cbn. lia. Qed.

Lemma for_whole_elim (f : Z → Z → Z → Z → bool) (i j e c : Z) :
  for_whole f = true → 1 <= i <= 5 → 1 <= j <= 5 → 1 <= e <= 5 → 1 <= c <= 5 →
  f i j e c = true.
Proof.
  unfold for_whole. intros H Hi Hj He Hc.
  rewrite List.forallb_forall in H. specialize (H i (whole_elem i Hi)).
  rewrite List.forallb_forall in H. specialize (H j (whole_elem j Hj)).
  rewrite List.forallb_forall in H. specialize (H e (whole_elem e He)).
  rewrite List.forallb_forall in H. exact (H c (whole_elem c Hc)).
Qed.


Lemma whole_steps_all : for_whole whole_steps = true.
Proof. vm_compute. reflexivity. Qed.



(** X12. "Effort and Cost are inverted so higher values penalize priority": on
    whole scores from 1 to 5, a point more of impact or of urgency gives a
    higher score, a point more of effort or of cost a lower one. *)
Theorem whole_scores_steps (i j e c : Z) :
  1 <= i <= 5 → 1 <= j <= 5 → 1 <= e <= 5 → 1 <= c <= 5 →
  (i < 5 → (whole_score i j e c <? whole_score (i + 1) j e c)%float = true)
  ∧ (j < 5 → (whole_score i j e c <? whole_score i (j + 1) e c)%float = true)
  ∧ (e < 5 → (whole_score i j (e + 1) c <? whole_score i j e c)%float = true)
  ∧ (c < 5 → (whole_score i j e (c + 1) <? whole_score i j e c)%float = true).
Proof.
  intros Hi Hj He Hc.
  pose proof (for_whole_elim _ i j e c whole_steps_all Hi Hj He Hc) as W.
  unfold whole_steps in W.
  apply andb_true_iff in W as [W W4]. apply andb_true_iff in W as [W W3].
  apply andb_true_iff in W as [W1 W2].
  apply orb_true_iff in W1, W2, W3, W4.
  repeat split; intros L;
    [destruct W1 as [W|W] | destruct W2 as [W|W]
     | destruct W3 as [W|W] | destruct W4 as [W|W]];
    try exact W; apply Z.leb_le in W; lia.
Qed.

Lemma whole_scores_steps_witness :
  (3 < 5 → (whole_score 3 3 3 3 <? whole_score (3 + 1) 3 3 3)%float = true)
  ∧ (3 < 5 → (whole_score 3 3 3 3 <? whole_score 3 (3 + 1) 3 3)%float = true)
  ∧ (3 < 5 → (whole_score 3 3 (3 + 1) 3 <? whole_score 3 3 3 3)%float = true)
  ∧ (3 < 5 → (whole_score 3 3 3 (3 + 1) <? whole_score 3 3 3 3)%float = true).
Proof.
  apply (whole_scores_steps 3 3 3 3); lia.
Defined.

(** X13. A higher score never gets a lower category. *)
Theorem category_monotone (s1 s2 : float) :
  (s1 <=? s2)%float = true →
  (get_priority_category s1 = u "High" → get_priority_category s2 = u "High")
  ∧ (get_priority_category s2 = u "Low" → get_priority_category s1 = u "Low")
  ∧ (get_priority_category s1 = u "Medium" → get_priority_category s2 ≠ u "Low").
Proof.
  intros L. destruct category_names as (HM & HL & ML).
  unfold get_priority_category.
  destruct (3.8 <=? s1)%float eqn:A1, (2.8 <=? s1)%float eqn:B1,
    (3.8 <=? s2)%float eqn:A2, (2.8 <=? s2)%float eqn:B2;
    repeat split; intros; try congruence; exfalso;
    try (pose proof (leb_trans _ _ _ A1 L); congruence);
    try (pose proof (leb_trans _ _ _ B1 L); congruence).
Qed.

Lemma category_monotone_witness :
  (get_priority_category 3.9 = u "High" → get_priority_category 4.5 = u "High")
  ∧ (get_priority_category 4.5 = u "Low" → get_priority_category 3.9 = u "Low")
  ∧ (get_priority_category 3.9 = u "Medium" → get_priority_category 4.5 ≠ u "Low").
Proof.
  apply (category_monotone 3.9 4.5). vm_compute. reflexivity.
Defined.

Lemma leb_4_2 : (4 <=? 2)%float = false.
Proof. reflexivity. Qed.

(** X14. The tags of an explanation are those of the six tests in
    their fixed order; "Low Effort" never comes with "High Effort", nor "Cost
    Efficient" with "Expensive", so there are four tags at most. *)
Theorem explanation_tags_exclusive (impact urgency effort cost : float) :
  get_explanation impact urgency effort cost
  = explanation_of (tags impact urgency effort cost)
  ∧ ¬ (u "Low Effort" ∈ tags impact urgency effort cost
       ∧ (u "High Effort" ++ [32; 0x26A0; 0xFE0F]) ∈ tags impact urgency effort cost)
  ∧ ¬ (u "Cost Efficient" ∈ tags impact urgency effort cost
       ∧ (u "Expensive" ++ [32; 0x26A0; 0xFE0F]) ∈ tags impact urgency effort cost)
  ∧ (length (tags impact urgency effort cost) <= 4)%nat.
Proof.
  split; [apply get_explanation_tags|].
  assert (∀ x, (x <=? 2)%float = true → (4 <=? x)%float = true → False) as X.
  { intros x A B. pose proof (leb_trans _ _ _ B A) as C. rewrite leb_4_2 in C.
    discriminate. }
  unfold tags, tag_if.
  destruct (4 <=? impact)%float, (4 <=? urgency)%float,
    (effort <=? 2)%float eqn:E1, (cost <=? 2)%float eqn:C1,
    (4 <=? effort)%float eqn:E2, (4 <=? cost)%float eqn:C2;
    try (exfalso; apply (X effort); assumption);
    try (exfalso; apply (X cost); assumption);
    (split; [apply (bool_decide_eq_false_1 _); vm_compute; reflexivity|]);
    (split; [apply (bool_decide_eq_false_1 _); vm_compute; reflexivity|]);
    cbn; lia.
Qed.

End Grades.

(** * The order of the categories *)

Module Blocks.
Import App Spec Props Pipeline Results Validation Sorting FloatFacts Scoring Ranking Success.

Lemma analyze_sorted (data : list Z) (body : payload) :
  analyze data = inr (Ok200 body) →
  Forall (λ p, not_nan (App.priority_score p)) (projects body) →
  non_increasing (projects body)
  ∧ Forall (λ p, priority_category p = get_priority_category (App.priority_score p))
      (projects body).
Proof.
  intros H N. destruct (analyze_ok_rows _ _ H) as [rows Hrows].
  rewrite (analyze_data_rows _ _ Hrows) in H.
  apply analyze_rows_ok in H as (ps & results & _ & _ & F & R & ->).
  cbn [projects] in *. subst results. split.
  - apply ranked_non_increasing.
    assert (Forall (λ p, not_nan (App.priority_score p))
              (py_sorted_reverse PrimFloat.ltb App.priority_score ps)) as N'.
    { rewrite Forall_forall in N |- *. intros p Hp.
      apply list_elem_of_lookup in Hp as [i Hi].
      specialize (N (set_rank p (1 + Z.of_nat i))). apply N.
      apply list_elem_of_lookup. exists i. rewrite lookup_add_rank, Hi. reflexivity. }
    now rewrite py_sorted_reverse_perm in N'.
  - apply Forall_add_rank; [auto|]. rewrite py_sorted_reverse_perm.
    apply (Forall2_Forall_scored _ rows ps F).
    intros _ r p _ (_ & _ & _ & _ & _ & _ & _ & S2 & _). exact S2.
Qed.

(** X15. In a successful response without a NaN score the categories come in
    blocks: every "High" project is ranked before every "Medium" one, and
    every "Medium" one before every "Low" one. *)
Theorem categories_in_blocks (data : list Z) (body : payload) :
  analyze data = inr (Ok200 body) →
  Forall (λ p, not_nan (App.priority_score p)) (projects body) →
  ∀ i j p q, (i < j)%nat → projects body !! i = Some p → projects body !! j = Some q →
    (priority_category q = u "High" → priority_category p = u "High")
    ∧ (priority_category p = u "Low" → priority_category q = u "Low")
    ∧ (priority_category q = u "Medium" → priority_category p ≠ u "Low").
Proof.
  intros H N i j p q Hij Hp Hq.
  destruct (analyze_sorted data body H N) as [S C].
  rewrite Forall_forall in C.
  rewrite (C p), (C q) by (apply list_elem_of_lookup; eauto).
  pose proof (S i j p q Hij Hp Hq) as L.
  destruct category_names as (HM & HL & ML).
  unfold get_priority_category.
  destruct (3.8 <=? App.priority_score q)%float eqn:A1,
    (2.8 <=? App.priority_score q)%float eqn:B1,
    (3.8 <=? App.priority_score p)%float eqn:A2,
    (2.8 <=? App.priority_score p)%float eqn:B2;
    repeat split; intros; try congruence; exfalso;
    try (pose proof (leb_trans _ _ _ A1 L); congruence);
    try (pose proof (leb_trans _ _ _ B1 L); congruence).
Qed.

Lemma categories_in_blocks_witness :
  analyze Samples.valid_csv = inr (Ok200 Samples.valid_body)
  ∧ Forall (λ p, not_nan (App.priority_score p)) (projects Samples.valid_body)
  ∧ ∀ i j p q, (i < j)%nat →
      projects Samples.valid_body !! i = Some p →
      projects Samples.valid_body !! j = Some q →
      (priority_category q = u "High" → priority_category p = u "High")
      ∧ (priority_category p = u "Low" → priority_category q = u "Low")
      ∧ (priority_category q = u "Medium" → priority_category p ≠ u "Low").
Proof.
  assert (analyze Samples.valid_csv = inr (Ok200 Samples.valid_body)) as E
    by (vm_compute; reflexivity).
  assert (Forall (λ p, not_nan (App.priority_score p)) (projects Samples.valid_body))
    as N by (repeat constructor; vm_compute; discriminate).
  split; [exact E|]. split; [exact N|].
  exact (categories_in_blocks Samples.valid_csv Samples.valid_body E N).
Defined.

End Blocks.

(** * The reader of the upload *)

Module Reading.
Import App Spec Props Csv.

Lemma process_char_inr (r : reader) (c : Z) :
  (st r = EAT_CRNL → (c = 10 ∨ c = 13)) →
  Z.of_nat (length (field r)) < field_limit →
  ∃ r', (process_char r (Some c) = inr r')
        ∧ (length (field r') <= S (length (field r)))%nat
        ∧ (st r' = EAT_CRNL → c = 10 ∨ c = 13).
Proof.
  intros E L. destruct r as [s fs f]. cbn [st field] in *.
  assert ((field_limit <=? Z.of_nat (length f)) = false) as L' by lia.
  assert (is_nl c = true → c = 10 ∨ c = 13) as N by (unfold is_nl; lia).
  assert (s = EAT_CRNL → is_nl c = true) as E'.
  { intros Hs. unfold is_nl. destruct (E Hs) as [->| ->]; reflexivity. }
  destruct (is_nl c) eqn:I, (c =? 34) eqn:Q, (c =? 44) eqn:K;
    destruct s; try (specialize (E' eq_refl); discriminate);
    cbn [process_char st]; unfold add_char, save_field, set_state;
    cbn [field fields st]; rewrite ?I, ?Q, ?K, ?L';
    (eexists; split; [reflexivity|]); cbn [field st];
    rewrite ?length_app; cbn [length]; (split; [lia|]);
    first [discriminate | intros _; now apply N].
Qed.

Lemma process_char_end (r : reader) :
  ∃ r', process_char r None = inr r' ∧ st r' ≠ EAT_CRNL
        ∧ (length (field r') <= length (field r))%nat.
Proof.
  destruct r as [s fs f].
  destruct s; cbn [process_char st]; unfold save_field, set_state;
    eexists; (split; [reflexivity|]); cbn [st field length]; split;
    first [discriminate | lia].
Qed.

Lemma line_ends_tail (c : Z) (l : str) : line_ends (c :: l) → line_ends l.
Proof. intros H i Hi. specialize (H (S i) Hi). cbn in H. lia. Qed.

Lemma crlf_only_tail (c : Z) (l : str) : crlf_only (c :: l) → crlf_only l.
Proof. intros H i Hi. exact (H (S i) Hi). Qed.

Lemma process_line_inr (l : str) (r : reader) :
  line_ends l → crlf_only l →
  (st r = EAT_CRNL → l = [] ∨ l = [10]) →
  Z.of_nat (length (field r) + length l) < field_limit →
  ∃ r', process_line r l = inr r' ∧ st r' ≠ EAT_CRNL
        ∧ (length (field r') <= length (field r) + length l)%nat.
Proof.
  revert r. induction l as [|c l IH]; intros r E C J L.
  - cbn [process_line]. destruct (process_char_end r) as (r' & -> & S' & F').
    exists r'. split; [reflexivity|]. split; [assumption|lia].
  - cbn [process_line].
    destruct (process_char_inr r c) as (r1 & -> & F1 & S1).
    { intros Hst. destruct (J Hst) as [?|[= -> ->]]; [discriminate|auto]. }
    { cbn [length] in L. lia. }
    destruct (IH r1) as (r' & -> & S' & F').
    + eapply line_ends_tail; eassumption.
    + eapply crlf_only_tail; eassumption.
    + intros Hst. destruct (S1 Hst) as [->| ->].
      * left. specialize (E 0%nat eq_refl). cbn in E. destruct l; [reflexivity|discriminate].
      * right. pose proof (C 0%nat eq_refl) as C1. cbn in C1.
        destruct l as [|d l]; [discriminate|]. injection C1 as ->.
        specialize (E 1%nat eq_refl). cbn in E. destruct l; [reflexivity|discriminate].
    + cbn [length] in L. lia.
    + exists r'. split; [reflexivity|]. split; [assumption|]. cbn [length]. lia.
Qed.

Lemma records_no_error (lines : list str) (r : reader) :
  Forall (λ l, line_ends l ∧ crlf_only l) lines →
  st r ≠ EAT_CRNL →
  Z.of_nat (length (field r) + length (concat lines)) < field_limit →
  (records lines r).2 = None.
Proof.
  intros F. revert r. induction F as [|l lines [E C] _ IH]; intros r S0 L.
  - cbn [records]. destruct (field r), (st r); reflexivity.
  - cbn [records concat] in *. rewrite length_app in L.
    destruct (process_line_inr l r E C) as (r' & -> & S' & F'); [tauto|lia|].
    destruct (st r') eqn:S1.
    + specialize (IH reset). destruct (records lines reset) as [rs e].
      cbn [snd] in *. apply IH; [discriminate|]. cbn. lia.
    + apply IH; [congruence|lia].
    + apply IH; [congruence|lia].
    + apply IH; [congruence|lia].
    + apply IH; [congruence|lia].
    + congruence.
Qed.

Lemma lines_from_lines (s cur : str) :
  10 ∉ cur → crlf_only (cur ++ s) →
  Forall (λ l, line_ends l ∧ crlf_only l) (lines_from cur s)
  ∧ length (concat (lines_from cur s)) = (length cur + length s)%nat.
Proof.
  unfold crlf_only, line_ends, str in *.
  revert cur. induction s as [|c s IH]; intros cur N C.
  - cbn [lines_from]. rewrite app_nil_r in C. destruct cur as [|x cur].
    + split; [constructor|reflexivity].
    + split; [|cbn; rewrite app_nil_r; cbn; lia].
      constructor; [|constructor]. split; [|exact C].
      intros i Hi. exfalso. apply N. apply list_elem_of_lookup. eauto.
  - cbn [lines_from]. destruct (Z.eqb_spec c 10) as [->|Nc].
    + destruct (IH []) as [F Len].
      { apply not_elem_of_nil. }
      { intros i Hi. specialize (C (length cur + S i)%nat).
        rewrite lookup_app_r in C by lia.
        replace (length cur + S i - length cur)%nat with (S i) in C by lia.
        specialize (C Hi).
        rewrite lookup_app_r in C by lia.
        replace (S (length cur + S i) - length cur)%nat with (S (S i)) in C by lia.
        exact C. }
      split.
      * constructor; [|exact F]. split.
        -- intros i Hi. rewrite length_app. cbn [length].
           destruct (decide (i < length cur)%nat) as [Lt|Ge].
           ++ rewrite lookup_app_l in Hi by assumption. exfalso. apply N.
              apply list_elem_of_lookup. eauto.
           ++ apply lookup_lt_Some in Hi. rewrite length_app in Hi. cbn in Hi. lia.
        -- intros i Hi.
           destruct (decide (i < length cur)%nat) as [Lt|Ge].
           ++ specialize (C i). rewrite lookup_app_l in C, Hi by assumption.
              specialize (C Hi).
              destruct (decide (S i < length cur)%nat) as [Lt'|Ge'].
              ** rewrite lookup_app_l in C |- * by assumption. exact C.
              ** rewrite lookup_app_r by lia.
                 replace (S i - length cur)%nat with 0%nat by lia. reflexivity.
           ++ apply lookup_lt_Some in Hi as Hl. rewrite length_app in Hl. cbn in Hl.
              rewrite lookup_app_r in Hi by lia.
              replace (i - length cur)%nat with 0%nat in Hi by lia. discriminate.
      * cbn [concat]. rewrite length_app, Len, length_app. cbn. lia.
    + destruct (IH (cur ++ [c])) as [F Len].
      { rewrite not_elem_of_app. split; [exact N|].
        intros H. apply list_elem_of_singleton in H. congruence. }
      { now rewrite <- app_assoc. }
      split; [exact F|]. rewrite Len, length_app. cbn. lia.
Qed.

Lemma read_no_error (text : str) :
  crlf_only text → Z.of_nat (length text) < field_limit → (read text).2 = None.
Proof.
  intros C L. unfold read.
  destruct (lines_from_lines text []) as [F Len]; [apply not_elem_of_nil|exact C|].
  apply records_no_error; [exact F|discriminate|].
  rewrite Len. cbn. exact L.
Qed.

Lemma message_char_app (n : nat) (c : Z) (s t : str) :
  s !! n = Some c → message_char n (inr (Error400 (s ++ t))) = c.
Proof. intros H. unfold message_char. now rewrite (lookup_app_l_Some _ _ _ _ H). Qed.

Lemma message_char_csv_error (e : Csv.error) :
  message_char 0 (inr (csv_error e)) = 67 ∧ message_char 4 (inr (csv_error e)) = 112.
Proof. destruct e; vm_compute; auto. Qed.

(** X16. A "CSV parsing error" needs a long text or a stray carriage return:
    an upload whose text has fewer than 131072 characters and in which
    every carriage return is followed by a line feed never gets it. *)
Theorem no_csv_error (data : list Z) (text : str) :
  Utf8.decode_sig data = Some text →
  crlf_only text →
  Z.of_nat (length text) < field_limit →
  (Csv.read text).2 = None ∧ ∀ e, analyze data ≠ inr (csv_error e).
Proof.
  intros D C L. pose proof (read_no_error text C L) as R.
  split; [exact R|]. intros e H. apply (f_equal (message_char 0)) in H.
  rewrite (proj1 (message_char_csv_error e)) in H. unfold analyze in H. rewrite D in H.
  destruct (Csv.read text) as [[|header records] err]; cbn [snd] in R; subst err.
  - vm_compute in H. discriminate.
  - unfold analyze_table in H.
    destruct (bool_decide _).
    { rewrite (message_char_app 0 77) in H by reflexivity. discriminate. }
    destruct (dict_rows (strip <$> header) records) as [|r rows];
      [vm_compute in H; discriminate|].
    unfold analyze_rows in H.
    destruct (validate_rows (r :: rows) 2 []) as [x|[|m ms]]; cbn [bind] in H;
      [discriminate| |rewrite (message_char_app 0 86) in H by reflexivity; discriminate].
    destruct (score_rows (r :: rows) []); cbn [bind message_char] in H; discriminate.
Qed.

Lemma crlf_check_ok (text : str) : crlf_check text = true → crlf_only text.
Proof.
  induction text as [|c t IH]; intros H i Hi; [discriminate|].
  cbn [crlf_check] in H. apply andb_true_iff in H as [H1 H2].
  destruct i as [|i]; [|exact (IH H2 i Hi)].
  injection Hi as ->. cbn in H1. destruct t as [|d t]; [discriminate|].
  cbn. f_equal. destruct (Z.eqb_spec d 10); [assumption|].
  destruct d as [|p|p]; try discriminate.
  repeat (destruct p as [p|p|]; try discriminate). congruence.
Qed.

Lemma no_csv_error_witness :
  Utf8.decode_sig Cases.crlf_csv = Some Cases.crlf_text
  ∧ 13 ∈ Cases.crlf_text
  ∧ (Csv.read Cases.crlf_text).2 = None
  ∧ ∀ e, analyze Cases.crlf_csv ≠ inr (csv_error e).
Proof.
  assert (Utf8.decode_sig Cases.crlf_csv = Some Cases.crlf_text) as D
    by (vm_compute; reflexivity).
  split; [exact D|]. split; [apply (bool_decide_eq_true_1 _); vm_compute; reflexivity|].
  apply (no_csv_error Cases.crlf_csv Cases.crlf_text D).
  - apply crlf_check_ok. vm_compute. reflexivity.
  - vm_compute. reflexivity.
Defined.

End Reading.

(** * White space and the byte-order mark *)

Module Padding.
Import App Spec Props RowFacts Entries.

Lemma lstrip_trimmed (s : str) :
  (∀ c t, s = c :: t → is_space c = false) → lstrip s = s.
Proof.
  destruct s as [|c t]; [reflexivity|]. intros H. cbn.
  now rewrite (H c t eq_refl).
Qed.

Lemma strip_idemp (s : str) : strip (strip s) = strip s.
Proof.
  destruct (strip_trimmed s) as [H1 H2]. generalize dependent (strip s).
  intros t H1 H2. unfold strip, rstrip. rewrite (lstrip_trimmed t H1).
  rewrite lstrip_trimmed; [apply reverse_involutive|].
  intros c t' E. apply (f_equal reverse) in E.
  rewrite reverse_involutive, reverse_cons in E. exact (H2 _ _ E).
Qed.

Lemma method_strip_same (r r' : row) (c : str) :
  same_stripped r r' →
  method_strip (dict_get r c (Some [])) = method_strip (dict_get r' c (Some [])).
Proof.
  intros H. specialize (H c). unfold dict_get.
  destruct (r !! c) as [[s|]|], (r' !! c) as [[s'|]|]; cbn in H |- *;
    congruence.
Qed.

Lemma validate_scores_stripped (r r' : row) (row_index : Z) (fields errors : list str) :
  same_stripped r r' →
  validate_scores r row_index fields errors = validate_scores r' row_index fields errors.
Proof.
  intros H. revert errors. induction fields as [|f fields IH]; intros errors;
    [reflexivity|].
  cbn [validate_scores]. rewrite (method_strip_same r r' f H).
  destruct (method_strip _) as [e|[|c val]]; cbn [bind]; [reflexivity|apply IH|].
  destruct (PyFloat.of_str (c :: val)); [|apply IH].
  destruct (_ || _); apply IH.
Qed.

Lemma validate_row_stripped (r r' : row) (row_index : Z) :
  same_stripped r r' → validate_row r row_index = validate_row r' row_index.
Proof.
  intros H. unfold validate_row.
  rewrite (validate_scores_stripped r r' _ _ _ H).
  now rewrite (method_strip_same r r' _ H).
Qed.

Lemma score_row_stripped (r r' : row) :
  same_stripped r r' → score_row r = score_row r'.
Proof.
  intros H. unfold score_row, dict_item.
  pose proof (H (u "Impact Score")) as H1. pose proof (H (u "Urgency Score")) as H2.
  pose proof (H (u "Effort Score")) as H3. pose proof (H (u "Cost Score")) as H4.
  pose proof (H (u "Project Name")) as H5. unfold row in *.
  destruct (r !! u "Impact Score") as [[s1|]|], (r' !! u "Impact Score") as [[s1'|]|];
    cbn in H1; try discriminate; try reflexivity.
  injection H1 as H1. cbn [bind method_strip]. rewrite H1.
  destruct (to_float (strip s1')); cbn [bind]; [reflexivity|].
  destruct (r !! u "Urgency Score") as [[s2|]|], (r' !! u "Urgency Score") as [[s2'|]|];
    cbn in H2; try discriminate; try reflexivity.
  injection H2 as H2. cbn [bind method_strip]. rewrite H2.
  destruct (to_float (strip s2')); cbn [bind]; [reflexivity|].
  destruct (r !! u "Effort Score") as [[s3|]|], (r' !! u "Effort Score") as [[s3'|]|];
    cbn in H3; try discriminate; try reflexivity.
  injection H3 as H3. cbn [bind method_strip]. rewrite H3.
  destruct (to_float (strip s3')); cbn [bind]; [reflexivity|].
  destruct (r !! u "Cost Score") as [[s4|]|], (r' !! u "Cost Score") as [[s4'|]|];
    cbn in H4; try discriminate; try reflexivity.
  injection H4 as H4. cbn [bind method_strip]. rewrite H4.
  destruct (to_float (strip s4')); cbn [bind]; [reflexivity|].
  destruct (r !! u "Project Name") as [[s5|]|], (r' !! u "Project Name") as [[s5'|]|];
    cbn in H5; try discriminate; try reflexivity.
  injection H5 as H5. cbn [bind method_strip]. now rewrite H5.
Qed.

Lemma validate_rows_stripped (rows rows' : list row) (idx : Z) (errors : list str) :
  Forall2 same_stripped rows rows' →
  validate_rows rows idx errors = validate_rows rows' idx errors.
Proof.
  intros F. revert idx errors.
  induction F as [|r r' rows rows' Hr _ IH]; intros idx errors; [reflexivity|].
  cbn [validate_rows]. rewrite (validate_row_stripped r r' idx Hr).
  destruct (validate_row r' idx); cbn [bind]; [reflexivity|apply IH].
Qed.

Lemma score_rows_stripped (rows rows' : list row) (results : list project) :
  Forall2 same_stripped rows rows' → score_rows rows results = score_rows rows' results.
Proof.
  intros F. revert results.
  induction F as [|r r' rows rows' Hr _ IH]; intros results; [reflexivity|].
  cbn [score_rows]. rewrite (score_row_stripped r r' Hr).
  destruct (score_row r'); cbn [bind]; [reflexivity|apply IH].
Qed.

Lemma analyze_rows_stripped (rows rows' : list row) :
  Forall2 same_stripped rows rows' → analyze_rows rows = analyze_rows rows'.
Proof.
  intros F. unfold analyze_rows.
  rewrite (validate_rows_stripped rows rows' 2 [] F).
  destruct (validate_rows rows' 2 []) as [e|[|]]; cbn [bind]; try reflexivity.
  now rewrite (score_rows_stripped rows rows' [] F).
Qed.

Lemma fold_put_fmap (l : list (str * str)) (d : row) :
  fold_left put (trim_item <$> l) (trim_row d) = trim_row (fold_left put l d).
Proof.
  revert d. induction l as [|[k v] l IH]; intros d; [reflexivity|].
  cbn [fmap list_fmap fold_left]. rewrite <- IH. f_equal.
  unfold put, trim_row, trim_item, row. cbn [fst snd]. now rewrite fmap_insert.
Qed.

Lemma fold_put_none_fmap (l : list str) (d : row) :
  fold_left put_none l (trim_row d) = trim_row (fold_left put_none l d).
Proof.
  revert d. induction l as [|k l IH]; intros d; [reflexivity|].
  cbn [fold_left]. rewrite <- IH. f_equal.
  unfold put_none, trim_row, row. now rewrite fmap_insert.
Qed.

Lemma zip_fmap_strip (h record : list str) :
  zip h (strip <$> record) = (trim_item <$> zip h record).
Proof.
  revert record. induction h as [|x h IH]; intros [|y record]; try reflexivity.
  cbn. now rewrite <- IH.
Qed.

Lemma dict_row_fmap (fieldnames record : list str) :
  dict_row fieldnames (strip <$> record) = trim_row (dict_row fieldnames record).
Proof.
  rewrite !dict_row_unfold, length_fmap, zip_fmap_strip.
  rewrite <- fold_put_none_fmap, <- fold_put_fmap.
  unfold trim_row, row. now rewrite fmap_empty.
Qed.

Lemma dict_row_stripped (fieldnames record : list str) :
  same_stripped (dict_row fieldnames record) (dict_row fieldnames (strip <$> record)).
Proof.
  intros c. rewrite dict_row_fmap. unfold trim_row, row. rewrite lookup_fmap.
  destruct (_ !! c) as [[s|]|]; cbn; try reflexivity.
  now rewrite strip_idemp.
Qed.

(** X17. White space around the values is ignored, as it is around the header
    names: a table gets the response of the table with every header name
    and every field trimmed. *)
Theorem padding_ignored (header : list str) (records : list (list str))
    (err : option Csv.error) :
  analyze_table header records err
  = analyze_table (strip <$> header) (trim_record <$> records) err.
Proof.
  unfold analyze_table.
  assert (strip <$> (strip <$> header) = strip <$> header) as ->.
  { rewrite <- list_fmap_compose. apply list_fmap_ext. intros _ s _. apply strip_idemp. }
  destruct (bool_decide _); [reflexivity|]. destruct err; [reflexivity|].
  assert (Forall2 same_stripped (dict_rows (strip <$> header) records)
            (dict_rows (strip <$> header) (trim_record <$> records))) as F.
  { unfold dict_rows. induction records as [|record records IH]; [constructor|].
    cbn [fmap list_fmap]. rewrite !filter_cons.
    destruct (decide (record ≠ [])) as [N|N], (decide (trim_record record ≠ [])) as [N'|N'].
    - cbn [fmap list_fmap]. constructor; [apply dict_row_stripped|exact IH].
    - destruct record; [congruence|]. exfalso. apply N'. discriminate.
    - destruct record; [|exfalso; apply N; discriminate]. exfalso. now apply N'.
    - exact IH. }
  destruct F as [|r r' rows rows' Hr F]; [reflexivity|].
  apply analyze_rows_stripped. now constructor.
Qed.

Ltac split_byte a :=
  let p := fresh "p" in
  destruct a as [|p|p]; try reflexivity;
  repeat (destruct p as [p|p|]; try reflexivity).

Lemma decode_sig_plain (data : list Z) :
  (∀ r, data ≠ 0xEF :: 0xBB :: 0xBF :: r) →
  Utf8.decode_sig data = Utf8.decode data.
Proof.
  intros H. unfold Utf8.decode_sig.
  destruct data as [|a [|b [|c r]]];
    [reflexivity | solve [split_byte a] | solve [split_byte a; split_byte b] |].
  destruct (decide (a = 0xEF)) as [->|Na]; [|split_byte a; congruence].
  destruct (decide (b = 0xBB)) as [->|Nb]; [|split_byte b; congruence].
  destruct (decide (c = 0xBF)) as [->|Nc]; [|split_byte c; congruence].
  now specialize (H r).
Qed.

(** X18. One byte-order mark is dropped, and only one. An upload that
    does not itself begin with a byte-order mark gets the same response with
    a mark put in front; with two marks in front the second one stays in the
    text, as the character U+FEFF before the first header name. *)
Theorem bom_ignored (data : list Z) :
  (∀ r, data ≠ 0xEF :: 0xBB :: 0xBF :: r) →
  analyze (0xEF :: 0xBB :: 0xBF :: data) = analyze data
  ∧ Utf8.decode_sig (0xEF :: 0xBB :: 0xBF :: 0xEF :: 0xBB :: 0xBF :: data)
    = cons 0xFEFF <$> Utf8.decode_sig data.
Proof.
  intros H. split.
  - unfold analyze. rewrite (decode_sig_plain data H). reflexivity.
  - rewrite (decode_sig_plain data H). reflexivity.
Qed.

Lemma bom_ignored_witness :
  analyze (0xEF :: 0xBB :: 0xBF :: Samples.valid_csv) = analyze Samples.valid_csv
  ∧ Utf8.decode_sig (0xEF :: 0xBB :: 0xBF :: 0xEF :: 0xBB :: 0xBF :: Samples.valid_csv)
    = cons 0xFEFF <$> Utf8.decode_sig Samples.valid_csv.
Proof.
  apply (bom_ignored Samples.valid_csv). intros r. vm_compute. discriminate.
Defined.

End Padding.

(** * The two messages about the file as a whole *)

Module Messages.
Import App Spec Props Csv Reading.

Lemma process_line_state (l : str) (r r' : reader) :
  process_line r l = inr r' → st r' = START_RECORD ∨ st r' = IN_QUOTED_FIELD.
Proof.
  revert r. induction l as [|c l IH]; intros r; cbn [process_line].
  - destruct r as [s fs f]. destruct s; cbn; intros [= <-]; cbn; auto.
  - destruct (process_char r (Some c)) as [e|r1]; [discriminate|]. apply IH.
Qed.

Lemma records_some (lines : list str) (r : reader) :
  lines ≠ [] ∨ st r = IN_QUOTED_FIELD → records lines r ≠ ([], None).
Proof.
  revert r. induction lines as [|l lines IH]; intros r H.
  - destruct H as [H|H]; [congruence|]. cbn [records]. rewrite H.
    destruct (field r); discriminate.
  - cbn [records]. destruct (process_line r l) as [e|r'] eqn:P; [discriminate|].
    destruct (process_line_state _ _ _ P) as [S|S]; rewrite S.
    + destruct (records lines reset). discriminate.
    + apply IH. now right.
Qed.

Lemma lines_from_some (s cur : str) : cur ≠ [] ∨ s ≠ [] → lines_from cur s ≠ [].
Proof.
  revert cur. induction s as [|c s IH]; intros cur H; cbn [lines_from].
  - destruct H as [H|H]; [|congruence]. destruct cur; [congruence|discriminate].
  - destruct (c =? 10); [discriminate|]. apply IH. left.
    destruct cur; discriminate.
Qed.

Lemma read_nothing (text : str) : read text = ([], None) → text = [].
Proof.
  intros H. destruct text as [|c text]; [reflexivity|]. exfalso.
  revert H. apply records_some. left. apply lines_from_some. now right.
Qed.

Lemma analyze_messages (data : list Z) (text msg : str) :
  Utf8.decode_sig data = Some text →
  analyze data = inr (Error400 msg) →
  (text = [] ∧ msg = u "The uploaded CSV file appears to be empty.")
  ∨ (∃ e, msg = u "CSV parsing error: " ++ Csv.message e)
  ∨ (∃ t, msg = u "Missing required columns: " ++ t)
  ∨ msg = u "The CSV file contains headers but no project data rows."
  ∨ (∃ t, msg = u "Validation errors found:" ++ t).
Proof.
  intros D. unfold analyze. rewrite D.
  destruct (Csv.read text) as [[|header records] err] eqn:R.
  - destruct err as [e|]; intros [= <-]; [right; left; eauto|].
    left. split; [now apply read_nothing|reflexivity].
  - unfold analyze_table. destruct (bool_decide _).
    { intros [= <-]. right. right. left. eauto. }
    destruct err as [e|]; [intros [= <-]; right; left; eauto|].
    destruct (dict_rows (strip <$> header) records) as [|r rows];
      [intros [= <-]; auto|].
    unfold analyze_rows.
    destruct (validate_rows (r :: rows) 2 []) as [x|[|m ms]]; cbn [bind];
      [discriminate| |intros [= <-]; repeat right; eauto].
    destruct (score_rows (r :: rows) []); cbn [bind]; discriminate.
Qed.

(** X19. The two messages about the file as a whole say what they mean:
    the upload is answered "Unable to read the file" exactly when its bytes
    are no UTF-8 text, and "appears to be empty" exactly when the text has no
    character at all (a file of blank lines is not empty). *)
Theorem unreadable_and_empty (data : list Z) :
  (analyze data
   = inr (Error400 (u "Unable to read the file. Ensure it is a valid UTF-8 CSV."))
   ↔ Utf8.decode_sig data = None)
  ∧ (analyze data = inr (Error400 (u "The uploaded CSV file appears to be empty."))
     ↔ Utf8.decode_sig data = Some []).
Proof.
  split.
  - split; [|intros D; unfold analyze; now rewrite D].
    intros H. destruct (Utf8.decode_sig data) as [text|] eqn:D; [|reflexivity].
    exfalso.
    destruct (analyze_messages _ _ _ D H)
      as [[_ E]|[[[|] E]|[[t E]|[E|[t E]]]]]; vm_compute in E; discriminate.
  - split; [|intros D; unfold analyze; now rewrite D].
    intros H. destruct (Utf8.decode_sig data) as [text|] eqn:D.
    + destruct (analyze_messages _ _ _ D H)
        as [[-> _]|[[[|] E]|[[t E]|[E|[t E]]]]]; [reflexivity|..];
        vm_compute in E; discriminate.
    + unfold analyze in H. rewrite D in H. vm_compute in H. discriminate.
Qed.

End Messages.

(** * The rows of short records *)

Module Defects.
Import App Spec Props.

(** C5 fails on the row [short_row], the one the reader builds for the
    record "Alpha,4" under the header of five names: the three fields the
    record lacks hold [None], and [validate_row] raises [AttributeError] at
    the first of them where the claim has it return their three "missing or
    empty" errors. It does so on every row that holds [None] under a
    required field. *)
Theorem validate_row_none_raises :
  Samples.short_row = dict_row Samples.sample_header [u "Alpha"; u "4"]
  ∧ Samples.short_row !! u "Urgency Score" = Some None
  ∧ validate_row Samples.short_row 2 = inl AttributeError
  ∧ row_errors Samples.short_row 2
    = [u "Row 2: 'Urgency Score' is missing or empty.";
       u "Row 2: 'Effort Score' is missing or empty.";
       u "Row 2: 'Cost Score' is missing or empty."]
  ∧ (∀ r row_index, texts_only r = false → validate_row r row_index = inl AttributeError).
Proof.
  split; [vm_compute; reflexivity|]. split; [vm_compute; reflexivity|].
  split; [vm_compute; reflexivity|]. split; [vm_compute; reflexivity|].
  intros r row_index. apply Validation.validate_row_raises.
Qed.

(** C4 fails on the upload [mixed_csv], whose first data row has an
    impact of 9 and whose second is shorter than the header: the errors of
    the two rows are not empty, yet the validation loop raises
    [AttributeError] at the second row and [analyze] returns no message at
    all, the error of the first row included. *)
Theorem validation_errors_lost :
  data_rows Cases.mixed_csv = Some Cases.mixed_rows
  ∧ batch_errors Cases.mixed_rows
    = [u "Row 2: 'Impact Score' must be between 1 and 5 (got 9.0).";
       u "Row 3: 'Urgency Score' is missing or empty.";
       u "Row 3: 'Effort Score' is missing or empty.";
       u "Row 3: 'Cost Score' is missing or empty."]
  ∧ (∃ r1 r2, Cases.mixed_rows = [r1; r2]
       ∧ validate_row r1 2
         = inr [u "Row 2: 'Impact Score' must be between 1 and 5 (got 9.0)."]
       ∧ validate_row r2 3 = inl AttributeError)
  ∧ analyze Cases.mixed_csv = inl AttributeError.
Proof.
  split; [vm_compute; reflexivity|]. split; [vm_compute; reflexivity|]. split.
  - eexists _, _. split; [reflexivity|]. split; vm_compute; reflexivity.
  - vm_compute. reflexivity.
Qed.

End Defects.
